(* ===== verification/_CoqProject ===== *)
-Q . S2P
Prelude.v
Geo.v
State.v
Metrics.v
Assistant.v
Milestone.v
Fusion.v
Voice.v
Session.v
Recognition.v
Speech.v
Display.v
Setup.v
EventLoop.v
Invariants.v
Safety.v
Liveness.v
Handles.v
AIToggle.v
ServiceWorker.v
SwLifecycle.v
Pwa.v
