(* ===== verification/Prelude.v ===== *)
(** * Runflow: a verification development of the Runflow running-tracker PWA

    The program (src/app.js, with the service worker src/sw.js) tracks a run in
    a browser.  Its module-level variables (app.js lines 14-33) hold the whole
    state: [isRunning], [startTime], [totalDistance], the window [positions],
    [watchId], [stepCount], [estimatedDistanceFromSteps], [lastAnnouncedKm],
    [voiceRecognition], [wakeLock], [useAI] and the [aiCoach] object.  Event
    handlers registered with the browser mutate them:
    - the geolocation watch callback of [startGPSTracking] (position fusion:
      throttling, accuracy gate, drift / speed / jump filter, FIFO window);
    - [handleMotion] (step counting and the 70/30 GPS/step blend);
    - [updateUI] / [checkAudioCues] (kilometre milestones);
    - the speech-recognition callbacks of [startVoiceMonitoring] and
      [processVoiceCommand] / [handleBasicCommand] (voice commands, routed to
      the [AICoach] class or answered locally);
    - [startRun] / [stopRun] / [saveRunHistory] (session lifecycle, history in
      localStorage capped at 50 records).
    The service worker (src/sw.js) is a separate program sharing nothing
    with the page but the origin: it caches the application shell at
    install, deletes older caches at activation and answers the page's
    requests cache-first.

    ** Files, in dependency order
    - [Prelude] (this file): the JavaScript number, string and array
      operations the code uses ([Math.floor], [Math.round], [toFixed],
      [padStart], [toLowerCase], [trim], [includes], [push]/[shift],
      [slice(-n)]), the [jsnum] type of IEEE division results, the notation
      scope [rf_scope], the hint database [runflow] and shared lemmas.
    - [Geo]: [calculateDistance], the haversine formula, over the reals of
      the Standard Library (it uses sin, cos, sqrt and atan2, which have no
      executable counterpart on rationals).
    - [Metrics]: [calculateTimeElapsed], [calculatePace], [formatTime] and the
      speed / calorie formulas of [updateUI] and [stopRun].
    - [State]: the record [Globals] of the module-level variables, the
      [AICoach] object, and the [Effect] values handlers emit (speech, timers,
      assistant requests).
    - [Assistant]: the [AICoach] class: [queryGemini] with its error results,
      its conversation history capped at 10, [handleCommand], [getRunSummary].
    - [Milestone]: [checkAudioCues] and [speakBasicMilestone].
    - [Fusion]: the watch callback of [startGPSTracking] and [handleMotion].
    - [Voice]: [handleBasicCommand], [processVoiceCommand] and its resumption
      after the assistant answers.
    - [Session]: [startRun], [stopRun], [saveRunHistory] and the history
      store, over [World] (the globals plus what the browser holds: storage,
      geolocation watches, recognizers, the motion listener).
    - [Recognition]: the restart loop of the continuous recognition:
      [onerror], [onend] and the restart callback ([restart_fire]).
    - [Speech]: [speak]: the synthesizer's voices and queue, the choice of
      the preferred voice, and the cancellation of what is playing.
    - [Display]: the page writes of [updateUI] (distance, clock, pace,
      speed and calories texts) and the [disabled] flags [startRun] and
      [stopRun] set on the start and stop buttons, as a [Display] record;
      [startRun_display] follows [startRun_resume] and applies the writes
      of its two [updateUI] calls.
    - [Setup]: the page elements the start-up code builds: the AI toggle
      button ([addAIToggleButton], [updateAIToggleButton]), the buttons
      [checkPermissions] disables, the network indicator and the on-screen
      debug log.
    - [EventLoop]: the page as one state machine: [Sys] adds to [World] the
      pending [setTimeout] callbacks, the assistant requests in flight with
      their continuations, the [startRun] calls awaiting their position,
      the spoken texts, the manual recognitions of the voice button and
      the AI toggle button of the page, which the effect [UpdateAIButton]
      (a call of [updateAIToggleButton]) updates;
      [sys_step] runs the handler of one [Event];
      [reachable] is the set of states reachable from start-up.
    - [Invariants]: the state invariant of every reachable state.
    - [Safety]: what a stopped page can still do, and that its pending
      callbacks drain.
    - [Liveness]: the recognition loop under a fair browser, and what one
      refused restart does.
    - [Handles]: the well-formedness of the browser handles ([watchId],
      [voiceRecognition]) in every reachable state.
    - [AIToggle]: the AI toggle button against the assistant mode, over
      the whole event loop.
    - [ServiceWorker]: src/sw.js: CacheStorage as a list of named caches,
      each a [gmap] from URL to response; [install], [activate],
      [fetch_handler] (with the network's answer as an input) and
      [put_settle] for the [cache.put] it leaves running.
    - [SwLifecycle]: the worker's phases (install, [skipWaiting],
      activate, [clients.claim]) and its events in any order, the pending
      [cache.put]s as steps of their own, and the [sync] listener.
    - [Pwa]: [setupPWAInstall]: the shared [deferredPrompt], the install
      button, the click listeners each offer adds, [prompt()] and the
      [userChoice] callbacks, as a step function over [PwaEvent]s.

    ** Modelling choices
    - JavaScript numbers are modelled as exact rationals [Q]; the IEEE
      rounding of doubles is not modelled.  Where the code divides by a value
      that can be zero (the implied speed of a fix), the result is a [jsnum]
      with the infinities and NaN that IEEE division produces, and the
      comparisons follow IEEE ([NaN < x] is false).  Timestamps
      ([Date.now()]) are integers of milliseconds, [Z].
    - Strings are Stdlib [string]s of 8-bit characters; [toLowerCase] maps
      A-Z only and [trim] strips the whitespace characters of that range.
    - Every handler takes the current time [now] as an argument: the code
      reads [Date.now()] inside the handler.
    - Handlers return the new [Globals] and the list of [Effect]s they emit,
      in order; an asynchronous call ([await aiCoach.handleCommand]) is an
      [Ask] effect naming the continuation, resumed by a separate function.

    - The event loop lets the environment choose which pending timer or
      answer runs next: delays and latency are not modelled, so the loop
      theorems hold for every interleaving, a superset of the real ones.

    ** Theorems, by file (claim ids C1-C40 in the doc comments)
    - [Fusion] (C1-C3, C5, C7, C31): the watch callback refines the abstract
      contract [fix_spec] (drop / anchor / accept a 5-100 m step into a
      20-entry FIFO window); along any sequence of fixes and motion events
      the distance never decreases and the window stays bounded; each branch
      of the callback (the accuracy gate; throttle, filter rejection and
      acceptance are kept as lemmas), the exact acceptance condition, the blend rule, and a
      fix timestamped in the past passing the speed check.  The distance
      function is a section variable: the results hold for any
      [calculateDistance], the haversine included.
    - [Milestone] (C9, C10): one announcement per crossing, of the newest
      kilometre at the current pace (template or coach request), jumping to
      it; announced kilometres strictly increase along any
      sequence of distances.
    - [Session] (C13-C15, C17, C18): stop is idempotent and saves exactly one record
      on both summary paths; the history holds at most 50 records, FIFO;
      what a successful or failed start does; the saved run time includes
      the coach's latency; a double start leaves an orphan watch that keeps
      adding distance after the stop.
    - [Voice] (C19, C21, C23): stop scheduling on the local and coach
      routes (its absence when the coach fails is kept as a lemma); a
      locally answered command that mentions stopping ends the run
      whatever intent it is answered by ([intent_of], the keyword groups
      in the spec's priority order); for every distance question worded
      with "distance" the [catch] fallback echoes instead of answering.
    - [Metrics] (C26, C27): the pace seconds field in [0, 60] (a pace can
      print as 5:60), and the round trip of the clock format: the text [formatTime] prints reads back as the whole seconds
      elapsed ([parse_clock], through the Standard Library's decimal
      strings).
    - [Assistant] (C28): conversation history at most 10 turns (a saved
      preference "off" overridden at start-up, and errors as values
      leaving the coach unchanged, are kept as lemmas).
    - [Display] (C22, C30): [updateUI] rewrites every text of the page
      exactly when the run has a start time and more than 0.01 km; so a
      new run shows 0.00 km and 00:00 next to the previous run's pace,
      speed and calories until it has covered 10 m.
    - [Geo]: symmetry, zero distance, the haversine term in [0, 1] for
      valid latitudes and the equatorial degree, as lemmas.
    - [Invariants] (C36): in every reachable state, for every interleaving
      of events: window at most 20, [lastAnnouncedKm] at most the whole
      kilometres run, coach history at most 10, stored history at most 50.
    - [Safety] (C6, C37-C38): a stopped page stays stopped (no event but a
      pending start sets the flag or starts a recognizer; only [stopRun]
      timers are scheduled), and its pending timers and answers strictly
      decrease [2 * #requests + #timers]: they terminate.  (C6) A manual
      recognition started with the voice button is not stopped by
      [stopRun]: its command still runs, and can send a new request.
    - [Liveness] (C39-C40): under a browser whose [start()] succeeds, the
      held recognizer is always listening or has a restart pending, and the
      restart makes it listen; a refused restart is never retried.
    - [Handles] (C32): in every reachable state [watchId] and
      [voiceRecognition] are set only during a run and name registered
      objects ([stopRun] nulls both handles it tears down); the ids handed
      out stay below [next_id] (a property of the model's allocator, kept
      as a lemma).
    - [ServiceWorker] (C11, C16, C25, C33, C35): install succeeds exactly
      when every shell fetch is ok and then caches every shell URL with the
      network's response; activation is a filter keeping [CACHE_NAME];
      a fetched 200 "basic" response is stored and then served from the
      cache whatever the network does (round trip); only such responses
      are ever stored; offline, only the cached [index.html] is served, to
      requests accepting [text/html], and a request without [Accept] header
      is rejected.
    - [SwLifecycle] (C29): in every reachable state of the worker, every
      response [caches.match] finds is ok, and once activated only
      [CACHE_NAME] remains, late [cache.put]s included.
    - [Speech] (C4, C8): the preferred voice equals the first voice of the
      best rank (English female, English, any); each [speak] cancels the
      one before, so a start whose recognition fails to start never lets
      the greeting be heard.
    - [AIToggle] (C24): in every reachable state the AI toggle button is
      in the page and shows the assistant mode: each assignment to
      [useAI] after the button is appended is followed by its update,
      and [initializeAI] overwrites the "off" preference applied before
      the button existed.
    - [Pwa] (C12, C20, C34): one click listener per offer, so a click
      after two offers calls [prompt()] twice on the same event; the
      callback of an old dialog clears a newer stored event, after which
      the shown install button only throws.
    No definition uses fuel: every recursion is structural (strings, lists),
    and sequences of events are folds over finite lists or the inductive
    [reachable] relation.

    ** Not modelled
    1. The event loop records every text spoken, in order ([said]);
       [Speech] shows what the synthesizer keeps of a handler's texts, but
       speech that ends between two handlers is not modelled (the
       synthesizer's timing is not).
    2. One version of the service worker at a time: the fetches an older
       version still answers while the new one installs are not modelled.
    3. The [disabled] flags of the buttons are values of [Display] and
       [Setup], not guards of the loop: the loop delivers a start or stop
       click in every state, more than the browser delivers (a disabled
       button receives no click; whether it receives the [touchend] of
       lines 68-84 depends on the browser), so the loop theorems hold a
       fortiori.
    4. The page writes are not threaded through the event loop: [Display]
       gives those of [updateUI] as a function of the globals it reads, and
       those of [startRun]; the microphone indicator of the voice pipeline
       is not modelled.  No handler of the run reads these elements
       back, so none of the state theorems depends on them.
    Element creation and inline styles, label emoji, console output and
    the network transport of [queryGemini] (its outcome is an
    input of the model) are out of scope.  The wake lock is never acquired
    by the code ([wakeLock] is only ever set to null); its release branches
    are modelled without their [await]. *)

From Stdlib Require Import String Ascii DecimalString DecimalNat.
From Stdlib Require Import ZArith QArith Qround Qabs Lqa Lia.
From stdpp Require Import base list.

Declare Scope rf_scope.
Delimit Scope rf_scope with rf.

(** ** JavaScript numbers *)

(** Strict order on [Q] as a boolean, the way [a < b] is evaluated. *)
Definition Qltb (x y : Q) : bool := negb (Qle_bool y x).

Notation "x <? y" := (Qltb x y) : rf_scope.
Notation "x <=? y" := (Qle_bool x y) : rf_scope.

Local Open Scope Q_scope.
Local Open Scope rf_scope.

(** The result of an IEEE division [a / b]: finite, infinite or NaN. *)
Inductive jsnum :=
| JFin (q : Q)
| JPosInf
| JNegInf
| JNaN.

(** [a / b] on doubles: division by (positive) zero gives an infinity of the
    sign of [a], or NaN when [a] is zero as well. *)
Definition js_div (a b : Q) : jsnum :=
  if Qeq_bool b 0 then
    if 0 <? a then JPosInf else if a <? 0 then JNegInf else JNaN
  else JFin (a / b).

(** [x < c] for a constant [c]: false on NaN and on +Infinity. *)
Definition js_lt (x : jsnum) (c : Q) : bool :=
  match x with
  | JFin q => q <? c
  | JNegInf => true
  | JPosInf | JNaN => false
  end.

(** [Math.floor] and [Math.round] (round half up). *)
Definition js_floor (x : Q) : Z := Qfloor x.
Definition js_round (x : Q) : Z := Qfloor (x + (1 # 2)).

(** ** Decimal printing *)

Definition nat_to_string (n : nat) : string :=
  NilEmpty.string_of_uint (Nat.to_uint n).

(** [String(z)] for an integer-valued number below 1e21 in magnitude. *)
Definition Z_to_string (z : Z) : string :=
  if (z <? 0)%Z then ("-" ++ nat_to_string (Z.to_nat (- z)))%string
  else nat_to_string (Z.to_nat z).

(** [s.padStart(n, c)]: prepend copies of [c] until the length is [n]. *)
Fixpoint repeat_char (n : nat) (c : ascii) : string :=
  match n with
  | O => EmptyString
  | S n' => String c (repeat_char n' c)
  end.

Definition padStart (n : nat) (c : ascii) (s : string) : string :=
  (repeat_char (n - String.length s) c ++ s)%string.

(** [x.toFixed(2)]: the integer [k] nearest to [100 * |x|] (ties upward),
    printed with two decimals and the sign of [x]. *)
Definition toFixed2 (x : Q) : string :=
  let k := Qfloor (Qabs x * 100 + (1 # 2)) in
  let sign := if x <? 0 then "-"%string else ""%string in
  (sign ++ Z_to_string (k / 100) ++ "." ++
   padStart 2 "0"%char (Z_to_string (k mod 100)))%string.

(** [x.toFixed(1)], the same way with one decimal. *)
Definition toFixed1 (x : Q) : string :=
  let k := Qfloor (Qabs x * 10 + (1 # 2)) in
  let sign := if x <? 0 then "-"%string else ""%string in
  (sign ++ Z_to_string (k / 10) ++ "." ++ Z_to_string (k mod 10))%string.

(** ** Strings *)

Definition ascii_lower (c : ascii) : ascii :=
  let n := nat_of_ascii c in
  if (65 <=? n)%nat && (n <=? 90)%nat then ascii_of_nat (n + 32) else c.

(** [s.toLowerCase()] on the characters A-Z. *)
Fixpoint toLowerCase (s : string) : string :=
  match s with
  | EmptyString => EmptyString
  | String c s' => String (ascii_lower c) (toLowerCase s')
  end.

(** The whitespace [String.prototype.trim] strips, in the 8-bit range:
    tab, line feed, vertical tab, form feed, carriage return, space, NBSP. *)
Definition is_ws (c : ascii) : bool :=
  let n := nat_of_ascii c in
  ((9 <=? n)%nat && (n <=? 13)%nat) || (n =? 32)%nat || (n =? 160)%nat.

Fixpoint trim_start (s : string) : string :=
  match s with
  | EmptyString => EmptyString
  | String c s' => if is_ws c then trim_start s' else s
  end.

Fixpoint string_rev (s : string) : string :=
  match s with
  | EmptyString => EmptyString
  | String c s' => (string_rev s' ++ String c EmptyString)%string
  end.

(** [s.trim()]. *)
Definition trim (s : string) : string :=
  string_rev (trim_start (string_rev (trim_start s))).

(** [s.includes(sub)]: [sub] occurs at some position of [s]. *)
Fixpoint includes (s sub : string) : bool :=
  String.prefix sub s ||
  match s with
  | EmptyString => false
  | String _ s' => includes s' sub
  end.

(** The double-quote character, for template strings that contain one. *)
Definition dq : string := String (ascii_of_nat 34) EmptyString.

(** ** Arrays *)

(** [a.push(x); if (a.length > cap) a.shift();] *)
Definition push_bounded {A} (cap : nat) (x : A) (l : list A) : list A :=
  let l' := l ++ [x] in
  if (cap <? length l')%nat then tail l' else l'.

(** [a.slice(-n)] for [n > 0]: the last [n] elements. *)
Definition slice_last {A} (n : nat) (l : list A) : list A :=
  drop (length l - n) l.

(** [a[a.length - 1]]. *)
Definition last_elem {A} (l : list A) : option A := last l.

(** ** Lemmas shared by the components *)

Create HintDb runflow.
Create Rewrite HintDb runflow_rw.

Lemma QltbP (x y : Q) : reflect (x < y) (x <? y).
Proof.
  unfold Qltb. destruct (Qle_bool y x) eqn:E; constructor.
  - apply Qle_bool_iff in E. lra.
  - assert (Hn : ~ (y <= x)) by (intro Hle; apply Qle_bool_iff in Hle; congruence).
    lra.
Qed.

Lemma Qle_boolP (x y : Q) : reflect (x <= y) (x <=? y).
Proof.
  destruct (Qle_bool x y) eqn:E; constructor.
  - by apply Qle_bool_iff.
  - intros H. apply Qle_bool_iff in H. congruence.
Qed.

(** Case on a comparison of the code, keeping the fact in context. *)
Ltac qcase :=
  match goal with
  | |- context [Qltb ?x ?y] => destruct (QltbP x y)
  | |- context [Qle_bool ?x ?y] => destruct (Qle_boolP x y)
  | H : context [Qltb ?x ?y] |- _ => destruct (QltbP x y)
  | H : context [Qle_bool ?x ?y] |- _ => destruct (Qle_boolP x y)
  end.

Lemma js_lt_fin_iff (a b c : Q) :
  ~ b == 0 -> js_lt (js_div a b) c = true <-> a / b < c.
Proof.
  intros Hb. unfold js_div. destruct (Qeq_bool b 0) eqn:E.
  - apply Qeq_bool_iff in E. contradiction.
  - simpl. split; [intros H; by destruct (QltbP (a / b) c) | intros H; by destruct (QltbP (a / b) c)].
Qed.

(** A positive distance covered in no time is +Infinity, never below a bound. *)
Lemma js_lt_div_zero (a b c : Q) :
  0 < a -> b == 0 -> js_lt (js_div a b) c = false.
Proof.
  intros Ha Hb. unfold js_div.
  destruct (Qeq_bool b 0) eqn:E; [| apply Qeq_bool_neq in E; contradiction].
  by destruct (QltbP 0 a).
Qed.

Local Open Scope nat_scope.

Lemma length_tail_pred {A} (l : list A) : length (tail l) = pred (length l).
Proof. by destruct l. Qed.

Lemma length_push_bounded {A} (cap : nat) (x : A) (l : list A) :
  length l <= cap -> length (push_bounded cap x l) <= cap.
Proof.
  intros H. unfold push_bounded.
  destruct (Nat.ltb_spec cap (length (l ++ [x])));
    rewrite ?length_tail_pred, length_app in *; simpl in *; lia.
Qed.

Lemma push_bounded_under {A} (cap : nat) (x : A) (l : list A) :
  length l < cap -> push_bounded cap x l = l ++ [x].
Proof.
  intros H. unfold push_bounded. rewrite length_app. simpl.
  destruct (Nat.ltb_spec cap (length l + 1)); [lia | done].
Qed.

Lemma push_bounded_full {A} (cap : nat) (x y : A) (l : list A) :
  length (y :: l) = cap -> push_bounded cap x (y :: l) = l ++ [x].
Proof.
  intros H. unfold push_bounded. rewrite length_app. simpl in *.
  destruct (Nat.ltb_spec cap (S (length l + 1))); [done | lia].
Qed.

Lemma last_push_bounded {A} (cap : nat) (x : A) (l : list A) :
  0 < cap -> last (push_bounded cap x l) = Some x.
Proof.
  intros Hc. unfold push_bounded.
  destruct (cap <? length (l ++ [x]))%nat eqn:E.
  - destruct l as [| y l]; simpl.
    + simpl in E. apply Nat.ltb_lt in E. lia.
    + by rewrite last_snoc.
  - by rewrite last_snoc.
Qed.

Lemma length_slice_last {A} (n : nat) (l : list A) :
  length (slice_last n l) = Nat.min n (length l).
Proof. unfold slice_last. rewrite length_drop. lia. Qed.

Lemma slice_last_short {A} (n : nat) (l : list A) :
  length l <= n -> slice_last n l = l.
Proof. intros H. unfold slice_last. replace (length l - n) with 0 by lia. done. Qed.

#[export] Hint Resolve length_push_bounded : runflow.
#[export] Hint Rewrite @length_slice_last : runflow_rw.

Lemma Qfloor_bounds (x : Q) : (inject_Z (Qfloor x) <= x /\ x < inject_Z (Qfloor x) + 1)%Q.
Proof.
  split; [apply Qfloor_le |].
  pose proof (Qlt_floor x) as H. rewrite inject_Z_plus in H. exact H.
Qed.

(** Closes a comparison, equation or conjunction on concrete values by
    evaluation: the hypotheses of the theorems at the inputs of witnesses. *)
Ltac concrete :=
  repeat split; vm_compute; first [reflexivity | intros ?; discriminate | lia].

(** [parseFloat(x.toFixed(2))]: the value [toFixed2] prints. *)
Definition toFixed2_value (x : Q) : Q :=
  let k := Qfloor (Qabs x * 100 + (1 # 2)) in
  (if Qltb x 0 then -1 else 1)%Q * inject_Z k / 100.

Lemma last_slice_last_snoc {A} (n : nat) (l : list A) (x : A) :
  (0 < n)%nat -> last (slice_last n (l ++ [x])) = Some x.
Proof.
  intros Hn. unfold slice_last. rewrite length_app. simpl.
  rewrite drop_app_le by lia. apply last_snoc.
Qed.

(** Removing the [i]-th element keeps only elements of the list. *)
Lemma elem_of_delete_list {A} (l : list A) i x : x ∈ delete i l -> x ∈ l.
Proof.
  revert i. induction l as [| y l IH]; intros [| i]; simpl; try done.
  - intros. by apply elem_of_cons; right.
  - rewrite !elem_of_cons. intros [-> | H]; [by left | right; by apply (IH i)].
Qed.

Lemma string_length_app (s t : string) :
  String.length (s ++ t) = (String.length s + String.length t)%nat.
Proof. induction s as [| c s IH]; simpl; [done | by rewrite IH]. Qed.
