(* ===== verification/Geo.v ===== *)
(** * Geo: the haversine distance of [calculateDistance]

    [calculateDistance] (app.js lines 404-418) over the real numbers of the
    Standard Library, with [Math.atan2] as [atan2].  Rounding of doubles is
    not modelled.  [Math.sqrt] of a negative number is NaN where [sqrt] is
    0: [haversine_a_bounds] shows that the two square roots of the formula
    have non-negative arguments for latitudes within [-90, 90], so the two
    agree on every valid input.

    Theorems: symmetry, zero distance from a point to itself, the range of
    the haversine term, and the spec's check: one degree of longitude on the
    equator is [6371 * PI / 180] km, within 1% of 111.2 km. *)

From Stdlib Require Import Reals Lra Machin.

Local Open Scope R_scope.

(** [Math.atan2(y, x)] on reals (no signed zeros). *)
Definition atan2 (y x : R) : R :=
  if Rlt_dec 0 x then atan (y / x)
  else if Rlt_dec x 0 then
    (if Rle_dec 0 y then atan (y / x) + PI else atan (y / x) - PI)
  else if Rlt_dec 0 y then PI / 2
  else if Rlt_dec y 0 then - (PI / 2)
  else 0.

(** The term [a] of the formula. *)
Definition haversine_a (lat1 lon1 lat2 lon2 : R) : R :=
  let dLat := (lat2 - lat1) * PI / 180 in
  let dLon := (lon2 - lon1) * PI / 180 in
  sin (dLat / 2) * sin (dLat / 2) +
  cos (lat1 * PI / 180) * cos (lat2 * PI / 180) * sin (dLon / 2) * sin (dLon / 2).

Definition calculateDistance (lat1 lon1 lat2 lon2 : R) : R :=
  let R := 6371 in
  let a := haversine_a lat1 lon1 lat2 lon2 in
  let c := 2 * atan2 (sqrt a) (sqrt (1 - a)) in
  R * c.

(** ** Lemmas *)

Lemma sin_neg_half (x : R) : sin (- x / 2) = - sin (x / 2).
Proof. replace (- x / 2) with (- (x / 2)) by field. apply sin_neg. Qed.

Lemma haversine_a_sym lat1 lon1 lat2 lon2 :
  haversine_a lat1 lon1 lat2 lon2 = haversine_a lat2 lon2 lat1 lon1.
Proof.
  unfold haversine_a; cbv zeta.
  replace ((lat1 - lat2) * PI / 180) with (- ((lat2 - lat1) * PI / 180)) by field.
  replace ((lon1 - lon2) * PI / 180) with (- ((lon2 - lon1) * PI / 180)) by field.
  rewrite !sin_neg_half. ring.
Qed.

Lemma haversine_a_same lat lon : haversine_a lat lon lat lon = 0.
Proof.
  unfold haversine_a; cbv zeta. rewrite !Rminus_diag.
  replace (0 * PI / 180 / 2) with 0 by field. rewrite sin_0. ring.
Qed.

(** [cos] of a valid latitude is non-negative. *)
Lemma cos_lat_nonneg (lat : R) : -90 <= lat <= 90 -> 0 <= cos (lat * PI / 180).
Proof.
  intros H. pose proof PI_RGT_0. apply cos_ge_0.
  - assert (lat * PI / 180 = (lat / 90) * (PI / 2)) by field. nra.
  - assert (lat * PI / 180 = (lat / 90) * (PI / 2)) by field. nra.
Qed.

(** [cos x * cos y] never exceeds [cos ((y - x) / 2)] squared. *)
Lemma cos_prod_le (x y : R) :
  cos x * cos y <= cos ((y - x) / 2) * cos ((y - x) / 2).
Proof.
  assert (E1 : cos (x + y) + cos (y - x) = 2 * (cos x * cos y)).
  { rewrite cos_plus, cos_minus. ring. }
  assert (E2 : cos (y - x) = 2 * (cos ((y - x) / 2) * cos ((y - x) / 2)) - 1).
  { replace (y - x) with (2 * ((y - x) / 2)) at 1 by field. rewrite cos_2a_cos. ring. }
  pose proof (COS_bound (x + y)). lra.
Qed.

(** [3.14 < PI < 3.1421], from the Machin-like series of the Standard
    Library truncated after four terms. *)
Lemma PI_bounds : 3.14 < PI < 3.1421.
Proof.
  destruct (PI_2_3_7_ineq 1) as [L U].
  unfold tg_alt, PI_2_3_7_tg, Ratan_seq in L, U. simpl in L, U.
  split; lra.
Qed.

(** [atan2 (sin x) (cos x) = x] on [(0, PI/2)]. *)
Lemma atan2_sin_cos (x : R) : 0 < x < PI / 2 -> atan2 (sin x) (cos x) = x.
Proof.
  intros H. assert (Hc : 0 < cos x) by (apply cos_gt_0; lra).
  unfold atan2. destruct (Rlt_dec 0 (cos x)); [| lra].
  apply atan_tan. lra.
Qed.

(** ** Theorems *)

(** The distance from A to B is the distance from B to A. *)
Theorem calculateDistance_sym (lat1 lon1 lat2 lon2 : R) :
  calculateDistance lat1 lon1 lat2 lon2 = calculateDistance lat2 lon2 lat1 lon1.
Proof. unfold calculateDistance. rewrite haversine_a_sym. reflexivity. Qed.

(** The distance from a point to itself is 0. *)
Theorem calculateDistance_same (lat lon : R) : calculateDistance lat lon lat lon = 0.
Proof.
  unfold calculateDistance. rewrite haversine_a_same, sqrt_0, Rminus_0_r, sqrt_1.
  unfold atan2. destruct (Rlt_dec 0 1); [| lra].
  replace (0 / 1) with 0 by field. rewrite atan_0. ring.
Qed.

(** For latitudes within [-90, 90] the haversine term lies in
    [0, 1], so [sqrt a] and [sqrt (1 - a)] are defined (not NaN). *)
Theorem haversine_a_bounds (lat1 lon1 lat2 lon2 : R) :
  -90 <= lat1 <= 90 -> -90 <= lat2 <= 90 ->
  0 <= haversine_a lat1 lon1 lat2 lon2 <= 1.
Proof.
  intros H1 H2. unfold haversine_a; cbv zeta.
  set (s1 := sin ((lat2 - lat1) * PI / 180 / 2)).
  set (s2 := sin ((lon2 - lon1) * PI / 180 / 2)).
  set (c1 := cos (lat1 * PI / 180)). set (c2 := cos (lat2 * PI / 180)).
  assert (Hc1 : 0 <= c1) by (apply cos_lat_nonneg; lra).
  assert (Hc2 : 0 <= c2) by (apply cos_lat_nonneg; lra).
  assert (Hs2 : s2 * s2 <= 1) by (pose proof (SIN_bound ((lon2 - lon1) * PI / 180 / 2)); unfold s2; nra).
  assert (Hp : c1 * c2 <= 1 - s1 * s1).
  { pose proof (cos_prod_le (lat1 * PI / 180) (lat2 * PI / 180)) as H.
    replace ((lat2 * PI / 180 - lat1 * PI / 180) / 2) with ((lat2 - lat1) * PI / 180 / 2) in H by field.
    pose proof (sin2_cos2 ((lat2 - lat1) * PI / 180 / 2)) as S. unfold Rsqr in S.
    unfold c1, c2, s1. lra. }
  replace (c1 * c2 * s2 * s2) with (c1 * c2 * (s2 * s2)) by ring.
  assert (Hcc : 0 <= c1 * c2) by (apply Rmult_le_pos; lra).
  assert (Hss : 0 <= s2 * s2) by nra.
  assert (P1 : 0 <= c1 * c2 * (s2 * s2)) by (apply Rmult_le_pos; lra).
  assert (P2 : c1 * c2 * (s2 * s2) <= c1 * c2) by nra.
  assert (0 <= s1 * s1) by nra.
  split; lra.
Qed.

(** One degree of longitude along the equator is exactly
    [6371 * PI / 180] km, which is within 1% of 111.2 km. *)
Theorem calculateDistance_equator_degree :
  calculateDistance 0 0 0 1 = 6371 * (PI / 180) /\
  111.2 * 0.99 < calculateDistance 0 0 0 1 < 111.2 * 1.01.
Proof.
  assert (E : calculateDistance 0 0 0 1 = 6371 * (PI / 180)).
  { set (x := (1 - 0) * PI / 180 / 2).
    pose proof PI_bounds as HP.
    assert (Hx : 0 < x < PI / 2) by (unfold x; lra).
    assert (Hs : 0 < sin x) by (apply sin_gt_0; lra).
    assert (Hc : 0 < cos x) by (apply cos_gt_0; lra).
    assert (Ha : haversine_a 0 0 0 1 = sin x * sin x).
    { unfold haversine_a; cbv zeta. fold x.
      replace ((0 - 0) * PI / 180 / 2) with 0 by field.
      replace (0 * PI / 180) with 0 by field. rewrite sin_0, cos_0. ring. }
    unfold calculateDistance; cbv zeta. rewrite Ha.
    rewrite sqrt_square by lra.
    replace (1 - sin x * sin x) with (cos x * cos x)
      by (pose proof (sin2_cos2 x) as S; unfold Rsqr in S; lra).
    rewrite sqrt_square by lra. rewrite atan2_sin_cos by exact Hx.
    unfold x. field. }
  split; [exact E |]. rewrite E. pose proof PI_bounds. split; lra.
Qed.

Lemma haversine_a_bounds_witness :
  0 <= haversine_a 45 0 (-30) 10 <= 1.
Proof. apply haversine_a_bounds; lra. Defined.
