(* ===== verification/State.v ===== *)
(** * State: the module-level variables of src/app.js and the effects of handlers

    [Globals] is the record of the [let] variables of app.js (lines 14-23 and
    32-33); [AICoach] is the object of the class of the same name (lines
    712-841), of which the code keeps at most one, in [aiCoach].  Handlers of
    the other files take a [Globals] and return the new one with the list of
    [Effect]s they performed, in order: a spoken text ([speak], line 929), a
    timer ([setTimeout]) or an assistant request whose answer arrives later
    ([await aiCoach.handleCommand(...)] and the like), tagged with the
    continuation [Cont] that the code runs when the promise settles. *)

From Stdlib Require Import String ZArith QArith.
From stdpp Require Import base list.
From S2P Require Import Prelude.

(** An entry of [positions] (lines 242-248 and 301-306). *)
Record Position := mkPosition {
  lat : Q;
  lon : Q;
  time : Z;
  accuracy : Q
}.

(** An entry of [AICoach.conversationHistory] (lines 779-783); the ISO date
    string is kept as the millisecond timestamp it prints. *)
Record Turn := mkTurn {
  turn_user : string;
  turn_ai : string;
  turn_time : Z
}.

(** The fields of an [AICoach] object (constructor, lines 713-718). *)
Record AICoach := mkAICoach {
  apiKey : string;
  isOnline : bool;
  conversationHistory : list Turn
}.

(** The module-level variables of app.js.  [watchId] and [voiceRecognition]
    hold the identifiers of the browser objects they refer to. *)
Record Globals := mkGlobals {
  isRunning : bool;
  startTime : option Z;
  totalDistance : Q;
  positions : list Position;
  watchId : option nat;
  stepCount : Z;
  estimatedDistanceFromSteps : Q;
  lastAnnouncedKm : Z;
  voiceRecognition : option nat;
  wakeLock : bool;
  useAI : bool;
  aiCoach : option AICoach
}.

(** Field updates, one per variable the handlers assign. *)
Definition set_totalDistance (d : Q) (g : Globals) : Globals :=
  mkGlobals (isRunning g) (startTime g) d (positions g) (watchId g) (stepCount g)
    (estimatedDistanceFromSteps g) (lastAnnouncedKm g) (voiceRecognition g)
    (wakeLock g) (useAI g) (aiCoach g).

Definition set_positions (ps : list Position) (g : Globals) : Globals :=
  mkGlobals (isRunning g) (startTime g) (totalDistance g) ps (watchId g) (stepCount g)
    (estimatedDistanceFromSteps g) (lastAnnouncedKm g) (voiceRecognition g)
    (wakeLock g) (useAI g) (aiCoach g).

Definition set_steps (n : Z) (est : Q) (g : Globals) : Globals :=
  mkGlobals (isRunning g) (startTime g) (totalDistance g) (positions g) (watchId g) n
    est (lastAnnouncedKm g) (voiceRecognition g) (wakeLock g) (useAI g) (aiCoach g).

Definition set_lastAnnouncedKm (k : Z) (g : Globals) : Globals :=
  mkGlobals (isRunning g) (startTime g) (totalDistance g) (positions g) (watchId g)
    (stepCount g) (estimatedDistanceFromSteps g) k (voiceRecognition g)
    (wakeLock g) (useAI g) (aiCoach g).

Definition set_useAI (b : bool) (g : Globals) : Globals :=
  mkGlobals (isRunning g) (startTime g) (totalDistance g) (positions g) (watchId g)
    (stepCount g) (estimatedDistanceFromSteps g) (lastAnnouncedKm g)
    (voiceRecognition g) (wakeLock g) b (aiCoach g).

Definition set_aiCoach (c : option AICoach) (g : Globals) : Globals :=
  mkGlobals (isRunning g) (startTime g) (totalDistance g) (positions g) (watchId g)
    (stepCount g) (estimatedDistanceFromSteps g) (lastAnnouncedKm g)
    (voiceRecognition g) (wakeLock g) (useAI g) c.

Definition set_run (running : bool) (g : Globals) : Globals :=
  mkGlobals running (startTime g) (totalDistance g) (positions g) (watchId g)
    (stepCount g) (estimatedDistanceFromSteps g) (lastAnnouncedKm g)
    (voiceRecognition g) (wakeLock g) (useAI g) (aiCoach g).

Definition set_watchId (w : option nat) (g : Globals) : Globals :=
  mkGlobals (isRunning g) (startTime g) (totalDistance g) (positions g) w
    (stepCount g) (estimatedDistanceFromSteps g) (lastAnnouncedKm g)
    (voiceRecognition g) (wakeLock g) (useAI g) (aiCoach g).

Definition set_voiceRecognition (r : option nat) (g : Globals) : Globals :=
  mkGlobals (isRunning g) (startTime g) (totalDistance g) (positions g) (watchId g)
    (stepCount g) (estimatedDistanceFromSteps g) (lastAnnouncedKm g)
    r (wakeLock g) (useAI g) (aiCoach g).

Definition set_wakeLock (b : bool) (g : Globals) : Globals :=
  mkGlobals (isRunning g) (startTime g) (totalDistance g) (positions g) (watchId g)
    (stepCount g) (estimatedDistanceFromSteps g) (lastAnnouncedKm g)
    (voiceRecognition g) b (useAI g) (aiCoach g).

(** [useAI && aiCoach && aiCoach.isOnline] (lines 456, 625, 885). *)
Definition ai_available (g : Globals) : bool :=
  useAI g && match aiCoach g with Some c => isOnline c | None => false end.

(** An entry of the [runHistory] array in localStorage (lines 958-963). *)
Record RunRecord := mkRunRecord {
  run_date : Z;
  run_distance : Q;
  run_time : Z;
  run_pace : string
}.

(** The two localStorage keys the code uses: ["runHistory"] (kept parsed)
    and ["runflow_ai_mode"]. *)
Record Storage := mkStorage {
  runHistory : list RunRecord;
  runflow_ai_mode : option string
}.

(** What the code does when an awaited assistant call settles. *)
Inductive Cont :=
| KMilestone (km : Z) (pace : string)        (** [.then(speak).catch(speakBasicMilestone)], lines 887-894 *)
| KCommand (command : string)                (** the rest of [processVoiceCommand], lines 649-680 *)
| KSummary (time : Z)                        (** the rest of [stopRun], lines 457-481 *)
| KTest.                                     (** the rest of [testAIConnection], lines 200-206 *)

(** Callbacks scheduled with [setTimeout]. *)
Inductive Task :=
| TStopRun                                   (** line 661 *)
| TRestartRecognition                        (** lines 530-536 and 543-550 *)
| TUpdateTimer.                              (** line 976 *)

Inductive Effect :=
| Speak (text : string)
| Ask (prompt : string) (k : Cont)
| SetTimeout (delay : Z) (t : Task)
| UpdateAIButton (isEnabled : bool).         (** [updateAIToggleButton(isEnabled)] *)

(** The texts spoken, in order. *)
Definition spoken (es : list Effect) : list string :=
  omap (fun e => match e with Speak s => Some s | _ => None end) es.
