(* ===== verification/Metrics.v ===== *)
(** * Metrics: elapsed time, pace, clock format, speed and calories

    [calculateTimeElapsed], [calculatePace] and [formatTime] (app.js lines
    910-927), the speed and calorie figures of [updateUI] (lines 860-866) and
    the average speed of [stopRun] (line 452).  Times are milliseconds ([Z]),
    distances kilometres ([Q]).

    Theorems: the [0:00] sentinel below 0.01 km, the pace of the spec's
    example, the range of the seconds field of a pace (which reaches 60, so
    a pace can print as [5:60]), and the clock format of [formatTime]. *)

From Stdlib Require Import String Ascii ZArith QArith Qround Lqa Lia Decimal DecimalString DecimalNat.
From stdpp Require Import base tactics.
From S2P Require Import Prelude.

Local Open Scope Q_scope.
Local Open Scope rf_scope.

(** [startTime ? Date.now() - startTime : 0] *)
Definition calculateTimeElapsed (startTime : option Z) (now : Z) : Z :=
  match startTime with
  | Some t => (now - t)%Z
  | None => 0%Z
  end.

(** The two fields of a pace: whole minutes and rounded seconds. *)
Definition pace_minutes (distanceKm : Q) (timeMs : Z) : Z :=
  js_floor (inject_Z timeMs / 60000 / distanceKm).

Definition pace_seconds (distanceKm : Q) (timeMs : Z) : Z :=
  let minPerKm := inject_Z timeMs / 60000 / distanceKm in
  js_round ((minPerKm - inject_Z (js_floor minPerKm)) * 60).

Definition calculatePace (distanceKm : Q) (timeMs : Z) : string :=
  if distanceKm <? 0.01 then "0:00"%string
  else (Z_to_string (pace_minutes distanceKm timeMs) ++ ":" ++
        padStart 2 "0"%char (Z_to_string (pace_seconds distanceKm timeMs)))%string.

(** JavaScript's [%] keeps the sign of the dividend: [Z.rem]. *)
Definition formatTime (ms : Z) : string :=
  let totalSeconds := (ms / 1000)%Z in
  let minutes := (totalSeconds / 60)%Z in
  let seconds := Z.rem totalSeconds 60 in
  (padStart 2 "0"%char (Z_to_string minutes) ++ ":" ++
   padStart 2 "0"%char (Z_to_string seconds))%string.

(** A reader of the clock format, the inverse [formatTime] is checked
    against: the digits before the first colon and the digits after it. *)
Fixpoint split_colon (s : string) : option (string * string) :=
  match s with
  | EmptyString => None
  | String c s' =>
      if Ascii.eqb c ":" then Some (EmptyString, s')
      else option_map (fun p => (String c p.1, p.2)) (split_colon s')
  end.

Definition parse_clock (s : string) : option Z :=
  match split_colon s with
  | Some (a, b) =>
      match NilEmpty.uint_of_string a, NilEmpty.uint_of_string b with
      | Some da, Some db => Some (Z.of_nat (Nat.of_uint da) * 60 + Z.of_nat (Nat.of_uint db))%Z
      | _, _ => None
      end
  | None => None
  end.

(** [updateUI]: [hours > 0 ? totalDistance / hours : 0]. *)
Definition speedKph (distanceKm : Q) (timeMs : Z) : Q :=
  let hours := inject_Z timeMs / 3600000 in
  if 0 <? hours then distanceKm / hours else 0.

(** [Math.round(totalDistance * 60)] *)
Definition calories (distanceKm : Q) : Z := js_round (distanceKm * 60).

(** [stopRun]: [totalDistance / (time / 3600000) || 0]; NaN is falsy. *)
Definition avgSpeed (distanceKm : Q) (timeMs : Z) : jsnum :=
  match js_div distanceKm (inject_Z timeMs / 3600000) with
  | JNaN => JFin 0
  | x => x
  end.

(** ** Lemmas *)

Lemma js_round_bounds (x : Q) :
  x - (1 # 2) < inject_Z (js_round x) /\ inject_Z (js_round x) <= x + (1 # 2).
Proof.
  unfold js_round. destruct (Qfloor_bounds (x + (1 # 2))). split; lra.
Qed.

(** The fractional part of a number lies in [0, 1). *)
Lemma frac_bounds (x : Q) :
  0 <= x - inject_Z (js_floor x) /\ x - inject_Z (js_floor x) < 1.
Proof.
  unfold js_floor. destruct (Qfloor_bounds x). split; lra.
Qed.

(** Monotone rounding: the integer part of [js_round] stays within bounds. *)
Lemma js_round_le (x : Q) (z : Z) : x <= inject_Z z -> (js_round x <= z)%Z.
Proof.
  intros H. destruct (js_round_bounds x) as [_ H2].
  destruct (Z.le_gt_cases (js_round x) z) as [|Hgt]; [done |].
  assert (Hz : inject_Z (z + 1) <= inject_Z (js_round x)) by (rewrite <- Zle_Qle; lia).
  rewrite inject_Z_plus in Hz. change (inject_Z 1) with 1 in Hz. lra.
Qed.

Lemma js_round_ge (x : Q) (z : Z) : inject_Z z - (1 # 2) <= x -> (z <= js_round x)%Z.
Proof.
  intros H. unfold js_round.
  replace z with (Qfloor (inject_Z z)) at 1 by apply Qfloor_Z.
  apply Qfloor_resp_le. lra.
Qed.

(** ** Theorems *)

(** Below 0.01 km the pace is the sentinel [0:00] whatever the time. *)
Theorem calculatePace_sentinel (d : Q) (t : Z) :
  d < 0.01 -> calculatePace d t = "0:00"%string.
Proof. intros H. unfold calculatePace. by destruct (QltbP d 0.01). Qed.

Lemma calculatePace_sentinel_witness :
  (0.005 < 0.01) /\ calculatePace 0.005 600000 = "0:00"%string.
Proof.
  split; [reflexivity |].
  apply (calculatePace_sentinel 0.005 600000). reflexivity.
Defined.

(** 5 km in 25 minutes (1,500,000 ms) is a pace of [5:00]. *)
Example calculatePace_five_km : calculatePace 5 1500000 = "5:00"%string.
Proof. vm_compute. reflexivity. Qed.

(** C26: from 0.01 km on, the pace prints its minutes and its seconds field,
    and the seconds field lies in [0, 60]: 60 is reached, because the
    fraction of a minute is rounded after the minutes were floored. *)
Theorem calculatePace_fields (d : Q) (t : Z) :
  0.01 <= d ->
  calculatePace d t =
    (Z_to_string (pace_minutes d t) ++ ":" ++
     padStart 2 "0"%char (Z_to_string (pace_seconds d t)))%string /\
  (0 <= pace_seconds d t <= 60)%Z.
Proof.
  intros Hd. split.
  - unfold calculatePace. destruct (QltbP d 0.01) as [Hlt | _]; [lra | reflexivity].
  - unfold pace_seconds.
    set (m := inject_Z t / 60000 / d).
    destruct (frac_bounds m) as [F0 F1]. split.
    + apply js_round_ge. change (inject_Z 0) with 0. lra.
    + apply js_round_le. change (inject_Z 60) with 60. lra.
Qed.

Lemma calculatePace_fields_witness :
  0.01 <= 1 /\ pace_seconds 1 359700 = 60%Z /\
  calculatePace 1 359700 = "5:60"%string.
Proof.
  split; [discriminate |]. split; [reflexivity |].
  destruct (calculatePace_fields 1 359700) as [-> _]; [discriminate |].
  vm_compute. reflexivity.
Defined.

(** For a non-negative duration, [formatTime] prints minutes and seconds
    with [minutes * 60 + seconds] the whole seconds elapsed and the
    seconds field below 60. *)
Theorem formatTime_fields (ms : Z) :
  (0 <= ms)%Z ->
  exists m s : Z,
    formatTime ms = (padStart 2 "0"%char (Z_to_string m) ++ ":" ++
                     padStart 2 "0"%char (Z_to_string s))%string /\
    (m * 60 + s = ms / 1000)%Z /\ (0 <= s < 60)%Z.
Proof.
  intros H. exists (ms / 1000 / 60)%Z, (Z.rem (ms / 1000) 60). split; [done |].
  assert (Hs : (0 <= ms / 1000)%Z) by (apply Z.div_pos; lia).
  rewrite Z.rem_mod_nonneg by lia. split.
  - pose proof (Z.div_mod (ms / 1000) 60). lia.
  - apply Z.mod_pos_bound. lia.
Qed.

(** ** Reading the clock back *)

Lemma split_colon_app a b :
  split_colon a = None -> split_colon (a ++ String ":" b) = Some (a, b).
Proof.
  induction a as [| c a IH]; simpl; [done |].
  destruct (Ascii.eqb c ":"); [done |]. destruct (split_colon a); [done |]. by rewrite IH.
Qed.

Lemma split_colon_app_None a b :
  split_colon a = None -> split_colon b = None -> split_colon (a ++ b) = None.
Proof.
  induction a as [| c a IH]; simpl; [done |].
  destruct (Ascii.eqb c ":"); [done |]. destruct (split_colon a); [done |]. intros _ Hb. by rewrite IH.
Qed.

Lemma split_colon_digits d : split_colon (NilEmpty.string_of_uint d) = None.
Proof. induction d; simpl; try rewrite IHd; done. Qed.

Lemma split_colon_zeros k : split_colon (repeat_char k "0") = None.
Proof. induction k as [| k IH]; simpl; [done | by rewrite IH]. Qed.

(** Leading zeros, as [padStart] adds them, read as [D0] digits. *)
Lemma uint_of_string_zeros k s :
  NilEmpty.uint_of_string (repeat_char k "0" ++ s) =
  option_map (Nat.iter k D0) (NilEmpty.uint_of_string s).
Proof.
  induction k as [| k IH]; simpl; [by destruct (NilEmpty.uint_of_string s) |].
  rewrite IH. by destruct (NilEmpty.uint_of_string s).
Qed.

Lemma of_uint_zeros k d : Nat.of_uint (Nat.iter k D0 d) = Nat.of_uint d.
Proof.
  induction k as [| k IH]; [done |]. simpl.
  rewrite <- DecimalNat.Unsigned.of_uint_norm, <- IH, <- (DecimalNat.Unsigned.of_uint_norm (Nat.iter k D0 d)).
  reflexivity.
Qed.

(** A padded non-negative number reads back as itself. *)
Lemma read_padded (n : Z) :
  (0 <= n)%Z ->
  split_colon (padStart 2 "0"%char (Z_to_string n)) = None /\
  option_map (fun d => Z.of_nat (Nat.of_uint d)) (NilEmpty.uint_of_string (padStart 2 "0"%char (Z_to_string n))) =
    Some n.
Proof.
  intros Hn. unfold Z_to_string. destruct (Z.ltb_spec n 0); [lia |]. unfold padStart, nat_to_string.
  split; [apply split_colon_app_None; [apply split_colon_zeros | apply split_colon_digits] |].
  rewrite uint_of_string_zeros, NilEmpty.usu. simpl.
  rewrite of_uint_zeros, DecimalNat.Unsigned.of_to. f_equal. lia.
Qed.

(** C27: the clock [formatTime] prints reads back as the whole seconds
    elapsed, for every non-negative duration: the two-digit padding keeps
    the value, the minutes field (which may have more than two digits)
    ends at the colon, and [minutes * 60 + seconds] is [ms / 1000]. *)
Theorem formatTime_roundtrip (ms : Z) :
  (0 <= ms)%Z -> parse_clock (formatTime ms) = Some (ms / 1000)%Z.
Proof.
  intros H. destruct (formatTime_fields ms H) as (m & sec & -> & E & Hs).
  assert (Hm : (0 <= m)%Z) by (pose proof (Z.div_pos ms 1000 H ltac:(lia)); lia).
  destruct (read_padded m Hm) as [Cm Rm]. destruct (read_padded sec ltac:(lia)) as [_ Rs].
  unfold parse_clock. simpl. rewrite split_colon_app by exact Cm.
  destruct (NilEmpty.uint_of_string (padStart 2 _ (Z_to_string m))) as [dm |]; [| done].
  destruct (NilEmpty.uint_of_string (padStart 2 _ (Z_to_string sec))) as [ds |]; [| done].
  simpl in Rm, Rs. injection Rm as Rm. injection Rs as Rs. rewrite Rm, Rs. f_equal. lia.
Qed.

Lemma formatTime_roundtrip_witness :
  (0 <= 6083500)%Z /\ formatTime 6083500 = "101:23"%string /\ parse_clock (formatTime 6083500) = Some 6083%Z.
Proof.
  split_and!; [lia | vm_compute; reflexivity |].
  exact (formatTime_roundtrip 6083500 ltac:(lia)).
Defined.
