(* ===== verification/Assistant.v ===== *)
(** * Assistant: the [AICoach] class, assistant mode and network status

    [queryGemini] (app.js lines 732-795) is split at its [await fetch]: the
    synchronous checks [queryGemini_start] (offline, missing key) and the
    completion [queryGemini_finish], which takes the outcome of the HTTP
    exchange as input ([FetchOutcome]: the transport is not modelled) and
    returns the trimmed answer or an [AIError], appending a [Turn] to the
    conversation history capped at 10 on success.  The prompts of
    [handleCommand], [getRunSummary] and [getStatsText] (lines 797-840) are
    built as the code builds them.

    Assistant mode: the start-up sequence of the [DOMContentLoaded] handler
    (lines 36-43: the saved preference read by [addAIToggleButton], then
    [initializeAI] and [testAIConnection]), the toggle button (lines
    163-175) and the two pairs of [online]/[offline] listeners (lines
    720-730 and 1001-1015). *)

From Stdlib Require Import String Ascii ZArith QArith Lia.
From stdpp Require Import base list.
From S2P Require Import Prelude State Metrics.

Local Open Scope string_scope.

(** What the HTTP exchange of [queryGemini] produced. *)
Inductive FetchOutcome :=
| FetchFailed                          (** [fetch] or [response.json()] rejected *)
| HttpError (status : Z) (body : string) (** [!response.ok] *)
| JsonBody (text : option string).     (** [data.candidates?.[0]?.content?.parts?.[0]?.text] *)

(** The errors [queryGemini] throws. *)
Inductive AIError :=
| NoInternet                           (** "No internet connection" *)
| NoApiKey                             (** "No API key configured" *)
| ApiError (status : Z) (body : string)  (** "API error <status>: <body>" *)
| InvalidFormat                        (** "Invalid API response format" *)
| NetworkError.                        (** the rejection of [fetch] rethrown *)

(** The checks that run before the first [await]. *)
Definition queryGemini_start (c : AICoach) : option AIError :=
  if negb (isOnline c) then Some NoInternet
  else if String.eqb (apiKey c) "" then Some NoApiKey
  else None.

(** [if (this.conversationHistory.length > 10) shift()] after [push]. *)
Definition record_turn (c : AICoach) (t : Turn) : AICoach :=
  mkAICoach (apiKey c) (isOnline c) (push_bounded 10 t (conversationHistory c)).

(** The code after [await fetch(...)]. *)
Definition queryGemini_finish (c : AICoach) (prompt : string) (o : FetchOutcome)
    (now : Z) : AICoach * (AIError + string) :=
  match o with
  | FetchFailed => (c, inl NetworkError)
  | HttpError status body => (c, inl (ApiError status body))
  | JsonBody None => (c, inl InvalidFormat)
  | JsonBody (Some text) =>
      if String.eqb text "" then (c, inl InvalidFormat)
      else
        let aiResponse := trim text in
        (record_turn c (mkTurn (String.substring 0 100 prompt) aiResponse now),
         inr aiResponse)
  end.

(** The whole call, when the exchange is performed at once. *)
Definition queryGemini (c : AICoach) (prompt : string) (o : FetchOutcome)
    (now : Z) : AICoach * (AIError + string) :=
  match queryGemini_start c with
  | Some e => (c, inl e)
  | None => queryGemini_finish c prompt o now
  end.

(** [getStatsText(context)] *)
Definition getStatsText (distance : Q) (time : Z) (running : bool) : string :=
  "Distance: " ++ toFixed2 distance ++ " km, Time: " ++ formatTime time ++
  ", Pace: " ++ calculatePace distance time ++ "/km, Status: " ++
  (if running then "Running" else "Stopped").

Definition handleCommand_prompt (command stats : string) : string :=
  "You are Coach Flow, an enthusiastic AI running coach. Be motivational, concise, and helpful.

Current run stats: " ++ stats ++ "

User says: " ++ dq ++ command ++ dq ++ "

Important rules:
1. If user wants to stop/end the run, respond with exactly: " ++ dq ++
  "Stopping your run now! Great job today!" ++ dq ++ "
2. If asking for distance/pace/time, include the exact numbers from stats above
3. Keep responses under 2 sentences
4. Be positive and encouraging
5. If user asks for advice, give specific, actionable tips
6. End with a motivational phrase or emoji if appropriate

Response:".

Definition getRunSummary_prompt (distance : Q) (time : Z) (pace : string) : string :=
  "The user just completed a run. Give a motivational summary.

Run completed:
- Distance: " ++ toFixed2 distance ++ " km
- Time: " ++ formatTime time ++ "
- Pace: " ++ pace ++ " per km

Give a 2-sentence summary that's positive and encouraging. Include a fun fact or achievement if appropriate. End with a motivational phrase.

Summary:".

(** ** Assistant mode *)

Definition initialGlobals : Globals :=
  mkGlobals false None 0%Q [] None 0%Z 0%Q 0%Z None false true None.

(** [testAIConnection()]: a failing check before the [await] rejects at
    once and the [catch] turns assistant mode off. *)
Definition testAIConnection (g : Globals) : Globals * list Effect :=
  match aiCoach g with
  | None => (g, [])
  | Some c =>
      match queryGemini_start c with
      | Some _ => (set_useAI false g, [UpdateAIButton false])
      | None => (g, [Ask "Say hello as a running coach" KTest])
      end
  end.

(** The rest of [testAIConnection] once the answer arrives. *)
Definition testAIConnection_resume (g : Globals) (r : AIError + string) : Globals * list Effect :=
  match r with
  | inl _ => (set_useAI false g, [UpdateAIButton false])
  | inr _ => (g, [])
  end.

(** [initializeAI()], with the configured key and [navigator.onLine]. *)
Definition initializeAI (g : Globals) (cfgKey : option string) (online : bool)
    : Globals * list Effect :=
  match cfgKey with
  | Some key =>
      if (10 <? String.length key)%nat then
        let '(g', es) := testAIConnection (set_useAI true (set_aiCoach (Some (mkAICoach key online [])) g)) in
        (g', UpdateAIButton true :: es)
      else (set_useAI false g, [UpdateAIButton false; Speak "AI Coach unavailable. Using basic mode."])
  | None => (set_useAI false g, [UpdateAIButton false; Speak "AI Coach unavailable. Using basic mode."])
  end.

(** [addAIToggleButton()]: the saved preference ["off"] turns the mode off. *)
Definition load_ai_preference (g : Globals) (st : Storage) : Globals :=
  match runflow_ai_mode st with
  | Some s => if String.eqb s "off" then set_useAI false g else g
  | None => g
  end.

(** The [DOMContentLoaded] handler, as far as it touches the state:
    [setupEventListeners] (which loads the preference) runs before
    [initializeAI]. *)
Definition init_app (st : Storage) (cfgKey : option string) (online : bool)
    : Globals * list Effect :=
  initializeAI (load_ai_preference initialGlobals st) cfgKey online.

(** The click handler of the toggle button. *)
Definition aiToggle_click (g : Globals) (st : Storage) : Globals * Storage * list Effect :=
  match aiCoach g with
  | None => (g, st, [Speak "AI Coach not available. Check API key in config.js"])
  | Some _ =>
      let b := negb (useAI g) in
      (set_useAI b g,
       mkStorage (runHistory st) (Some (if b then "on" else "off")),
       [UpdateAIButton b; Speak (if b then "AI Coach activated!" else "Basic mode activated")])
  end.

Definition set_online (b : bool) (g : Globals) : Globals :=
  match aiCoach g with
  | Some c => set_aiCoach (Some (mkAICoach (apiKey c) b (conversationHistory c))) g
  | None => g
  end.

(** The [online] event: the coach's own listener, then the status one. *)
Definition on_online (g : Globals) : Globals * list Effect :=
  let g1 := set_online true g in
  match aiCoach g1 with
  | Some _ => if useAI g1 then (set_online true g1, [Speak "Back online! AI Coach is ready."])
              else (g1, [])
  | None => (g1, [])
  end.

(** The [offline] event. *)
Definition on_offline (g : Globals) : Globals * list Effect :=
  let g1 := set_online false (set_online false g) in
  (g1, if useAI g1 then [Speak "Offline. Using basic mode."] else []).

(** ** Lemmas *)

Lemma length_record_turn (c : AICoach) (t : Turn) :
  length (conversationHistory c) <= 10 ->
  length (conversationHistory (record_turn c t)) <= 10.
Proof. apply length_push_bounded. Qed.

Lemma queryGemini_finish_error c prompt o now e :
  snd (queryGemini_finish c prompt o now) = inl e ->
  fst (queryGemini_finish c prompt o now) = c.
Proof.
  destruct o as [| s b | [text |]]; simpl; try done.
  by destruct (String.eqb text "").
Qed.

(** ** Theorems *)

(** C28: the conversation history of the coach never exceeds 10 turns:
    every call of [queryGemini] keeps the bound. *)
Theorem queryGemini_history_bounded (c : AICoach) prompt o now :
  length (conversationHistory c) <= 10 ->
  length (conversationHistory (fst (queryGemini c prompt o now))) <= 10.
Proof.
  intros H. unfold queryGemini.
  destruct (queryGemini_start c); [done |].
  destruct o as [| s b | [text |]]; simpl; try done.
  destruct (String.eqb text ""); [done |]. by apply length_record_turn.
Qed.

Lemma queryGemini_history_bounded_witness :
  length (conversationHistory (fst (queryGemini (mkAICoach "key-1234567890" true [])
     "hi" (JsonBody (Some " Go! ")) 7))) <= 10 /\
  conversationHistory (fst (queryGemini (mkAICoach "key-1234567890" true [])
     "hi" (JsonBody (Some " Go! ")) 7)) = [mkTurn "hi" "Go!" 7].
Proof.
  split.
  - apply (queryGemini_history_bounded (mkAICoach "key-1234567890" true []) "hi"
             (JsonBody (Some " Go! ")) 7). simpl. lia.
  - reflexivity.
Defined.

(** Every failure of [queryGemini] is a value: the coach is left
    unchanged, and an offline coach answers [NoInternet] without any
    exchange. *)
Theorem queryGemini_error_unchanged (c : AICoach) prompt o now e :
  snd (queryGemini c prompt o now) = inl e ->
  fst (queryGemini c prompt o now) = c /\
  (isOnline c = false -> e = NoInternet).
Proof.
  unfold queryGemini, queryGemini_start. intros H.
  destruct (isOnline c) eqn:On; simpl in *.
  - destruct (String.eqb (apiKey c) ""); simpl in *; [done |].
    split; [by eapply queryGemini_finish_error | done].
  - split; [done |]. intros _. by injection H.
Qed.

Lemma queryGemini_error_unchanged_witness :
  snd (queryGemini (mkAICoach "k" false []) "p" FetchFailed 0) = inl NoInternet /\
  fst (queryGemini (mkAICoach "k" false []) "p" FetchFailed 0) = mkAICoach "k" false [].
Proof.
  split; [reflexivity |].
  apply (queryGemini_error_unchanged (mkAICoach "k" false []) "p" FetchFailed 0 NoInternet).
  reflexivity.
Defined.

(** A saved preference ["off"] does not survive start-up when a
    valid key is configured: [initializeAI] runs after the preference is
    loaded and turns assistant mode back on. *)
Theorem init_app_overrides_saved_off (st : Storage) (key : string) (online : bool) :
  runflow_ai_mode st = Some "off" ->
  (10 < String.length key)%nat ->
  online = true ->
  useAI (fst (init_app st (Some key) online)) = true.
Proof.
  intros Hs Hk ->. unfold init_app, load_ai_preference, initializeAI. rewrite Hs.
  destruct (Nat.ltb_spec 10 (String.length key)); [| lia].
  unfold testAIConnection, queryGemini_start. simpl.
  destruct (String.eqb_spec key ""); [subst; simpl in Hk; lia | done].
Qed.

Lemma init_app_overrides_saved_off_witness :
  useAI (fst (init_app (mkStorage [] (Some "off")) (Some "AIzaSyExample123") true)) = true.
Proof.
  apply (init_app_overrides_saved_off (mkStorage [] (Some "off")) "AIzaSyExample123" true);
    first [reflexivity | simpl; lia].
Defined.

