(* ===== verification/Milestone.v ===== *)
(** * Milestone: the kilometre announcements of [checkAudioCues]

    [updateUI] (app.js lines 846-873) writes the figures to the page (modelled in
    [Display.updateUI_display]) and calls [checkAudioCues] (lines 876-901): when the
    whole kilometres run exceed [lastAnnouncedKm], one announcement is made
    (by the coach when assistant mode is on and online, else by
    [speakBasicMilestone], lines 903-907) and [lastAnnouncedKm] jumps to the
    current whole kilometre, skipping the kilometres in between.

    Theorems: the two branches of [checkAudioCues]; along any sequence of
    distance updates the announced kilometres strictly increase (no unit is
    announced twice); the spec's example 0.95 -> 1.2 -> 2.3 announces 1 then
    2. *)

From Stdlib Require Import String Ascii ZArith QArith Sorting Lia.
From stdpp Require Import base list.
From S2P Require Import Prelude State Metrics Assistant.

Local Open Scope string_scope.

Definition speakBasicMilestone (km : Z) (pace : string) : Effect :=
  Speak (Z_to_string km ++ " kilometer" ++ (if (1 <? km)%Z then "s" else "") ++
         " completed! Current pace: " ++ pace ++ ".").

(** The coach's own checks before [await fetch], for a coach in [g]. *)
Definition coach_precheck (g : Globals) : option AIError :=
  match aiCoach g with
  | Some c => queryGemini_start c
  | None => None
  end.

(** [.then((response) => speak(response)).catch(() => speakBasicMilestone(...))] *)
Definition milestone_resume (km : Z) (pace : string) (r : AIError + string) : list Effect :=
  match r with
  | inr response => [Speak response]
  | inl _ => [speakBasicMilestone km pace]
  end.

Definition checkAudioCues (g : Globals) (now : Z) : Globals * list Effect :=
  if negb (isRunning g) then (g, [])
  else
    let currentKm := js_floor (totalDistance g) in
    if (lastAnnouncedKm g <? currentKm)%Z && (0 <? currentKm)%Z then
      let elapsed := calculateTimeElapsed (startTime g) now in
      let pace := calculatePace (totalDistance g) elapsed in
      let effs :=
        if ai_available g then
          match coach_precheck g with
          | Some e => milestone_resume currentKm pace (inl e)
          | None =>
              [Ask (handleCommand_prompt
                      ("I just reached " ++ Z_to_string currentKm ++ " kilometers")
                      (getStatsText (totalDistance g) elapsed true))
                   (KMilestone currentKm pace)]
          end
        else [speakBasicMilestone currentKm pace] in
      (set_lastAnnouncedKm currentKm g, effs)
    else (g, []).

(** [updateUI()] on the state: its page writes are [Display.updateUI_display];
    what changes the globals is the check. *)
Definition updateUI (g : Globals) (now : Z) : Globals * list Effect :=
  checkAudioCues g now.

(** The detector along a sequence of distance values: each value is
    written to [totalDistance] and checked; the result lists the
    kilometres announced. *)
Fixpoint milestone_run (g : Globals) (ds : list Q) (now : Z) : Globals * list Z :=
  match ds with
  | [] => (g, [])
  | d :: ds' =>
      let '(g1, es) := checkAudioCues (set_totalDistance d g) now in
      let '(g2, ks) := milestone_run g1 ds' now in
      (g2, match es with [] => ks | _ :: _ => lastAnnouncedKm g1 :: ks end)
  end.

(** ** Lemmas *)

(** One announcement of the kilometre [km] at the pace [pace]: the
    template "[km] kilometer(s) completed! Current pace: [pace]." at once,
    or a request to the coach saying "I just reached [km] kilometers",
    whose answer is spoken and whose failure falls back to that template
    ([KMilestone km pace]). *)
Definition announces (km : Z) (pace : string) (es : list Effect) : Prop :=
  es = [speakBasicMilestone km pace] \/
  exists stats, es = [Ask (handleCommand_prompt ("I just reached " ++ Z_to_string km ++ " kilometers") stats)
                          (KMilestone km pace)].

Lemma checkAudioCues_fields g now :
  let r := checkAudioCues g now in
  totalDistance (fst r) = totalDistance g /\ positions (fst r) = positions g /\
  isRunning (fst r) = isRunning g /\ startTime (fst r) = startTime g /\
  stepCount (fst r) = stepCount g /\ aiCoach (fst r) = aiCoach g /\
  useAI (fst r) = useAI g.
Proof.
  unfold checkAudioCues. destruct (isRunning g) eqn:R; simpl; [| done].
  by destruct ((lastAnnouncedKm g <? js_floor (totalDistance g))%Z &&
               (0 <? js_floor (totalDistance g))%Z).
Qed.

(** Either nothing happens, or [lastAnnouncedKm] moves strictly up and one
    effect is emitted. *)
Lemma checkAudioCues_cases g now :
  checkAudioCues g now = (g, []) \/
  (lastAnnouncedKm g < lastAnnouncedKm (fst (checkAudioCues g now)))%Z /\
  snd (checkAudioCues g now) <> [].
Proof.
  unfold checkAudioCues. destruct (isRunning g); simpl; [| by left].
  destruct (Z.ltb_spec (lastAnnouncedKm g) (js_floor (totalDistance g)));
  destruct (Z.ltb_spec 0 (js_floor (totalDistance g))); simpl; try by left.
  right. split; [done |].
  destruct (ai_available g); [| done].
  by destruct (coach_precheck g).
Qed.

(** ** Theorems *)

(** C9: when the run is active and the whole kilometres exceed both 0 and
    [lastAnnouncedKm], exactly one announcement of that kilometre is made,
    with the current pace, by the template or through the coach, and
    [lastAnnouncedKm] becomes it, whatever units were skipped. *)
Theorem checkAudioCues_fires (g : Globals) (now : Z) :
  isRunning g = true ->
  (lastAnnouncedKm g < js_floor (totalDistance g))%Z ->
  (0 < js_floor (totalDistance g))%Z ->
  lastAnnouncedKm (fst (checkAudioCues g now)) = js_floor (totalDistance g) /\
  announces (js_floor (totalDistance g))
    (calculatePace (totalDistance g) (calculateTimeElapsed (startTime g) now))
    (snd (checkAudioCues g now)).
Proof.
  intros R H1 H2. unfold checkAudioCues, announces. rewrite R. simpl.
  destruct (Z.ltb_spec (lastAnnouncedKm g) (js_floor (totalDistance g))); [| lia].
  destruct (Z.ltb_spec 0 (js_floor (totalDistance g))); [| lia]. simpl.
  split; [done |].
  destruct (ai_available g); [| by left].
  destruct (coach_precheck g); [by left | right; by eexists].
Qed.

Lemma checkAudioCues_fires_witness :
  let g := set_totalDistance 1.2 (mkGlobals true (Some 0%Z) 0 [] None 0 0 0 None false false None) in
  isRunning g = true /\ lastAnnouncedKm (fst (checkAudioCues g 360000)) = 1%Z /\
  snd (checkAudioCues g 360000) = [Speak "1 kilometer completed! Current pace: 5:00."].
Proof.
  simpl. split; [reflexivity |]. split.
  - apply (checkAudioCues_fires
             (set_totalDistance 1.2 (mkGlobals true (Some 0%Z) 0 [] None 0 0 0 None false false None))
             360000); vm_compute; reflexivity.
  - vm_compute. reflexivity.
Defined.

Lemma checkAudioCues_noop (g : Globals) (now : Z) :
  isRunning g = false \/ (js_floor (totalDistance g) <= lastAnnouncedKm g)%Z ->
  checkAudioCues g now = (g, []).
Proof.
  intros H. unfold checkAudioCues.
  destruct (isRunning g) eqn:R; simpl; [| done].
  destruct H as [H | H]; [discriminate |].
  by destruct (Z.ltb_spec (lastAnnouncedKm g) (js_floor (totalDistance g))); [lia |].
Qed.

(** No announcement, and no change at all, when the run is not
    active or the whole kilometres do not exceed [lastAnnouncedKm]. *)
Theorem checkAudioCues_silent (g : Globals) (now : Z) :
  isRunning g = false \/ (js_floor (totalDistance g) <= lastAnnouncedKm g)%Z ->
  checkAudioCues g now = (g, []).
Proof. apply checkAudioCues_noop. Qed.

Lemma checkAudioCues_silent_witness :
  checkAudioCues (mkGlobals true (Some 0%Z) 1.7 [] None 0 0 1 None false false None) 5 =
  (mkGlobals true (Some 0%Z) 1.7 [] None 0 0 1 None false false None, []).
Proof.
  apply checkAudioCues_silent. right. vm_compute. discriminate.
Defined.

(** C10: along any sequence of distance values, the announced kilometres
    strictly increase from [lastAnnouncedKm]: no kilometre is announced
    twice. *)
Theorem milestone_run_increasing (g : Globals) (ds : list Q) (now : Z) :
  Sorted Z.lt (lastAnnouncedKm g :: snd (milestone_run g ds now)).
Proof.
  revert g. induction ds as [| d ds IH]; intros g; cbn [milestone_run snd]; [by repeat constructor |].
  destruct (checkAudioCues (set_totalDistance d g) now) as [g1 es] eqn:E.
  destruct (milestone_run g1 ds now) as [g2 ks] eqn:E2. simpl.
  specialize (IH g1). rewrite E2 in IH. simpl in IH.
  pose proof (checkAudioCues_cases (set_totalDistance d g) now) as Hc.
  rewrite E in Hc. destruct Hc as [H | [H Hne]]; simpl in *.
  - injection H as Hg ->. subst g1. exact IH.
  - destruct es as [| e es']; [done |]. constructor; [exact IH | constructor; exact H].
Qed.

(** The spec's example: from 0 through 0.95, 1.2 and 2.3 km, the
    detector announces kilometre 1 once and kilometre 2 once. *)
Example milestone_run_spec_example :
  snd (milestone_run (mkGlobals true (Some 0%Z) 0 [] None 0 0 0 None false false None)
         [0.95; 1.2; 2.3]%Q 600000) = [1%Z; 2%Z].
Proof. vm_compute. reflexivity. Qed.
