(* ===== verification/Fusion.v ===== *)
(** * Fusion: the GPS watch callback and the step fallback

    The success callback passed to [navigator.geolocation.watchPosition] in
    [startGPSTracking] (app.js lines 274-352) is [onPosition]: the closure
    variable [lastUpdateTime] (line 281) is threaded explicitly.  It drops a
    fix that comes less than 2 s after the previous one, drops a fix whose
    accuracy exceeds 100 m, stores the first fix of an empty window, and
    otherwise accepts the fix only when the great-circle distance from the
    last stored fix exceeds 5 m, stays below 100 m and the implied speed is
    below 25 km/h ([fix_accepted]); an accepted fix is added to
    [totalDistance], appended to [positions], which keeps 20 entries, and
    [updateUI] runs.  [handleMotion] (lines 373-401) counts a step for each
    vertical acceleration between 10.5 and 15 and, when the last stored fix
    is more than 5 s old, raises [totalDistance] to the 70/30 blend of GPS
    and step distance when that is more than 1 m above it.

    [calculateDistance] is a variable of the section: every theorem holds
    for any distance function, the haversine of [Geo] included.

    The abstract contract [fix_spec] states what a fix may do to the pair
    (distance, window); [onPosition_refines] shows the callback implements
    it, and the monotonicity and window bound of the contract carry over to
    whole sequences of fixes and motion events ([fusion_run]). *)

From Stdlib Require Import String ZArith QArith Qabs Lqa Lia.
From stdpp Require Import base list.
From S2P Require Import Prelude State Metrics Assistant Milestone.

Local Open Scope Q_scope.
Local Open Scope rf_scope.

(** The constants of lines 26-29 and the literals of the filter. *)
Definition MIN_DISTANCE : Q := 0.005.
Definition MAX_SPEED_KPH : Q := 25.
Definition STEP_LENGTH : Q := 0.00075.
Definition GPS_UPDATE_INTERVAL : Z := 2000.
Definition MAX_ACCURACY : Q := 100.
Definition MAX_JUMP : Q := 0.1.
Definition WINDOW : nat := 20.

(** [position.coords] as the callback reads it. *)
Record Coords := mkCoords {
  latitude : Q;
  longitude : Q;
  coord_accuracy : Q
}.

(** [event.accelerationIncludingGravity]; a missing axis is [null]. *)
Record Acceleration := mkAcceleration {
  acc_x : option Q;
  acc_y : option Q;
  acc_z : option Q
}.

Section Fusion.

Variable calculateDistance : Q -> Q -> Q -> Q -> Q.

Definition fix_distance (lastPos newPos : Position) : Q :=
  calculateDistance (lat lastPos) (lon lastPos) (lat newPos) (lon newPos).

(** The "smart filters" of lines 321-333. *)
Definition fix_accepted (lastPos newPos : Position) : bool :=
  let distance := fix_distance lastPos newPos in
  let timeDiffHours := inject_Z (time newPos - time lastPos) / 3600000 in
  let speedKph := js_div distance timeDiffHours in
  (MIN_DISTANCE <? distance) && js_lt speedKph MAX_SPEED_KPH && (distance <? MAX_JUMP).

(** The watch callback: returns the new [lastUpdateTime], the globals and
    the effects of [updateUI]. *)
Definition onPosition (lastUpdateTime : Z) (g : Globals) (c : Coords) (now : Z)
    : Z * (Globals * list Effect) :=
  if (now - lastUpdateTime <? GPS_UPDATE_INTERVAL)%Z then (lastUpdateTime, (g, []))
  else if MAX_ACCURACY <? coord_accuracy c then (now, (g, []))
  else
    let newPos := mkPosition (latitude c) (longitude c) now (coord_accuracy c) in
    match last (positions g) with
    | None => (now, (set_positions [newPos] g, []))
    | Some lastPos =>
        if fix_accepted lastPos newPos then
          let g1 := set_totalDistance (totalDistance g + fix_distance lastPos newPos) g in
          (now, updateUI (set_positions (push_bounded WINDOW newPos (positions g)) g1) now)
        else (now, (g, []))
    end.

(** [Math.abs(acceleration.y || acceleration.y)]: [null] reads as 0. *)
Definition verticalAccel (a : Acceleration) : Q :=
  Qabs (default 0 (acc_y a)).

Definition handleMotion (g : Globals) (accel : option Acceleration) (now : Z)
    : Globals * list Effect :=
  if negb (isRunning g) then (g, [])
  else
    match accel with
    | None => (g, [])
    | Some a =>
        let v := verticalAccel a in
        if (10.5 <? v) && (v <? 15) then
          let n := (stepCount g + 1)%Z in
          let est := inject_Z n * STEP_LENGTH in
          let g1 := set_steps n est g in
          let lastGpsTime := match last (positions g) with Some p => time p | None => 0%Z end in
          if (5000 <? now - lastGpsTime)%Z then
            let blended := totalDistance g * 0.7 + est * 0.3 in
            if totalDistance g + 0.001 <? blended then
              updateUI (set_totalDistance blended g1) now
            else (g1, [])
          else (g1, [])
        else (g, [])
    end.

(** ** The contract of a fix *)

(** The part of the state a fix may change: distance and window. *)
Definition fstate (g : Globals) : Q * list Position := (totalDistance g, positions g).

(** What a fix may do: nothing; anchor an empty window; or add a distance
    between 5 m and 100 m and append to the window, keeping 20 entries. *)
Inductive fix_spec : Q * list Position -> Position -> Q * list Position -> Prop :=
| fix_dropped s p : fix_spec s p s
| fix_anchor d p : fix_spec (d, []) p (d, [p])
| fix_accept d w p delta :
    MIN_DISTANCE < delta -> delta < MAX_JUMP ->
    fix_spec (d, w) p (d + delta, push_bounded WINDOW p w).

(** Sequences of fixes and motion events. *)
Inductive FEvent :=
| EFix (c : Coords) (now : Z)
| EMotion (a : option Acceleration) (now : Z).

Definition fusion_step (st : Z * Globals) (e : FEvent) : Z * Globals :=
  let '(lu, g) := st in
  match e with
  | EFix c now => let '(lu', (g', _)) := onPosition lu g c now in (lu', g')
  | EMotion a now => (lu, fst (handleMotion g a now))
  end.

Definition fusion_run (st : Z * Globals) (es : list FEvent) : Z * Globals :=
  fold_left fusion_step es st.

(** ** Lemmas *)

Lemma updateUI_fstate g now : fstate (fst (updateUI g now)) = fstate g.
Proof.
  unfold fstate, updateUI. destruct (checkAudioCues_fields g now) as (H1 & H2 & _).
  by rewrite H1, H2.
Qed.

Lemma updateUI_totalDistance g now :
  totalDistance (fst (updateUI g now)) = totalDistance g.
Proof. apply (checkAudioCues_fields g now). Qed.

Lemma updateUI_positions g now : positions (fst (updateUI g now)) = positions g.
Proof. apply (checkAudioCues_fields g now). Qed.

Lemma updateUI_stepCount g now : stepCount (fst (updateUI g now)) = stepCount g.
Proof. apply (checkAudioCues_fields g now). Qed.

Lemma fix_accepted_bounds lastPos newPos :
  fix_accepted lastPos newPos = true ->
  MIN_DISTANCE < fix_distance lastPos newPos /\ fix_distance lastPos newPos < MAX_JUMP.
Proof.
  unfold fix_accepted. intros H.
  apply andb_prop in H as [H H3]. apply andb_prop in H as [H1 _].
  destruct (QltbP MIN_DISTANCE (fix_distance lastPos newPos)); [| done].
  destruct (QltbP (fix_distance lastPos newPos) MAX_JUMP); [| done]. done.
Qed.

Lemma fix_spec_monotone s p s' : fix_spec s p s' -> s.1 <= s'.1.
Proof. inversion 1; simpl; unfold MIN_DISTANCE in *; lra. Qed.

Lemma fix_spec_window s p s' : fix_spec s p s' -> (length s.2 <= WINDOW)%nat -> (length s'.2 <= WINDOW)%nat.
Proof.
  inversion 1; simpl; intros; [done | unfold WINDOW; lia |].
  by apply length_push_bounded.
Qed.

Lemma handleMotion_monotone g a now :
  totalDistance g <= totalDistance (fst (handleMotion g a now)).
Proof.
  unfold handleMotion. destruct (isRunning g); simpl; [| lra].
  destruct a as [a |]; simpl; [| lra].
  destruct ((10.5 <? verticalAccel a) && (verticalAccel a <? 15)); simpl; [| lra].
  destruct (5000 <? now - _)%Z; simpl; [| lra].
  qcase; simpl; [| lra].
  rewrite updateUI_totalDistance. simpl. lra.
Qed.

Lemma handleMotion_positions g a now :
  positions (fst (handleMotion g a now)) = positions g.
Proof.
  unfold handleMotion. destruct (isRunning g); simpl; [| done].
  destruct a as [a |]; simpl; [| done].
  destruct ((10.5 <? verticalAccel a) && (verticalAccel a <? 15)); simpl; [| done].
  destruct (5000 <? now - _)%Z; simpl; [| done].
  qcase; simpl; [| done].
  by rewrite updateUI_positions.
Qed.

(** ** Theorems *)

Lemma onPosition_fix_spec (lu : Z) (g : Globals) (c : Coords) (now : Z) :
  fix_spec (fstate g) (mkPosition (latitude c) (longitude c) now (coord_accuracy c))
           (fstate (fst (snd (onPosition lu g c now)))).
Proof.
  unfold onPosition.
  destruct (now - lu <? GPS_UPDATE_INTERVAL)%Z; [constructor |].
  destruct (MAX_ACCURACY <? coord_accuracy c); [constructor |].
  destruct (last (positions g)) as [lastPos |] eqn:L.
  - destruct (fix_accepted lastPos _) eqn:A; [| constructor].
    simpl. rewrite updateUI_fstate. unfold fstate. simpl.
    destruct (fix_accepted_bounds _ _ A). by constructor.
  - apply last_None in L. unfold fstate. simpl. rewrite L. constructor.
Qed.

(** C1: refinement: every run of the watch callback changes distance and
    window as the contract [fix_spec] allows, for the fix it stores. *)
Theorem onPosition_refines (lu : Z) (g : Globals) (c : Coords) (now : Z) :
  fix_spec (fstate g) (mkPosition (latitude c) (longitude c) now (coord_accuracy c))
           (fstate (fst (snd (onPosition lu g c now)))).
Proof. apply onPosition_fix_spec. Qed.

(** C2: along any sequence of fixes and motion events, [totalDistance]
    never decreases and the window never holds more than 20 fixes. *)
Theorem fusion_run_monotone (lu : Z) (g : Globals) (es : list FEvent) :
  (length (positions g) <= WINDOW)%nat ->
  totalDistance g <= totalDistance (snd (fusion_run (lu, g) es)) /\
  (length (positions (snd (fusion_run (lu, g) es))) <= WINDOW)%nat.
Proof.
  unfold fusion_run. revert lu g. induction es as [| e es IH]; intros lu g Hw; simpl.
  - split; [lra | done].
  - destruct e as [c now | a now]; simpl.
    + pose proof (onPosition_fix_spec lu g c now) as R.
      destruct (onPosition lu g c now) as [lu' [g' effs]]. simpl in R.
      destruct (IH lu' g') as [IH1 IH2].
      { apply (fix_spec_window _ _ _ R Hw). }
      split; [| done]. pose proof (fix_spec_monotone _ _ _ R). simpl in *. lra.
    + destruct (IH lu (fst (handleMotion g a now))) as [IH1 IH2].
      { by rewrite handleMotion_positions. }
      split; [| done]. pose proof (handleMotion_monotone g a now). lra.
Qed.

(** The fix the callback stores for [c] at [now]. *)
Definition newPos_of (c : Coords) (now : Z) : Position :=
  mkPosition (latitude c) (longitude c) now (coord_accuracy c).

(** A fix less than [GPS_UPDATE_INTERVAL] after the last one is
    dropped before anything else, and [lastUpdateTime] is kept. *)
Theorem onPosition_throttled (lu : Z) (g : Globals) (c : Coords) (now : Z) :
  (now - lu < 2000)%Z ->
  onPosition lu g c now = (lu, (g, [])).
Proof.
  intros H. unfold onPosition.
  by destruct (Z.ltb_spec (now - lu) GPS_UPDATE_INTERVAL); [| unfold GPS_UPDATE_INTERVAL in *; lia].
Qed.

(** C3: a fix reporting an accuracy above 100 m is never stored and
    never changes the distance; it only restarts the throttle. *)
Theorem onPosition_poor_accuracy (lu : Z) (g : Globals) (c : Coords) (now : Z) :
  (2000 <= now - lu)%Z ->
  100 < coord_accuracy c ->
  onPosition lu g c now = (now, (g, [])).
Proof.
  intros H1 H2. unfold onPosition.
  destruct (Z.ltb_spec (now - lu) GPS_UPDATE_INTERVAL); [unfold GPS_UPDATE_INTERVAL in *; lia |].
  by destruct (QltbP MAX_ACCURACY (coord_accuracy c)); [| unfold MAX_ACCURACY in *; lra].
Qed.

(** A fix that the filter refuses (too close, too far or too fast
    from the last stored fix) is dropped silently: no state changes. *)
Theorem onPosition_rejected (lu : Z) (g : Globals) (c : Coords) (now : Z) (p : Position) :
  (2000 <= now - lu)%Z ->
  coord_accuracy c <= 100 ->
  last (positions g) = Some p ->
  fix_accepted p (newPos_of c now) = false ->
  onPosition lu g c now = (now, (g, [])).
Proof.
  intros H1 H2 L A. unfold onPosition.
  destruct (Z.ltb_spec (now - lu) GPS_UPDATE_INTERVAL); [unfold GPS_UPDATE_INTERVAL in *; lia |].
  destruct (QltbP MAX_ACCURACY (coord_accuracy c)); [unfold MAX_ACCURACY in *; lra |].
  rewrite L. unfold newPos_of in A. by rewrite A.
Qed.

Lemma onPosition_accept_step (lu : Z) (g : Globals) (c : Coords) (now : Z) (p : Position) :
  (2000 <= now - lu)%Z ->
  coord_accuracy c <= 100 ->
  last (positions g) = Some p ->
  fix_accepted p (newPos_of c now) = true ->
  let r := onPosition lu g c now in
  fst r = now /\
  totalDistance (fst (snd r)) = totalDistance g + fix_distance p (newPos_of c now) /\
  positions (fst (snd r)) = push_bounded 20 (newPos_of c now) (positions g) /\
  r = (now, updateUI (set_positions (push_bounded 20 (newPos_of c now) (positions g))
                        (set_totalDistance (totalDistance g + fix_distance p (newPos_of c now)) g)) now).
Proof.
  intros H1 H2 L A. unfold onPosition.
  destruct (Z.ltb_spec (now - lu) GPS_UPDATE_INTERVAL); [unfold GPS_UPDATE_INTERVAL in *; lia |].
  destruct (QltbP MAX_ACCURACY (coord_accuracy c)); [unfold MAX_ACCURACY in *; lra |].
  rewrite L. unfold newPos_of in A |- *. rewrite A. simpl.
  by rewrite updateUI_totalDistance, updateUI_positions.
Qed.

(** An accepted fix adds its distance to [totalDistance], is
    appended to the window (the oldest entry leaving when 20 are exceeded)
    and the milestone check runs on the new state. *)
Theorem onPosition_accepted (lu : Z) (g : Globals) (c : Coords) (now : Z) (p : Position) :
  (2000 <= now - lu)%Z ->
  coord_accuracy c <= 100 ->
  last (positions g) = Some p ->
  fix_accepted p (newPos_of c now) = true ->
  let r := onPosition lu g c now in
  fst r = now /\
  totalDistance (fst (snd r)) = totalDistance g + fix_distance p (newPos_of c now) /\
  positions (fst (snd r)) = push_bounded 20 (newPos_of c now) (positions g) /\
  r = (now, updateUI (set_positions (push_bounded 20 (newPos_of c now) (positions g))
                        (set_totalDistance (totalDistance g + fix_distance p (newPos_of c now)) g)) now).
Proof. apply onPosition_accept_step. Qed.

Lemma fix_accepted_speed (lastPos newPos : Position) :
  (time lastPos < time newPos)%Z ->
  fix_accepted lastPos newPos = true <->
  0.005 < fix_distance lastPos newPos /\
  fix_distance lastPos newPos / (inject_Z (time newPos - time lastPos) / 3600000) < 25 /\
  fix_distance lastPos newPos < 0.1.
Proof.
  intros Ht. unfold fix_accepted.
  assert (Hd : ~ inject_Z (time newPos - time lastPos) / 3600000 == 0).
  { intros E. assert (Hp : 0 < inject_Z (time newPos - time lastPos))
      by (change 0 with (inject_Z 0); rewrite <- Zlt_Qlt; lia).
    assert (0 < inject_Z (time newPos - time lastPos) / 3600000)
      by (apply Qlt_shift_div_l; [reflexivity | lra]). lra. }
  rewrite !andb_true_iff, (js_lt_fin_iff _ _ _ Hd).
  split.
  - intros [[H1 H2] H3]. split; [by destruct (QltbP MIN_DISTANCE (fix_distance lastPos newPos)) |].
    split; [done | by destruct (QltbP (fix_distance lastPos newPos) MAX_JUMP)].
  - intros (H1 & H2 & H3). split; [split; [by destruct (QltbP MIN_DISTANCE (fix_distance lastPos newPos)) | done] |].
    by destruct (QltbP (fix_distance lastPos newPos) MAX_JUMP).
Qed.

(** C5: for a fix newer than the last stored one, the filter accepts
    exactly when the distance exceeds 5 m, stays below 100 m and the implied
    speed is below 25 km/h; a fix with the same timestamp is always refused
    (its implied speed is +Infinity). *)
Theorem fix_accepted_iff (lastPos newPos : Position) :
  (time lastPos < time newPos)%Z ->
  fix_accepted lastPos newPos = true <->
  0.005 < fix_distance lastPos newPos /\
  fix_distance lastPos newPos / (inject_Z (time newPos - time lastPos) / 3600000) < 25 /\
  fix_distance lastPos newPos < 0.1.
Proof. apply fix_accepted_speed. Qed.

Lemma fix_accepted_same_time (lastPos newPos : Position) :
  time newPos = time lastPos -> fix_accepted lastPos newPos = false.
Proof.
  intros Ht. unfold fix_accepted.
  destruct (QltbP MIN_DISTANCE (fix_distance lastPos newPos)) as [Hm |]; [| done]. simpl.
  rewrite js_lt_div_zero; [done | unfold MIN_DISTANCE in Hm; lra |].
  rewrite Ht, Z.sub_diag. reflexivity.
Qed.

(** C31: a fix whose timestamp is earlier than the last stored fix
    (the clock went back) passes the speed filter whatever its distance per
    hour, because the implied speed is negative: only the distance bounds
    are checked. *)
Theorem fix_accepted_backward_time (lastPos newPos : Position) :
  (time newPos < time lastPos)%Z ->
  0.005 < fix_distance lastPos newPos ->
  fix_distance lastPos newPos < 0.1 ->
  fix_accepted lastPos newPos = true.
Proof.
  intros Ht H1 H2. unfold fix_accepted.
  set (dt := inject_Z (time newPos - time lastPos) / 3600000).
  assert (Hdt : dt < 0).
  { unfold dt. assert (inject_Z (time newPos - time lastPos) < 0)
      by (change 0 with (inject_Z 0); rewrite <- Zlt_Qlt; lia).
    apply Qlt_shift_div_r; [reflexivity | lra]. }
  assert (Hne : ~ dt == 0) by lra.
  destruct (QltbP MIN_DISTANCE (fix_distance lastPos newPos)); [| unfold MIN_DISTANCE in *; lra].
  destruct (QltbP (fix_distance lastPos newPos) MAX_JUMP); [| unfold MAX_JUMP in *; lra].
  rewrite andb_true_r. simpl. apply (js_lt_fin_iff _ _ _ Hne).
  set (d := fix_distance lastPos newPos) in *.
  assert (Hq : 0 < d / (- dt)) by (apply Qlt_shift_div_l; [lra | unfold MIN_DISTANCE in *; lra]).
  assert (E : d / dt == - (d / (- dt))) by (field; lra).
  unfold MAX_SPEED_KPH. lra.
Qed.

(** C7: a qualifying step with the last fix more than 5 s old sets
    [totalDistance] to the 70/30 blend when the blend exceeds it by more
    than 1 m, and leaves it unchanged otherwise, in particular when the
    blend is below it. *)
Theorem handleMotion_blend (g : Globals) (a : Acceleration) (now : Z) :
  isRunning g = true ->
  10.5 < verticalAccel a < 15 ->
  (5000 < now - match last (positions g) with Some p => time p | None => 0 end)%Z ->
  let blended := totalDistance g * 0.7 + inject_Z (stepCount g + 1) * 0.00075 * 0.3 in
  (totalDistance (fst (handleMotion g (Some a) now)) =
     if Qltb (totalDistance g + 0.001) blended then blended else totalDistance g) /\
  (stepCount (fst (handleMotion g (Some a) now)) = stepCount g + 1)%Z.
Proof.
  intros R [V1 V2] T. unfold handleMotion, STEP_LENGTH. rewrite R. simpl.
  destruct (QltbP 10.5 (verticalAccel a)); [| lra].
  destruct (QltbP (verticalAccel a) 15); [| lra]. simpl.
  set (lg := match last (positions g) with Some p => time p | None => 0%Z end) in *.
  destruct (Z.ltb_spec 5000 (now - lg)); [| lia].
  qcase; simpl; [| done].
  by rewrite updateUI_totalDistance, updateUI_stepCount.
Qed.

End Fusion.

(** ** Witnesses

    The theorems hold for every distance function; the witnesses apply them
    with a planar distance in kilometres, [planar], on concrete fixes. *)

Definition planar (lat1 lon1 lat2 lon2 : Q) : Q := Qabs (lat2 - lat1) + Qabs (lon2 - lon1).

(** A run started at time 0 with its anchor fix at the origin. *)
Definition run0 (d : Q) (steps : Z) : Globals :=
  mkGlobals true (Some 0%Z) d [mkPosition 0 0 0 5] None steps 0 0 None false false None.

Lemma onPosition_throttled_witness :
  onPosition planar 0 (run0 0 0) (mkCoords 0.01 0 5) 1500 = (0%Z, (run0 0 0, [])).
Proof. apply onPosition_throttled. reflexivity. Defined.

Lemma onPosition_poor_accuracy_witness :
  onPosition planar 0 (run0 0 0) (mkCoords 0.01 0 150) 3000 = (3000%Z, (run0 0 0, [])).
Proof. apply onPosition_poor_accuracy; concrete. Defined.

Lemma onPosition_rejected_witness :
  onPosition planar 0 (run0 0 0) (mkCoords 0.002 0 5) 3000 = (3000%Z, (run0 0 0, [])).
Proof. apply (onPosition_rejected planar 0 (run0 0 0) _ _ (mkPosition 0 0 0 5)); concrete. Defined.

Lemma onPosition_accepted_witness :
  totalDistance (fst (snd (onPosition planar 0 (run0 0 0) (mkCoords 0.01 0 5) 3000))) == 0.01.
Proof.
  destruct (onPosition_accepted planar 0 (run0 0 0) (mkCoords 0.01 0 5) 3000 (mkPosition 0 0 0 5))
    as (_ & -> & _); concrete.
Defined.

Lemma fix_accepted_iff_witness :
  fix_accepted planar (mkPosition 0 0 0 5) (mkPosition 0.01 0 3000 5) = true.
Proof.
  apply (fix_accepted_iff planar (mkPosition 0 0 0 5) (mkPosition 0.01 0 3000 5)); [reflexivity |].
  concrete.
Defined.

Lemma fix_accepted_backward_time_witness :
  fix_accepted planar (mkPosition 0 0 3000 5) (mkPosition 0.09 0 2999 5) = true.
Proof. apply fix_accepted_backward_time; concrete. Defined.

Lemma handleMotion_blend_witness :
  totalDistance (fst (handleMotion (run0 1 0) (Some (mkAcceleration None (Some 12) None)) 10000)) = 1 /\
  stepCount (fst (handleMotion (run0 1 0) (Some (mkAcceleration None (Some 12) None)) 10000)) = 1%Z.
Proof.
  destruct (handleMotion_blend (run0 1 0) (mkAcceleration None (Some 12) None) 10000) as [-> ->];
    concrete.
Defined.

Lemma fusion_run_monotone_witness :
  totalDistance (snd (fusion_run planar (0%Z, run0 0 0)
     [EFix (mkCoords 0.01 0 5) 3000; EMotion (Some (mkAcceleration None (Some 12) None)) 9000;
      EFix (mkCoords 0.02 0 150) 6000])) == 0.01.
Proof.
  pose proof (fusion_run_monotone planar 0 (run0 0 0)
     [EFix (mkCoords 0.01 0 5) 3000; EMotion (Some (mkAcceleration None (Some 12) None)) 9000;
      EFix (mkCoords 0.02 0 150) 6000]) as H.
  destruct H as [_ _]; concrete.
Defined.
