(* ===== verification/Voice.v ===== *)
(** * Voice: transcripts, the local command handler and assistant routing

    [handleBasicCommand] (app.js lines 684-708) answers a command by the
    first keyword group it contains: distance, pace, time, stop, assistant
    toggle, or an echo.  [processVoiceCommand] (lines 609-681) drops
    commands shorter than 3 characters after trimming, routes a command to
    the coach when assistant mode is on and online and the command mentions
    "coach" or "hey" or is longer than 10 characters, answers it locally
    otherwise, and schedules [stopRun] one second later when the command
    contains "stop", "done" or "finish".  The code after [await
    aiCoach.handleCommand] is [command_resume]: on success it speaks the
    answer and checks for a stop; on failure the [catch] block speaks a
    fallback of its own and schedules nothing.  [onresult] is the result
    callback of the continuous recognition (lines 505-523); the manual voice
    button is [startManualVoiceCommand] (lines 573-606).

    The toggle command flips assistant mode and updates the toggle button
    (line 703), an [UpdateAIButton] effect of the handler.  [intent_of] is
    the intent of a command as the spec names it, by keyword groups in the
    spec's priority order; [local_stop_any_intent] shows that the stop
    check after the answer does not follow it. *)

From Stdlib Require Import String Ascii ZArith QArith Lia.
From stdpp Require Import base list.
From S2P Require Import Prelude State Metrics Assistant Milestone.

Local Open Scope string_scope.

Definition stop_requested (cmd : string) : bool :=
  includes cmd "stop" || includes cmd "done" || includes cmd "finish".

Definition handleBasicCommand (g : Globals) (command : string) (now : Z)
    : Globals * list Effect * string :=
  let cmd := toLowerCase command in
  let elapsed := calculateTimeElapsed (startTime g) now in
  if includes cmd "how far" || includes cmd "distance" then
    (g, [], "You've run " ++ toFixed2 (totalDistance g) ++ " kilometers!")
  else if includes cmd "pace" || includes cmd "speed" then
    (g, [], "Your pace is " ++ calculatePace (totalDistance g) elapsed ++ " per kilometer")
  else if includes cmd "time" then
    (g, [], "Elapsed time: " ++ formatTime elapsed)
  else if stop_requested cmd then
    (g, [], "Stopping your run now!")
  else if includes cmd "activate ai" || includes cmd "ai mode" then
    match aiCoach g with
    | None => (g, [], "AI Coach not available. Check API key.")
    | Some _ =>
        let b := negb (useAI g) in
        (set_useAI b g, [UpdateAIButton b], if b then "AI Coach activated!" else "Basic mode activated")
    end
  else (g, [], "I heard: " ++ dq ++ command ++ dq ++ ". Try: how far, pace, time, or stop.").

(** [if (response) speak(response)]: the empty string is falsy. *)
Definition speak_nonempty (response : string) : list Effect :=
  if String.eqb response "" then [] else [Speak response].

(** [setTimeout(() => stopRun(), 1000)] when the command asks to stop. *)
Definition stop_schedule (command : string) : list Effect :=
  if stop_requested (toLowerCase command) then [SetTimeout 1000 TStopRun] else [].

(** The [catch] block of [processVoiceCommand]. *)
Definition command_fallback (g : Globals) (command : string) (now : Z) : string :=
  let cmd := toLowerCase command in
  let elapsed := calculateTimeElapsed (startTime g) now in
  if includes cmd "how far" then "You've run " ++ toFixed2 (totalDistance g) ++ " kilometers"
  else if includes cmd "pace" then "Pace is " ++ calculatePace (totalDistance g) elapsed ++ " per kilometer"
  else if includes cmd "time" then "Time: " ++ formatTime elapsed
  else "I heard you say: " ++ String.substring 0 30 command.

(** The rest of [processVoiceCommand] once the coach's answer settles. *)
Definition command_resume (g : Globals) (command : string) (r : AIError + string) (now : Z)
    : list Effect :=
  match r with
  | inr response => (speak_nonempty response ++ stop_schedule command)%list
  | inl _ => [Speak (command_fallback g command now)]
  end.

(** Whether [processVoiceCommand] asks the coach. *)
Definition routes_to_ai (g : Globals) (command : string) : bool :=
  let cmd := toLowerCase command in
  ai_available g &&
  (includes cmd "coach" || includes cmd "hey" || (10 <? String.length command)%nat).

Definition processVoiceCommand (g : Globals) (command : string) (now : Z)
    : Globals * list Effect :=
  if (String.length (trim command) <? 3)%nat then (g, [])
  else if routes_to_ai g command then
    let elapsed := calculateTimeElapsed (startTime g) now in
    match coach_precheck g with
    | Some e => (g, command_resume g command (inl e) now)
    | None =>
        (g, [Ask (handleCommand_prompt command
                   (getStatsText (totalDistance g) elapsed (isRunning g)))
                 (KCommand command)])
    end
  else
    let '(g1, es, response) := handleBasicCommand g command now in
    (g1, (es ++ speak_nonempty response ++ stop_schedule command)%list).

(** [voiceRecognition.onresult] for the last result of the event. *)
Definition onresult (g : Globals) (transcript : string) (isFinal : bool) (now : Z)
    : Globals * list Effect :=
  if isFinal then
    let fullTranscript := trim (toLowerCase transcript) in
    if (2 <? String.length fullTranscript)%nat then processVoiceCommand g fullTranscript now
    else (g, [])
  else (g, []).

(** The voice button: [speechAvailable] is whether the browser has a
    speech-recognition constructor. *)
Definition startManualVoiceCommand (g : Globals) (speechAvailable : bool) : list Effect :=
  if negb (isRunning g) then [Speak "Start a run first to use voice commands."]
  else if negb speechAvailable then [Speak "Voice recognition not available."]
  else [Speak "Listening..."].

(** Its [onresult]: the transcript is lower-cased but not trimmed. *)
Definition manual_onresult (g : Globals) (transcript : string) (now : Z) : Globals * list Effect :=
  processVoiceCommand g (toLowerCase transcript) now.

Definition manual_onerror : list Effect := [Speak "Sorry, I didn't catch that."].

(** ** Intents *)

Inductive Intent := IDistance | IPace | ITime | IStop | IAIToggle | IFreeForm.

(** The keyword groups of the local classifier, in the spec's priority
    order (distance, pace, time, stop, toggle; spec section 4). *)
Definition keyword_groups : list (Intent * list string) :=
  [(IDistance, ["how far"; "distance"]); (IPace, ["pace"; "speed"]); (ITime, ["time"]);
   (IStop, ["stop"; "done"; "finish"]); (IAIToggle, ["activate ai"; "ai mode"])].

(** The intent of a lower-cased command: the first group one of whose
    keywords it contains; free-form when none. *)
Definition intent_of (cmd : string) : Intent :=
  match List.find (fun ik => existsb (includes cmd) ik.2) keyword_groups with
  | Some (i, _) => i
  | None => IFreeForm
  end.

(** ** Lemmas *)

Lemma stop_schedule_in (command : string) :
  stop_requested (toLowerCase command) = true ->
  In (SetTimeout 1000 TStopRun) (stop_schedule command).
Proof. unfold stop_schedule. intros ->. by left. Qed.

Lemma command_fallback_no_timer g command e now :
  ~ In (SetTimeout 1000 TStopRun) (command_resume g command (inl e) now).
Proof. simpl. intros [H | []]. discriminate. Qed.

(** ** Theorems *)

(** A command of fewer than 3 characters after trimming is
    dropped: no state change, nothing spoken, nothing scheduled. *)
Theorem processVoiceCommand_noise (g : Globals) (command : string) (now : Z) :
  (String.length (trim command) < 3)%nat ->
  processVoiceCommand g command now = (g, []).
Proof.
  intros H. unfold processVoiceCommand.
  by destruct (Nat.ltb_spec (String.length (trim command)) 3); [| lia].
Qed.

Lemma processVoiceCommand_noise_witness :
  processVoiceCommand (set_useAI false initialGlobals) " ok " 0 = (set_useAI false initialGlobals, []).
Proof. apply processVoiceCommand_noise. concrete. Defined.

(** C19: a command that contains "stop", "done" or "finish" schedules
    [stopRun] one second later on both routes: at once when answered
    locally, and after any successful answer of the coach. *)
Theorem processVoiceCommand_stop (g : Globals) (command : string) (now : Z) :
  (3 <= String.length (trim command))%nat ->
  stop_requested (toLowerCase command) = true ->
  (routes_to_ai g command = false ->
   In (SetTimeout 1000 TStopRun) (snd (processVoiceCommand g command now))) /\
  (forall response, In (SetTimeout 1000 TStopRun) (command_resume g command (inr response) now)).
Proof.
  intros Hl Hs. split.
  - intros Hr. unfold processVoiceCommand.
    destruct (Nat.ltb_spec (String.length (trim command)) 3); [lia |]. rewrite Hr.
    destruct (handleBasicCommand g command now) as [[g1 es] response]. simpl.
    apply in_or_app. right. apply in_or_app. right. by apply stop_schedule_in.
  - intros response. simpl. apply in_or_app. right. by apply stop_schedule_in.
Qed.

Lemma processVoiceCommand_stop_witness :
  In (SetTimeout 1000 TStopRun) (snd (processVoiceCommand (set_useAI false initialGlobals) "stop the run" 0)).
Proof.
  apply (processVoiceCommand_stop (set_useAI false initialGlobals) "stop the run" 0); concrete.
Defined.

(** For a command routed to the coach that asks to stop, [stopRun]
    is scheduled exactly when the coach answers: when the call fails, the
    fallback of the [catch] block schedules nothing; "hey coach, stop the
    run" with assistant mode online is such a command. *)
Theorem command_resume_stop_iff (g : Globals) (command : string) (r : AIError + string) (now : Z) :
  stop_requested (toLowerCase command) = true ->
  In (SetTimeout 1000 TStopRun) (command_resume g command r now) <->
  (exists response, r = inr response).
Proof.
  intros Hs. split.
  - destruct r as [e | response]; [| by eauto].
    intros H. by apply command_fallback_no_timer in H.
  - intros [response ->]. simpl. apply in_or_app. right. by apply stop_schedule_in.
Qed.

Lemma command_resume_stop_iff_witness :
  let g := set_aiCoach (Some (mkAICoach "AIzaSyExample123" true [])) initialGlobals in
  routes_to_ai g "hey coach, stop the run" = true /\
  ~ In (SetTimeout 1000 TStopRun) (command_resume g "hey coach, stop the run" (inl NetworkError) 0).
Proof.
  split; [reflexivity |].
  intros H.
  apply (command_resume_stop_iff (set_aiCoach (Some (mkAICoach "AIzaSyExample123" true [])) initialGlobals)
           "hey coach, stop the run" (inl NetworkError) 0) in H; [| reflexivity].
  destruct H as [response E]. discriminate.
Defined.

(** C21: a command answered locally that contains "stop", "done" or
    "finish" stops the run one second later whatever its intent: the
    handler answers the first keyword group the command contains, in the
    priority order distance, pace, time, stop, and the stop check that
    follows looks at the words again.  So "how far until I finish" is
    answered with the distance and ends the run; "Stopping your run now!"
    is said only when the stop group is the first match. *)
Theorem local_stop_any_intent (g : Globals) (command : string) (now : Z) :
  (3 <= String.length (trim command))%nat ->
  routes_to_ai g command = false ->
  stop_requested (toLowerCase command) = true ->
  exists response,
    processVoiceCommand g command now = (g, [Speak response; SetTimeout 1000 TStopRun]) /\
    (response = "Stopping your run now!" <-> intent_of (toLowerCase command) = IStop).
Proof.
  intros Hl Hr Hs. unfold processVoiceCommand, handleBasicCommand, stop_schedule.
  destruct (Nat.ltb_spec (String.length (trim command)) 3); [lia |]. rewrite Hr. cbv zeta.
  rewrite Hs. unfold intent_of, keyword_groups. simpl. rewrite !orb_false_r.
  unfold stop_requested in Hs. rewrite <- orb_assoc in Hs. rewrite Hs.
  destruct (includes _ "how far" || includes _ "distance"); [eexists; split; [reflexivity | simpl; split; discriminate] |].
  destruct (includes _ "pace" || includes _ "speed"); [eexists; split; [reflexivity | simpl; split; discriminate] |].
  destruct (includes _ "time"); [eexists; split; [reflexivity | simpl; split; discriminate] |].
  eexists. split; [reflexivity | done].
Qed.

Lemma local_stop_any_intent_witness :
  processVoiceCommand (set_useAI false initialGlobals) "how far until I finish" 0 =
    (set_useAI false initialGlobals, [Speak "You've run 0.00 kilometers!"; SetTimeout 1000 TStopRun]) /\
  intent_of "how far until i finish" = IDistance.
Proof.
  destruct (local_stop_any_intent (set_useAI false initialGlobals) "how far until I finish" 0)
    as (response & E & _); [concrete | concrete | concrete |].
  rewrite E. split; [| reflexivity]. vm_compute in E. by injection E as ->.
Defined.

(** C23: the fallback after a failed coach call is not the local
    classifier: every command that asks for the distance with the word
    "distance" (and none of "how far", "pace", "time") is answered by the
    local handler with the distance, but the [catch] block only echoes
    its first 30 characters. *)
Theorem command_fallback_differs (g : Globals) (command : string) (e : AIError) (now : Z) :
  includes (toLowerCase command) "distance" = true ->
  includes (toLowerCase command) "how far" = false ->
  includes (toLowerCase command) "pace" = false ->
  includes (toLowerCase command) "time" = false ->
  intent_of (toLowerCase command) = IDistance /\
  (handleBasicCommand g command now).2 = "You've run " ++ toFixed2 (totalDistance g) ++ " kilometers!" /\
  command_resume g command (inl e) now = [Speak ("I heard you say: " ++ String.substring 0 30 command)].
Proof.
  intros Hd Hf Hp Ht. unfold intent_of, handleBasicCommand, command_resume, command_fallback.
  simpl. by rewrite Hd, Hf, Hp, Ht.
Qed.

Lemma command_fallback_differs_witness :
  let g := set_totalDistance 2.5 initialGlobals in
  intent_of "hey coach what is my distance" = IDistance /\
  (handleBasicCommand g "hey coach what is my distance" 0).2 = "You've run 2.50 kilometers!" /\
  command_resume g "hey coach what is my distance" (inl NetworkError) 0 =
    [Speak "I heard you say: hey coach what is my distance"].
Proof.
  exact (command_fallback_differs (set_totalDistance 2.5 initialGlobals) "hey coach what is my distance"
           NetworkError 0 eq_refl eq_refl eq_refl eq_refl).
Defined.
