(* ===== verification/Session.v ===== *)
(** * Session: [startRun], [stopRun], [saveRunHistory] and the browser objects

    [World] adds to the globals what the browser holds for the page: the
    parsed localStorage ([Storage]), the active geolocation watches with the
    [lastUpdateTime] of each callback closure, the speech-recognition
    objects created (and whether each is started), whether the motion
    listener is registered, and the next identifier the browser hands out.

    [startRun] (app.js lines 212-271) awaits one position: [startRun_resume]
    is the code after that [await], given the position or the failure, and
    the browser facts it depends on ([StartEnv]).  It speaks the greeting,
    resets the run variables, calls [updateUI], [startGPSTracking] (a new
    watch), [startStepDetection], [startVoiceMonitoring] (a new recognition
    object, lines 487-561) and [updateTimer] (lines 973-977).  Nothing in
    [startRun] checks [isRunning].

    [stopRun] (lines 421-482) is split at its [await aiCoach.getRunSummary]:
    [stopRun_begin] returns at once when no run is active, clears the run
    flag, the watch and the recognition object, and either speaks the
    templated summary and saves the record, or asks the coach;
    [stopRun_finish] is the code after the [await].  [saveRunHistory]
    (lines 957-970) appends a record and keeps the last 50.  The wake-lock
    branches are modelled although [wakeLock] is never set by the code.

    [watch_callback] dispatches a fix to the callback of a registered watch
    ([Fusion.onPosition]); a cleared watch receives nothing. *)

From Stdlib Require Import String Ascii ZArith QArith Lqa Lia.
From stdpp Require Import base list gmap.
From S2P Require Import Prelude State Metrics Assistant Milestone Fusion.

Local Open Scope string_scope.

Record World := mkWorld {
  glob : Globals;
  store : Storage;
  watches : gmap nat Z;
  recognizers : gmap nat bool;
  motionListener : bool;
  next_id : nat
}.

Definition set_glob (g : Globals) (w : World) : World :=
  mkWorld g (store w) (watches w) (recognizers w) (motionListener w) (next_id w).

(** What the browser decides during [startRun]: the iOS motion permission
    (or its absence), whether speech recognition exists, and whether its
    [start()] succeeds. *)
Record StartEnv := mkStartEnv {
  motionGranted : bool;
  speechAvailable : bool;
  recognitionStarts : bool
}.

Definition greeting (g : Globals) : string :=
  if useAI g && bool_decide (is_Some (aiCoach g))
  then "Run started! Your AI coach is ready. Say anything to me!"
  else "Run started! Say 'how far', 'pace', 'time', or 'stop'.".

(** Lines 241-253. [estimatedDistanceFromSteps] is not reset. *)
Definition startRun_reset (g : Globals) (c : Coords) (now : Z) : Globals :=
  mkGlobals true (Some now) 0%Q
    [mkPosition (latitude c) (longitude c) now (coord_accuracy c)]
    (watchId g) 0%Z (estimatedDistanceFromSteps g) 0%Z (voiceRecognition g)
    (wakeLock g) (useAI g) (aiCoach g).

(** [watchId = navigator.geolocation.watchPosition(...)]; the closure
    starts with [lastUpdateTime = 0]. *)
Definition startGPSTracking (w : World) : World :=
  let id := next_id w in
  mkWorld (set_watchId (Some id) (glob w)) (store w) (<[id := 0%Z]> (watches w))
    (recognizers w) (motionListener w) (S id).

(** Adding the same listener twice registers it once. *)
Definition startStepDetection (w : World) (env : StartEnv) : World :=
  if motionGranted env then
    mkWorld (glob w) (store w) (watches w) (recognizers w) true (next_id w)
  else w.

Definition startVoiceMonitoring (w : World) (env : StartEnv) : World * list Effect :=
  if negb (speechAvailable env) then (w, [])
  else
    let id := next_id w in
    (mkWorld (set_voiceRecognition (Some id) (glob w)) (store w) (watches w)
       (<[id := recognitionStarts env]> (recognizers w)) (motionListener w) (S id),
     if recognitionStarts env then [] else [Speak "Voice recognition failed to start"]).

Definition updateTimer (w : World) (now : Z) : World * list Effect :=
  if negb (isRunning (glob w)) then (w, [])
  else
    let '(g', es) := updateUI (glob w) now in
    (set_glob g' w, (es ++ [SetTimeout 1000 TUpdateTimer])%list).

Definition startRun_resume (w : World) (pos : option Coords) (env : StartEnv) (now : Z)
    : World * list Effect :=
  match pos with
  | None => (w, [Speak "Could not start run. Please check location permissions."])
  | Some c =>
      let say := Speak (greeting (glob w)) in
      let '(g2, ui) := updateUI (startRun_reset (glob w) c now) now in
      let w1 := startStepDetection (startGPSTracking (set_glob g2 w)) env in
      let '(w2, ve) := startVoiceMonitoring w1 env in
      let '(w3, te) := updateTimer w2 now in
      (w3, (say :: ui ++ ve ++ te)%list)
  end.

Definition saveRunHistory (w : World) (now : Z) : World :=
  let g := glob w in
  let t := calculateTimeElapsed (startTime g) now in
  let run := mkRunRecord now (toFixed2_value (totalDistance g)) t
               (calculatePace (totalDistance g) t) in
  mkWorld g (mkStorage (slice_last 50 (runHistory (store w) ++ [run]))
                       (runflow_ai_mode (store w)))
    (watches w) (recognizers w) (motionListener w) (next_id w).

(** The code after [await aiCoach.getRunSummary(...)], with the [time]
    captured before the [await]. *)
Definition stopRun_finish (w : World) (time : Z) (r : AIError + string) (now : Z)
    : World * list Effect :=
  let msg :=
    match r with
    | inr summary => summary
    | inl _ => "Run done! You ran " ++ toFixed2 (totalDistance (glob w)) ++
               " kilometers in " ++ formatTime time ++ "."
    end in
  (saveRunHistory w now, [Speak msg]).

(** [stopVoiceMonitoring()] (lines 563-570): the held recognizer is
    stopped, so it delivers nothing more (an exception of [stop()] is
    caught), and forgotten. *)
Definition stopVoiceMonitoring (g : Globals) (rs : gmap nat bool) : Globals * gmap nat bool :=
  match voiceRecognition g with
  | Some r => (set_voiceRecognition None g, <[r := false]> rs)
  | None => (g, rs)
  end.

(** Steps 1-3 of [stopRun]: clear the flag, the watch, the recognition. *)
Definition stopRun_teardown (w : World) : World :=
  let g1 := set_run false (glob w) in
  let '(g2, ws) := match watchId g1 with
                   | Some id => (set_watchId None g1, delete id (watches w))
                   | None => (g1, watches w)
                   end in
  let '(g3, rs) := stopVoiceMonitoring g2 (recognizers w) in
  let g4 := if wakeLock g3 then set_wakeLock false g3 else g3 in
  mkWorld g4 (store w) ws rs (motionListener w) (next_id w).

Definition stopRun_begin (w : World) (now : Z) : World * list Effect :=
  if negb (isRunning (glob w)) then (w, [])
  else
    let w' := stopRun_teardown w in
    let g := glob w' in
    let time := calculateTimeElapsed (startTime g) now in
    let pace := calculatePace (totalDistance g) time in
    if ai_available g then
      match coach_precheck g with
      | Some e => stopRun_finish w' time (inl e) now
      | None => (w', [Ask (getRunSummary_prompt (totalDistance g) time pace) (KSummary time)])
      end
    else
      (saveRunHistory w' now,
       [Speak ("Run completed! " ++ toFixed2 (totalDistance g) ++ " km in " ++
               formatTime time ++ ". Pace: " ++ pace ++ "/km.")]).

Section WithDistance.

Variable calculateDistance : Q -> Q -> Q -> Q -> Q.

(** A fix delivered to the callback of watch [id]. *)
Definition watch_callback (w : World) (id : nat) (c : Coords) (now : Z) : World * list Effect :=
  match watches w !! id with
  | None => (w, [])
  | Some lu =>
      let '(lu', (g', es)) := onPosition calculateDistance lu (glob w) c now in
      (mkWorld g' (store w) (<[id := lu']> (watches w)) (recognizers w)
         (motionListener w) (next_id w), es)
  end.

End WithDistance.

(** The error callback of watch [id] (lines 343-349): a spoken notice
    while a run is active; the watch stays registered. *)
Definition watch_error (w : World) (id : nat) : list Effect :=
  match watches w !! id with
  | None => []
  | Some _ => if isRunning (glob w) then [Speak "GPS signal weak. Using step estimation."] else []
  end.

(** ** Lemmas *)

Lemma watch_error_idle w id : isRunning (glob w) = false -> watch_error w id = [].
Proof. intros R. unfold watch_error. rewrite R. by case_match. Qed.

Definition run_record (w : World) (now : Z) : RunRecord :=
  let g := glob w in
  let t := calculateTimeElapsed (startTime g) now in
  mkRunRecord now (toFixed2_value (totalDistance g)) t (calculatePace (totalDistance g) t).

Lemma saveRunHistory_history w now :
  runHistory (store (saveRunHistory w now)) = slice_last 50 (runHistory (store w) ++ [run_record w now])%list.
Proof. done. Qed.

Lemma saveRunHistory_glob w now : glob (saveRunHistory w now) = glob w.
Proof. done. Qed.

Lemma stopRun_teardown_store w : store (stopRun_teardown w) = store w.
Proof.
  unfold stopRun_teardown, stopVoiceMonitoring. by repeat case_match.
Qed.

Lemma stopRun_teardown_glob w :
  isRunning (glob (stopRun_teardown w)) = false /\
  startTime (glob (stopRun_teardown w)) = startTime (glob w) /\
  totalDistance (glob (stopRun_teardown w)) = totalDistance (glob w) /\
  ai_available (glob (stopRun_teardown w)) = ai_available (glob w) /\
  aiCoach (glob (stopRun_teardown w)) = aiCoach (glob w).
Proof.
  unfold stopRun_teardown, stopVoiceMonitoring. repeat case_match; simplify_eq/=; done.
Qed.

(** A stop of an active run either saves one record at once, or asks the
    coach and saves nothing yet. *)
Lemma stopRun_begin_cases w now :
  isRunning (glob w) = true ->
  (exists es, stopRun_begin w now = (saveRunHistory (stopRun_teardown w) now, es) /\
              Forall (fun e => match e with Ask _ _ => False | _ => True end) es) \/
  (exists p, stopRun_begin w now =
     (stopRun_teardown w, [Ask p (KSummary (calculateTimeElapsed (startTime (glob w)) now))])).
Proof.
  intros R. unfold stopRun_begin. rewrite R. simpl.
  destruct (stopRun_teardown_glob w) as (_ & Hs & _ & Ha & _).
  rewrite Hs.
  destruct (ai_available (glob (stopRun_teardown w))).
  - destruct (coach_precheck _).
    + left. eexists. split; [reflexivity | repeat constructor].
    + right. by eexists.
  - left. eexists. split; [reflexivity | repeat constructor].
Qed.

Lemma slice_last_snoc_full {A} (l : list A) (x : A) (n : nat) :
  (0 < n)%nat -> length l = n -> slice_last n (l ++ [x])%list = (tail l ++ [x])%list.
Proof.
  intros Hn H. unfold slice_last. rewrite length_app. simpl.
  destruct l as [| y l]; simpl in *; [lia |].
  subst n. replace (S (length l + 1) - S (length l))%nat with 1%nat by lia. done.
Qed.

Lemma settle_no_ask {B} (es : list Effect) (y : B) (f : Z -> B) :
  Forall (fun e => match e with Ask _ _ => False | _ => True end) es ->
  match es with [Ask _ (KSummary t)] => f t | _ => y end = y.
Proof.
  intros F. destruct es as [| e [| e' es]]; try done; destruct e as [| p k | |]; try done;
    try (destruct k; done).
  inversion F as [| ? ? HF]. simpl in HF. contradiction.
Qed.

(** What is left once a stop and everything it awaits have settled: the
    second [stopRun], then the coach's answer [r] at [now'] if one was
    asked. *)
Definition stop_settle (w : World) (now now' : Z) (r : AIError + string) : World :=
  let '(w1, es) := stopRun_begin w now in
  let '(w2, _) := stopRun_begin w1 now in
  match es with
  | [Ask _ (KSummary t)] => fst (stopRun_finish w2 t r now')
  | _ => w2
  end.

(** ** Theorems *)

Lemma stopRun_begin_idle (w : World) (now : Z) :
  isRunning (glob w) = false -> stopRun_begin w now = (w, []).
Proof. intros R. unfold stopRun_begin. by rewrite R. Qed.

(** [stopRun] when no run is active does nothing at all. *)
Theorem stopRun_idle (w : World) (now : Z) :
  isRunning (glob w) = false -> stopRun_begin w now = (w, []).
Proof. apply stopRun_begin_idle. Qed.

Lemma stopRun_idle_witness :
  stopRun_begin (mkWorld initialGlobals (mkStorage [] None) ∅ ∅ false 0) 5 =
  (mkWorld initialGlobals (mkStorage [] None) ∅ ∅ false 0, []).
Proof. apply stopRun_idle. reflexivity. Defined.

(** C13: stopping twice in succession saves exactly one record: the
    second [stopRun] finds the run inactive and does nothing, and the first
    saves one record, at once or when the coach's summary settles. *)
Theorem stop_twice_one_record (w : World) (now now' : Z) (r : AIError + string) :
  isRunning (glob w) = true ->
  stopRun_begin (fst (stopRun_begin w now)) now = (fst (stopRun_begin w now), []) /\
  exists run, runHistory (store (stop_settle w now now' r)) =
              slice_last 50 (runHistory (store w) ++ [run])%list.
Proof.
  intros R. destruct (stopRun_teardown_glob w) as (Hr & _).
  unfold stop_settle.
  destruct (stopRun_begin_cases w now R) as [(es & E & F) | (p & E)]; rewrite E; simpl.
  - rewrite stopRun_begin_idle by (by rewrite saveRunHistory_glob). split; [done |].
    rewrite (settle_no_ask es _ _ F).
    exists (run_record (stopRun_teardown w) now).
    by rewrite saveRunHistory_history, stopRun_teardown_store.
  - rewrite stopRun_begin_idle by done. split; [done |].
    exists (run_record (stopRun_teardown w) now').
    change (runHistory (store (saveRunHistory (stopRun_teardown w) now')) =
            slice_last 50 (runHistory (store w) ++ [run_record (stopRun_teardown w) now'])%list).
    by rewrite saveRunHistory_history, stopRun_teardown_store.
Qed.

Lemma stop_twice_one_record_witness :
  isRunning (glob (mkWorld (run0 1.5 0) (mkStorage [] None) ∅ ∅ false 0)) = true /\
  length (runHistory (store (stop_settle (mkWorld (run0 1.5 0) (mkStorage [] None) ∅ ∅ false 0)
                                         600000 600000 (inr "Great run!")))) = 1%nat.
Proof.
  split; [reflexivity |].
  destruct (stop_twice_one_record (mkWorld (run0 1.5 0) (mkStorage [] None) ∅ ∅ false 0)
              600000 600000 (inr "Great run!")) as [_ [run ->]]; [reflexivity |].
  reflexivity.
Defined.

Lemma history_full_case (h : list RunRecord) (run : RunRecord) :
  length h = 50%nat -> slice_last 50 (h ++ [run])%list = (tail h ++ [run])%list.
Proof. intros H. apply slice_last_snoc_full; lia. Qed.

(** C14: the run history never holds more than 50 records; a new
    record always comes last, and when 50 are already stored the oldest is
    evicted. *)
Theorem saveRunHistory_capacity (w : World) (now : Z) :
  (length (runHistory (store w)) <= 50)%nat ->
  let h' := runHistory (store (saveRunHistory w now)) in
  (length h' <= 50)%nat /\ last h' = Some (run_record w now) /\
  (length (runHistory (store w)) = 50%nat -> h' = (tail (runHistory (store w)) ++ [run_record w now])%list) /\
  ((length (runHistory (store w)) < 50)%nat -> h' = (runHistory (store w) ++ [run_record w now])%list).
Proof.
  intros H h'. unfold h'. rewrite saveRunHistory_history.
  assert (Hs : (length (runHistory (store w)) < 50)%nat ->
               slice_last 50 (runHistory (store w) ++ [run_record w now])%list =
               (runHistory (store w) ++ [run_record w now])%list).
  { intros Hl. apply slice_last_short. rewrite length_app. simpl. lia. }
  split; [rewrite length_slice_last; lia |].
  split; [| split; [apply history_full_case | exact Hs]].
  destruct (Nat.lt_ge_cases (length (runHistory (store w))) 50) as [Hl | Hl].
  - rewrite (Hs Hl). apply last_snoc.
  - rewrite history_full_case by lia. apply last_snoc.
Qed.

(** Fifty records of the same run, for the witness. *)
Definition fifty (r : RunRecord) : list RunRecord := repeat r 50.

Lemma saveRunHistory_capacity_witness :
  let w := mkWorld (run0 1.5 0) (mkStorage (fifty (mkRunRecord 0 1 1 "1:00")) None) ∅ ∅ false 0 in
  (length (runHistory (store w)) <= 50)%nat /\
  length (runHistory (store (saveRunHistory w 600000))) = 50%nat.
Proof.
  split; [simpl; lia |].
  destruct (saveRunHistory_capacity
              (mkWorld (run0 1.5 0) (mkStorage (fifty (mkRunRecord 0 1 1 "1:00")) None) ∅ ∅ false 0)
              600000) as (_ & _ & Hfull & _); [simpl; lia |].
  rewrite Hfull by reflexivity. reflexivity.
Defined.

Lemma checkAudioCues_reset (g : Globals) (c : Coords) (now now' : Z) :
  checkAudioCues (startRun_reset g c now) now' = (startRun_reset g c now, []).
Proof. apply checkAudioCues_noop. right. reflexivity. Qed.

(** C15: a successful [startRun] resets the run: the flag is set, the
    start time is the time of the fix, distance, steps and milestone are
    zero, the window holds the first fix only, and a new watch, with a
    fresh closure ([lastUpdateTime] 0), is registered under [watchId];
    when no position is obtained, nothing changes but the spoken error. *)
Theorem startRun_resume_spec (w : World) (pos : option Coords) (env : StartEnv) (now : Z) :
  match pos with
  | Some c =>
      let w' := fst (startRun_resume w (Some c) env now) in
      isRunning (glob w') = true /\ startTime (glob w') = Some now /\
      totalDistance (glob w') = 0%Q /\ stepCount (glob w') = 0%Z /\
      lastAnnouncedKm (glob w') = 0%Z /\
      positions (glob w') = [mkPosition (latitude c) (longitude c) now (coord_accuracy c)] /\
      watchId (glob w') = Some (next_id w) /\ watches w' !! next_id w = Some 0%Z
  | None =>
      startRun_resume w None env now =
        (w, [Speak "Could not start run. Please check location permissions."])
  end.
Proof.
  destruct pos as [c |]; [| done]. unfold startRun_resume, updateUI.
  rewrite checkAudioCues_reset.
  destruct env as [[] [] []]; unfold startVoiceMonitoring, startStepDetection, updateTimer;
    simpl; rewrite ?checkAudioCues_reset; simpl;
    repeat split; rewrite ?lookup_insert_eq; done.
Qed.

(** C18: when the coach writes the summary, the record saved for the
    run is timed when the coach's answer arrives, not when the run was
    stopped: its time is [now' - start] while the summary was asked for
    [now - start], so the coach's latency is counted as running time. *)
Theorem stopRun_record_time_after_await (w : World) (s now now' : Z) (r : AIError + string) :
  isRunning (glob w) = true -> startTime (glob w) = Some s ->
  ai_available (glob w) = true -> coach_precheck (glob w) = None ->
  exists p,
    stopRun_begin w now = (stopRun_teardown w, [Ask p (KSummary (now - s))]) /\
    last (runHistory (store (fst (stopRun_finish (stopRun_teardown w) (now - s) r now')))) =
      Some (run_record (stopRun_teardown w) now') /\
    run_time (run_record (stopRun_teardown w) now') = (now' - s)%Z.
Proof.
  intros R S A P. destruct (stopRun_teardown_glob w) as (_ & Hs & _ & Ha & Hc).
  eexists. split; [| split].
  - unfold stopRun_begin. rewrite R. cbn [negb]. rewrite Ha, A, Hs, S.
    unfold coach_precheck in P |- *. rewrite Hc, P. reflexivity.
  - unfold stopRun_finish. cbn [fst]. rewrite saveRunHistory_history.
    apply last_slice_last_snoc. lia.
  - unfold run_record. simpl. by rewrite Hs, S.
Qed.

(** A run with assistant mode on and online. *)
Definition coach_run : Globals :=
  mkGlobals true (Some 0%Z) 1.5 [mkPosition 0 0 0 5] None 0 0 1 None false true
    (Some (mkAICoach "AIzaSyExample123" true [])).

Lemma stopRun_record_time_after_await_witness :
  exists p,
    stopRun_begin (mkWorld coach_run (mkStorage [] None) ∅ ∅ false 0) 600000 =
      (stopRun_teardown (mkWorld coach_run (mkStorage [] None) ∅ ∅ false 0),
       [Ask p (KSummary 600000)]) /\
    run_time (run_record (stopRun_teardown (mkWorld coach_run (mkStorage [] None) ∅ ∅ false 0))
                         605000) = 605000%Z.
Proof.
  destruct (stopRun_record_time_after_await (mkWorld coach_run (mkStorage [] None) ∅ ∅ false 0)
              0 600000 605000 (inr "Well done!")) as (p & E & _ & T); try reflexivity.
  exists p. split; [exact E | exact T].
Defined.

(** C17: [startRun] does not check [isRunning]: when two starts are
    pending (a second tap while the first fix is awaited), two watches are
    registered and [watchId] keeps only the second; [stopRun] clears that
    one, and the first keeps delivering fixes that add distance to the
    stopped run. *)
Theorem double_start_orphan_watch (calculateDistance : Q -> Q -> Q -> Q -> Q) :
  let env := mkStartEnv false false false in
  let w0 := mkWorld (set_useAI false initialGlobals) (mkStorage [] None) ∅ ∅ false 0 in
  let w1 := fst (startRun_resume w0 (Some (mkCoords 0 0 5)) env 1000) in
  let w2 := fst (startRun_resume w1 (Some (mkCoords 0 0 5)) env 1000) in
  let w3 := fst (stopRun_begin w2 60000) in
  let w4 := fst (watch_callback calculateDistance w3 0 (mkCoords 0.01 0 5) 61000) in
  (MIN_DISTANCE < calculateDistance 0 0 0.01 0 < MAX_JUMP)%Q ->
  isRunning (glob w3) = false /\ watches w3 !! 0%nat = Some 0%Z /\
  totalDistance (glob w3) = 0%Q /\
  (totalDistance (glob w4) == calculateDistance 0 0 0.01 0)%Q.
Proof.
  intros env w0 w1 w2 w3 w4 [H1 H2].
  split; [reflexivity |]. split; [reflexivity |]. split; [reflexivity |].
  assert (E3 : watches w3 !! 0%nat = Some 0%Z) by reflexivity.
  assert (L3 : last (positions (glob w3)) = Some (mkPosition 0 0 1000 5)) by reflexivity.
  subst w4. unfold watch_callback. rewrite E3.
  destruct (onPosition_accept_step calculateDistance 0 (glob w3) (mkCoords 0.01 0 5) 61000
             (mkPosition 0 0 1000 5)) as (_ & Ht & _ & E); [concrete | concrete | exact L3 | |].
  - apply fix_accepted_speed; [concrete |]. unfold fix_distance. simpl.
    split; [exact H1 |]. split; [| exact H2].
    apply Qlt_shift_div_r; [reflexivity |]. unfold MAX_JUMP, MAX_SPEED_KPH in *.
    assert (Hc : 25 * (inject_Z (61000 - 1000) / 3600000) == 5 # 12) by reflexivity.
    rewrite Hc. lra.
  - rewrite E. simpl. unfold fix_distance, newPos_of. simpl. lra.
Qed.

Lemma double_start_orphan_watch_witness :
  let w := fst (stopRun_begin
                 (fst (startRun_resume
                   (fst (startRun_resume
                     (mkWorld (set_useAI false initialGlobals) (mkStorage [] None) ∅ ∅ false 0)
                     (Some (mkCoords 0 0 5)) (mkStartEnv false false false) 1000))
                   (Some (mkCoords 0 0 5)) (mkStartEnv false false false) 1000)) 60000) in
  isRunning (glob w) = false /\
  (totalDistance (glob (fst (watch_callback planar w 0 (mkCoords 0.01 0 5) 61000))) == 0.01)%Q.
Proof.
  destruct (double_start_orphan_watch planar) as (R & _ & _ & D); [concrete |].
  split; [exact R | exact D].
Defined.
