(* ===== verification/Recognition.v ===== *)
(** * Recognition: the restart loop of the continuous speech recognition

    [startVoiceMonitoring] (app.js lines 487-561, modelled in [Session])
    installs three callbacks on the recognition object.  [onresult] is
    [Voice.onresult].  [onerror] (lines 525-538) speaks a diagnostic and,
    when a run is active and [voiceRecognition] is set, schedules a restart
    after 2 s; [onend] (lines 540-552) schedules a restart after 0.5 s under
    the same test.  Both closures read the module-level variables when they
    run, not the recognizer they were installed on.  The restart callback
    calls [voiceRecognition.start()] inside [try]/[catch]: it throws, and
    the exception is swallowed, when [voiceRecognition] is [null] (a
    [TypeError]), when that recognizer is already started, or when the
    browser refuses ([starts = false]).

    In [World], [recognizers !! r = Some true] says that recognizer [r] is
    started (listening); the browser ends a started recognizer by setting
    its entry to [false] and then running its [onend]. *)

From Stdlib Require Import String ZArith.
From stdpp Require Import base list gmap.
From S2P Require Import Prelude State Session.

Local Open Scope string_scope.

Definition set_recognizers (rs : gmap nat bool) (w : World) : World :=
  mkWorld (glob w) (store w) (watches w) rs (motionListener w) (next_id w).

(** [if (isRunning && voiceRecognition)], read when the callback runs. *)
Definition restart_wanted (g : Globals) : bool :=
  isRunning g && bool_decide (is_Some (voiceRecognition g)).

(** [voiceRecognition.onerror]. *)
Definition rec_onerror (g : Globals) (err : string) : list Effect :=
  Speak ("Voice error: " ++ err) ::
  (if restart_wanted g then [SetTimeout 2000 TRestartRecognition] else []).

(** [voiceRecognition.onend]. *)
Definition rec_onend (g : Globals) : list Effect :=
  if restart_wanted g then [SetTimeout 500 TRestartRecognition] else [].

(** The recognizer [r] ends (silence, provider timeout, or after an
    error): the browser marks it stopped, then its [onend] runs. *)
Definition rec_end (w : World) (r : nat) : World * list Effect :=
  (set_recognizers (<[r := false]> (recognizers w)) w, rec_onend (glob w)).

(** The restart callback: [try { voiceRecognition.start(); } catch (e) {}]. *)
Definition restart_fire (w : World) (starts : bool) : World :=
  match voiceRecognition (glob w) with
  | None => w
  | Some r =>
      match recognizers w !! r with
      | Some true => w
      | _ => if starts then set_recognizers (<[r := true]> (recognizers w)) w else w
      end
  end.

(** Whether the recognizer the page holds is listening. *)
Definition listening (w : World) : bool :=
  match voiceRecognition (glob w) with
  | Some r => bool_decide (recognizers w !! r = Some true)
  | None => false
  end.

(** ** Lemmas *)

Lemma rec_onend_restart g :
  restart_wanted g = true -> rec_onend g = [SetTimeout 500 TRestartRecognition].
Proof. unfold rec_onend. by intros ->. Qed.

Lemma rec_onend_idle g :
  isRunning g = false -> rec_onend g = [].
Proof. unfold rec_onend, restart_wanted. by intros ->. Qed.

Lemma rec_onerror_idle g err :
  isRunning g = false -> rec_onerror g err = [Speak ("Voice error: " ++ err)].
Proof. unfold rec_onerror, restart_wanted. by intros ->. Qed.

(** A successful restart leaves the held recognizer listening. *)
Lemma restart_fire_listening w r :
  voiceRecognition (glob w) = Some r ->
  recognizers (restart_fire w true) !! r = Some true.
Proof.
  intros Hr. unfold restart_fire. rewrite Hr.
  destruct (recognizers w !! r) as [[] |] eqn:E; simpl; by rewrite ?lookup_insert_eq.
Qed.

(** With no recognizer held, the restart does nothing. *)
Lemma restart_fire_none w starts :
  voiceRecognition (glob w) = None -> restart_fire w starts = w.
Proof. unfold restart_fire. by intros ->. Qed.

(** A restart never stops a recognizer. *)
Lemma restart_fire_started w starts r :
  recognizers w !! r = Some true -> recognizers (restart_fire w starts) !! r = Some true.
Proof.
  intros H. unfold restart_fire.
  destruct (voiceRecognition (glob w)) as [r' |]; [| done].
  destruct (recognizers w !! r') as [[] |] eqn:E; try done; destruct starts; try done;
    simpl; rewrite lookup_insert; case_decide; subst; congruence.
Qed.

Lemma restart_fire_glob w starts : glob (restart_fire w starts) = glob w.
Proof. unfold restart_fire. by repeat case_match. Qed.

Lemma restart_fire_store w starts : store (restart_fire w starts) = store w.
Proof. unfold restart_fire. by repeat case_match. Qed.
