(* ===== verification/Speech.v ===== *)
(** * Speech: [speak] (app.js lines 929-954) and the speech synthesizer

    Every spoken text of the page goes through [speak].  Without
    [window.speechSynthesis] it only logs.  Otherwise it cancels whatever
    the synthesizer is saying or has queued ([speechSynthesis.cancel()]),
    builds an utterance at rate 0.9 with the preferred voice of
    [getVoices()] (the first English female voice, else the first English
    voice, else the first voice) and queues it.  [Synth] is the
    synthesizer: its voices and its queue, the utterance being spoken
    first.

    Handlers emit their texts as [Speak] effects, in order, and the browser
    runs them one after the other in the same task; [speak_all] is that
    sequence.  Since each call cancels the previous one, only the last text
    of a handler is heard: [speak_all_last]. *)

From Stdlib Require Import String List QArith Lia.
From stdpp Require Import base list gmap.
From S2P Require Import Prelude State Metrics Assistant Milestone Fusion Session.

Local Open Scope string_scope.

Record SynthVoice := mkSynthVoice {
  voice_name : string;
  voice_lang : string
}.

Record Utterance := mkUtterance {
  utt_text : string;
  utt_rate : Q;
  utt_pitch : Q;
  utt_volume : Q;
  utt_voice : option SynthVoice   (** [utterance.voice], unset when no voice is listed *)
}.

Record Synth := mkSynth {
  voices : list SynthVoice;     (** [speechSynthesis.getVoices()] *)
  queue : list Utterance
}.

(** The voice of lines 944-951: [find] for an English female voice, [||]
    [find] for an English voice, [||] [voices[0]]; nothing when the list
    is empty (line 945). *)
Definition choose_voice (vs : list SynthVoice) : option SynthVoice :=
  match vs with
  | [] => None
  | v0 :: _ =>
      match List.find (fun v => includes (voice_lang v) "en" && includes (voice_name v) "Female") vs with
      | Some v => Some v
      | None =>
          match List.find (fun v => includes (voice_lang v) "en") vs with
          | Some v => Some v
          | None => Some v0
          end
      end
  end.

(** Lines 938-951: the utterance and its settings. *)
Definition new_utterance (text : string) (vs : list SynthVoice) : Utterance :=
  mkUtterance text (9 # 10) 1 1 (choose_voice vs).

(** [speak(text)]; [None] is a browser without [speechSynthesis]. *)
Definition speak (sy : option Synth) (text : string) : option Synth :=
  match sy with
  | None => None
  | Some s => Some (mkSynth (voices s) [new_utterance text (voices s)])
  end.

(** The texts of one handler, spoken in order. *)
Definition speak_all (sy : option Synth) (texts : list string) : option Synth :=
  fold_left speak texts sy.

(** ** The preferred voice, as a specification *)

(** How well a voice fits: 0 for English female, 1 for English, 2 else. *)
Definition voice_rank (v : SynthVoice) : nat :=
  if includes (voice_lang v) "en" && includes (voice_name v) "Female" then 0
  else if includes (voice_lang v) "en" then 1 else 2.

Definition min_rank (vs : list SynthVoice) : nat :=
  fold_right (fun v m => Nat.min (voice_rank v) m) 2 vs.

(** The reference: the first voice of the best rank present. *)
Definition best_voice (vs : list SynthVoice) : option SynthVoice :=
  List.find (fun v => Nat.eqb (voice_rank v) (min_rank vs)) vs.

(** ** Lemmas *)

Lemma find_ext_in {A} (f g : A -> bool) (l : list A) :
  (forall x, In x l -> f x = g x) -> List.find f l = List.find g l.
Proof.
  induction l as [| x l IH]; simpl; intros H; [done |].
  rewrite (H x (or_introl eq_refl)). destruct (g x); [done |]. apply IH. auto.
Qed.

Lemma min_rank_le vs v : In v vs -> min_rank vs <= voice_rank v.
Proof. induction vs as [| w vs IH]; simpl; [done |]. intros [-> | H]; [lia |]. specialize (IH H). lia. Qed.

Lemma min_rank_ge vs k : k <= 2 -> (forall v, In v vs -> k <= voice_rank v) -> k <= min_rank vs.
Proof.
  induction vs as [| w vs IH]; simpl; intros Hk H; [done |].
  assert (k <= min_rank vs) by (apply IH; auto). specialize (H w (or_introl eq_refl)). lia.
Qed.

(** The two tests of [choose_voice] in terms of the rank. *)
Lemma voice_rank_0 v :
  includes (voice_lang v) "en" && includes (voice_name v) "Female" = Nat.eqb (voice_rank v) 0.
Proof. unfold voice_rank. by repeat case_match. Qed.

Lemma voice_rank_1 v :
  includes (voice_lang v) "en" && includes (voice_name v) "Female" = false ->
  includes (voice_lang v) "en" = Nat.eqb (voice_rank v) 1.
Proof. unfold voice_rank. intros ->. by case_match. Qed.

Lemma speak_all_None texts : speak_all None texts = None.
Proof. unfold speak_all. by induction texts. Qed.

Lemma voice_rank_le v : voice_rank v <= 2.
Proof. unfold voice_rank. repeat case_match; lia. Qed.

(** With no English voice listed, every voice has rank 2. *)
Lemma voice_rank_2 v :
  includes (voice_lang v) "en" && includes (voice_name v) "Female" = false ->
  includes (voice_lang v) "en" = false -> voice_rank v = 2.
Proof. unfold voice_rank. by intros -> ->. Qed.

(** ** Theorems *)

(** C4: [speak]'s choice of voice, a chain of [find]s joined by [||],
    equals the reference [best_voice]: the first listed voice of the best
    rank present (English female, then English, then any); no voice when
    [getVoices()] is empty. *)
Theorem choose_voice_best vs : choose_voice vs = best_voice vs.
Proof.
  unfold choose_voice, best_voice. destruct vs as [| v0 vs0] eqn:E; [done |]. rewrite <- E.
  destruct (List.find (fun v => _ && _) vs) as [v |] eqn:F0.
  - destruct (List.find_some _ _ F0) as [Hin Hv]. rewrite voice_rank_0, Nat.eqb_eq in Hv.
    assert (M : min_rank vs = 0) by (pose proof (min_rank_le vs v Hin); lia).
    rewrite M, <- F0. symmetry. apply find_ext_in. intros x _. by rewrite voice_rank_0.
  - pose proof (List.find_none _ _ F0) as N0.
    destruct (List.find (fun v => includes (voice_lang v) "en") vs) as [v |] eqn:F1.
    + destruct (List.find_some _ _ F1) as [Hin Hv]. rewrite (voice_rank_1 v (N0 v Hin)), Nat.eqb_eq in Hv.
      assert (M : min_rank vs = 1).
      { pose proof (min_rank_le vs v Hin). enough (1 <= min_rank vs) by lia.
        apply min_rank_ge; [lia |]. intros x Hx. specialize (N0 x Hx). cbv beta in N0.
        rewrite voice_rank_0, Nat.eqb_neq in N0. lia. }
      rewrite M, <- F1. symmetry. apply find_ext_in. intros x Hx. by rewrite (voice_rank_1 x (N0 x Hx)).
    + pose proof (List.find_none _ _ F1) as N1.
      assert (Hin : In v0 vs) by (subst; left; done).
      assert (M : min_rank vs = 2).
      { pose proof (min_rank_le vs v0 Hin). pose proof (voice_rank_le v0).
        enough (2 <= min_rank vs) by lia. apply min_rank_ge; [lia |].
        intros x Hx. by rewrite (voice_rank_2 x (N0 x Hx) (N1 x Hx)). }
      rewrite M. subst vs. simpl. by rewrite (voice_rank_2 v0 (N0 v0 Hin) (N1 v0 Hin)).
Qed.

Lemma speak_all_voices s texts :
  exists s', speak_all (Some s) texts = Some s' /\ voices s' = voices s.
Proof.
  unfold speak_all. revert s. induction texts as [| t texts IH]; intros s; [by exists s |].
  simpl. destruct (IH (mkSynth (voices s) [new_utterance t (voices s)])) as (s' & -> & E).
  by exists s'.
Qed.

(** Each [speak] cancels the one before: of a sequence of texts spoken in
    one task, only the last remains, with the preferred voice. *)
Lemma speak_all_last s texts t :
  speak_all (Some s) (texts ++ [t]) = Some (mkSynth (voices s) [new_utterance t (voices s)]).
Proof.
  destruct (speak_all_voices s texts) as (s' & E & V).
  unfold speak_all in *. rewrite fold_left_app, E. simpl. by rewrite V.
Qed.

Lemma startRun_spoken_fail w c env now :
  speechAvailable env = true -> recognitionStarts env = false ->
  spoken (snd (startRun_resume w (Some c) env now)) = [greeting (glob w); "Voice recognition failed to start"].
Proof.
  intros Sp St. unfold startRun_resume, updateUI.
  rewrite checkAudioCues_noop by (right; by vm_compute).
  unfold startVoiceMonitoring, updateTimer, updateUI, startStepDetection. rewrite Sp, St.
  by destruct (motionGranted env).
Qed.

(** C8: when speech recognition exists but its [start()] throws, a
    successful [startRun] speaks the greeting and then the failure notice
    in the same task, and since [speak] cancels what is playing, the
    synthesizer is left with the failure notice alone: the greeting is
    never heard. *)
Theorem startRun_greeting_cancelled w c env now s :
  speechAvailable env = true -> recognitionStarts env = false ->
  spoken (snd (startRun_resume w (Some c) env now)) =
    [greeting (glob w); "Voice recognition failed to start"] /\
  speak_all (Some s) (spoken (snd (startRun_resume w (Some c) env now))) =
    Some (mkSynth (voices s) [new_utterance "Voice recognition failed to start" (voices s)]).
Proof.
  intros Sp St. rewrite (startRun_spoken_fail w c env now Sp St). split; [done |].
  apply (speak_all_last s [greeting (glob w)]).
Qed.

(** ** Witnesses *)

Definition demo_voices : list SynthVoice :=
  [mkSynthVoice "Daniel" "en-GB"; mkSynthVoice "Amelie" "fr-FR"; mkSynthVoice "Samantha Female" "en-US"].

Definition demo_world : World := mkWorld initialGlobals (mkStorage [] None) ∅ ∅ false 0.

Lemma startRun_greeting_cancelled_witness :
  let env := mkStartEnv true true false in
  spoken (snd (startRun_resume demo_world (Some (mkCoords 0 0 5)) env 1000)) =
    [greeting (glob demo_world); "Voice recognition failed to start"] /\
  speak_all (Some (mkSynth demo_voices [])) (spoken (snd (startRun_resume demo_world (Some (mkCoords 0 0 5)) env 1000))) =
    Some (mkSynth demo_voices [new_utterance "Voice recognition failed to start" demo_voices]).
Proof. apply (startRun_greeting_cancelled _ _ _ _ (mkSynth demo_voices [])); reflexivity. Defined.
