(* ===== verification/Display.v ===== *)
(** * Display: the figures [updateUI] writes to the page

    [updateUI] (app.js lines 846-873) writes the run's figures into five
    page elements: the distance with two decimals always, and once a run
    has a start time the clock ([formatTime]); the pace, the speed with one
    decimal and the calories only beyond 0.01 km (line 856).  Below that
    distance it leaves the three elements as they were.  [Display] is
    their text together with the [disabled] flags of the start and stop
    buttons, which [startRun] (lines 257-258) and the end of [stopRun]
    (lines 475-476) set.

    [updateUI_display] is the page half of [updateUI]; the state half,
    the milestone check, is [Milestone.updateUI].  [startRun_display]
    follows [Session.startRun_resume] step by step and applies the page
    writes of its two [updateUI] calls (line 255 and the one of
    [updateTimer], line 264) and of the buttons.

    Theorems: [updateUI] overwrites the whole display exactly when a run
    has started and the distance exceeds 0.01 km; hence a new run shows
    the previous run's pace, speed and calories next to 0.00 km and 00:00
    until it has covered 10 m, where the spec reports a pace of 0:00. *)

From Stdlib Require Import String ZArith QArith Qround Lqa Lia.
From stdpp Require Import base list.
From S2P Require Import Prelude State Metrics Assistant Milestone Fusion Session.

Local Open Scope string_scope.

Record Display := mkDisplay {
  distance_text : string;   (** [distanceEl.textContent] *)
  time_text : string;       (** [timeEl.textContent] *)
  pace_text : string;       (** [paceEl.textContent] *)
  speed_text : string;      (** [speedEl.textContent] *)
  calories_text : string;   (** [caloriesEl.textContent] *)
  start_disabled : bool;    (** [startBtn.disabled] *)
  stop_disabled : bool      (** [stopBtn.disabled] *)
}.

(** The five texts, the buttons kept. *)
Definition set_texts (d : Display) (dist time pace speed cal : string) : Display :=
  mkDisplay dist time pace speed cal (start_disabled d) (stop_disabled d).

(** The five texts, in the order of the page. *)
Definition texts (d : Display) : list string :=
  [distance_text d; time_text d; pace_text d; speed_text d; calories_text d].

(** The page writes of [updateUI()] on the globals [g] at time [now]:
    [if (startTime)], then [if (totalDistance > 0.01)]; the speed is
    [speed.toFixed(1)] and the calories, a number, print as [String]. *)
Definition updateUI_display (d : Display) (g : Globals) (now : Z) : Display :=
  let dist := toFixed2 (totalDistance g) in
  match startTime g with
  | None => set_texts d dist (time_text d) (pace_text d) (speed_text d) (calories_text d)
  | Some _ =>
      let time := calculateTimeElapsed (startTime g) now in
      if (1 # 100 <? totalDistance g)%rf then
        set_texts d dist (formatTime time) (calculatePace (totalDistance g) time)
          (toFixed1 (speedKph (totalDistance g) time)) (Z_to_string (calories (totalDistance g)))
      else set_texts d dist (formatTime time) (pace_text d) (speed_text d) (calories_text d)
  end.

(** [updateTimer()]'s page writes: [updateUI()] while running. *)
Definition updateTimer_display (d : Display) (w : World) (now : Z) : Display :=
  if negb (isRunning (glob w)) then d else updateUI_display d (glob w) now.

(** [startBtn.disabled = true; stopBtn.disabled = false;] *)
Definition startRun_buttons (d : Display) : Display :=
  mkDisplay (distance_text d) (time_text d) (pace_text d) (speed_text d) (calories_text d) true false.

(** [startBtn.disabled = false; stopBtn.disabled = true;] *)
Definition stopRun_buttons (d : Display) : Display :=
  mkDisplay (distance_text d) (time_text d) (pace_text d) (speed_text d) (calories_text d) false true.

(** The page writes of [startRun] after its [await], in the order of
    [startRun_resume]: [updateUI()] on the reset globals, the buttons, the
    trackers, then [updateTimer()] on the world they leave. *)
Definition startRun_display (d : Display) (w : World) (pos : option Coords) (env : StartEnv) (now : Z)
    : Display :=
  match pos with
  | None => d
  | Some c =>
      let g1 := startRun_reset (glob w) c now in
      let '(g2, _) := updateUI g1 now in
      let d1 := startRun_buttons (updateUI_display d g1 now) in
      let w1 := startStepDetection (startGPSTracking (set_glob g2 w)) env in
      let '(w2, _) := startVoiceMonitoring w1 env in
      updateTimer_display d1 w2 now
  end.

(** ** Lemmas *)

(** Below 0.01 km the pace, speed and calories are left as they were. *)
Lemma updateUI_display_short d g now :
  (totalDistance g <= 1 # 100)%Q ->
  pace_text (updateUI_display d g now) = pace_text d /\
  speed_text (updateUI_display d g now) = speed_text d /\
  calories_text (updateUI_display d g now) = calories_text d.
Proof. intros H. unfold updateUI_display. case_match; [qcase; [lra | done] | done]. Qed.

(** The distance is always written, the buttons never. *)
Lemma updateUI_display_distance d g now :
  distance_text (updateUI_display d g now) = toFixed2 (totalDistance g) /\
  start_disabled (updateUI_display d g now) = start_disabled d /\
  stop_disabled (updateUI_display d g now) = stop_disabled d.
Proof. unfold updateUI_display. repeat case_match; done. Qed.

(** The trackers and the voice pipeline leave the globals' distance and
    start time as [updateUI] left them. *)
Lemma startRun_trackers_glob g2 w env :
  let w1 := startStepDetection (startGPSTracking (set_glob g2 w)) env in
  isRunning (glob (startVoiceMonitoring w1 env).1) = isRunning g2 /\
  totalDistance (glob (startVoiceMonitoring w1 env).1) = totalDistance g2 /\
  startTime (glob (startVoiceMonitoring w1 env).1) = startTime g2.
Proof.
  unfold startVoiceMonitoring, startStepDetection, startGPSTracking.
  repeat case_match; simplify_eq/=; done.
Qed.

(** At the start of a run, distance 0 and no time elapsed. *)
Lemma updateUI_display_start d g now :
  totalDistance g = 0%Q -> startTime g = Some now ->
  updateUI_display d g now = set_texts d "0.00" "00:00" (pace_text d) (speed_text d) (calories_text d).
Proof.
  intros D T. unfold updateUI_display. rewrite D, T. simpl. rewrite Z.sub_diag. reflexivity.
Qed.

(** ** Theorems *)

(** C30: [updateUI] overwrites every text of the display, so that the
    texts it shows no longer depend on what was shown before, exactly when the
    run has a start time and its distance exceeds 0.01 km. *)
Theorem updateUI_display_fresh g now :
  (forall d d', texts (updateUI_display d g now) = texts (updateUI_display d' g now)) <->
  (is_Some (startTime g) /\ (1 # 100 < totalDistance g)%Q).
Proof.
  unfold updateUI_display. split.
  - intros H. specialize (H (mkDisplay "a" "a" "a" "a" "a" false false)
                           (mkDisplay "b" "b" "b" "b" "b" false false)).
    destruct (startTime g); [| done]. qcase; [by split | done].
  - intros [[t ->] Hd] d d'. qcase; [done | lra].
Qed.

(** C22: a successful [startRun] shows 0.00 km and 00:00, disables the start
    button and enables the stop button, but leaves the pace, speed and
    calories of the previous run on the page: both of its [updateUI]
    calls see a distance of 0, below the 0.01 km [updateUI] requires. *)
Theorem startRun_display_stale d w c env now :
  let d' := startRun_display d w (Some c) env now in
  distance_text d' = "0.00" /\ time_text d' = "00:00" /\
  pace_text d' = pace_text d /\ speed_text d' = speed_text d /\ calories_text d' = calories_text d /\
  start_disabled d' = true /\ stop_disabled d' = false.
Proof.
  unfold startRun_display.
  destruct (checkAudioCues_fields (startRun_reset (glob w) c now) now) as (D & _ & R & T & _).
  unfold updateUI. destruct (checkAudioCues _ now) as [g2 ui]. simpl in D, R, T.
  destruct (startRun_trackers_glob g2 w env) as (R' & D' & T').
  destruct (startVoiceMonitoring _ env) as [w2 ve]. simpl in R', D', T'.
  rewrite updateUI_display_start by done. unfold updateTimer_display.
  rewrite R', R. simpl. rewrite updateUI_display_start by congruence. done.
Qed.

(** ** Witnesses *)

(** The page at the end of a 5 km run of 25 minutes. *)
Definition run_display : Display :=
  updateUI_display (mkDisplay "0.00" "00:00" "0:00" "0.0" "0" true false)
    (set_totalDistance 5 (startRun_reset initialGlobals (mkCoords 0 0 5) 0)) 1500000.

Lemma startRun_display_stale_witness :
  run_display = mkDisplay "5.00" "25:00" "5:00" "12.0" "300" true false /\
  pace_text (startRun_display run_display (mkWorld initialGlobals (mkStorage [] None) ∅ ∅ false 0)
               (Some (mkCoords 0 0 5)) (mkStartEnv true true true) 2000000) = "5:00".
Proof.
  split; [vm_compute; reflexivity |].
  exact (proj1 (proj2 (proj2 (startRun_display_stale run_display _ (mkCoords 0 0 5) (mkStartEnv true true true) 2000000)))).
Defined.
