(* ===== verification/Setup.v ===== *)
(** * Setup: the page elements the start-up code builds

    - The AI toggle button of [addAIToggleButton] / [updateAIToggleButton]
      (lines 141-195): whether it reads "AI: ON", its background and glow.
      It is page state: [EventLoop.Sys] holds the element
      [getElementById("aiToggleBtn")] finds, and each call
      [updateAIToggleButton(b)] of a handler is its effect [UpdateAIButton b]
      ([initializeAI], [testAIConnection], the button's click handler and
      the voice command "activate ai").
    - The buttons [checkPermissions] (lines 97-111) disables.
    - The network indicator of [setupNetworkStatus] (lines 980-1015).
    - The on-screen debug log of [log] (lines 46-55), newest line first,
      the older text cut to 500 characters.
    The emoji of the button label and the console output are not modelled;
    strings are 8-bit, so [substring] counts bytes where JavaScript counts
    UTF-16 code units. *)

From Stdlib Require Import String Ascii List Lia.
From stdpp Require Import base list.
From S2P Require Import Prelude State Assistant.

Local Open Scope string_scope.

Record AIButton := mkAIButton {
  button_on : bool;          (** [innerHTML] is "AI: ON" rather than "AI: OFF" *)
  background : string;
  boxShadow : string
}.

(** What [updateAIToggleButton(isEnabled)] leaves on a button. *)
Definition button_of (isEnabled : bool) : AIButton :=
  mkAIButton isEnabled (if isEnabled then "#4CAF50" else "#666")
    (if isEnabled then "0 0 10px #4CAF50" else "none").

(** [updateAIToggleButton(isEnabled)] (lines 187-194) on the button the
    document holds ([getElementById]); nothing when there is none. *)
Definition updateAIToggleButton (doc : option AIButton) (isEnabled : bool) : option AIButton :=
  match doc with
  | None => None
  | Some _ => Some (button_of isEnabled)
  end.

(** [addAIToggleButton()] on the document's toggle button [doc]: the
    button is created "AI: ON" (lines 143-161); the saved preference
    ["off"] calls [updateAIToggleButton(false)] (lines 178-182) on the
    document as it is then, before the new button is appended (line 184).
    [getElementById] then finds the first element of that id: one the
    page already had, else the new button. *)
Definition addAIToggleButton (doc : option AIButton) (st : Storage) : option AIButton :=
  let created := mkAIButton true "#4CAF50" "0 0 10px #4CAF50" in
  let doc' := match runflow_ai_mode st with
              | Some s => if String.eqb s "off" then updateAIToggleButton doc false else doc
              | None => doc
              end in
  match doc' with
  | Some b => Some b
  | None => Some created
  end.

(** [checkPermissions]: which of the start and voice buttons it disables,
    from [navigator.geolocation] and the speech-recognition constructors. *)
Record Permissions := mkPermissions {
  startDisabled : bool;
  voiceDisabled : bool
}.

Definition checkPermissions (geolocation speechRecognition : bool) : Permissions :=
  mkPermissions (negb geolocation) (negb speechRecognition).

(** The network indicator: its [className] and [title]; [setupNetworkStatus]
    sets them from [navigator.onLine], its listeners on each change. *)
Definition network_status (online : bool) : string * string :=
  if online then ("network-status online", "Online - AI Available")
  else ("network-status offline", "Offline - Basic Mode Only").

(** [args.join(" ")]. *)
Fixpoint join (sep : string) (args : list string) : string :=
  match args with
  | [] => ""
  | [a] => a
  | a :: rest => a ++ sep ++ join sep rest
  end.

(** [log(...args)] on the debug element's text, when the element exists. *)
Definition log (debugEl : option string) (args : list string) : option string :=
  match debugEl with
  | None => None
  | Some text => Some (join " " args ++ String "010"%char (String.substring 0 500 text))
  end.

(** ** Lemmas *)

Lemma length_substring0 n s : String.length (String.substring 0 n s) = Nat.min n (String.length s).
Proof.
  revert n. induction s as [| c s IH]; intros [| n]; simpl; try done. by rewrite IH.
Qed.

(** The debug log keeps the newest line first and at most 500 characters
    of what it held. *)
Lemma log_bound text args :
  exists t', log (Some text) args = Some t' /\
    String.length t' <= String.length (join " " args) + 501 /\
    String.prefix (join " " args) t' = true.
Proof.
  eexists. split; [reflexivity |]. rewrite string_length_app. simpl.
  rewrite length_substring0. split; [lia |].
  induction (join " " args) as [| c s IH]; simpl; [done |].
  destruct (Ascii.ascii_dec c c) as [_ | []]; [exact IH | reflexivity].
Qed.
