(* ===== verification/EventLoop.v ===== *)
(** * EventLoop: the page as one state machine over all its handlers

    The page runs one handler at a time to completion (spec section 5).
    [Sys] is what exists between two handlers: the [World] of [Session],
    the callbacks scheduled with [setTimeout] and not yet run, the
    assistant requests awaiting their answer (with the code that runs when
    the promise settles, [Cont]), the [startRun] calls awaiting their first
    position, the texts spoken so far, and the manual recognitions started
    with the voice button and not yet answered.  [Event] lists what the browser
    can deliver next; [sys_step] runs the handler the code registers for
    it and files the handler's effects with [post].  Which pending timer
    or answer comes next is left to the event: timer delays and network
    latency are not modelled, so every theorem holds for every order.

    [reachable] is the set of states the page can reach from its start-up
    ([Assistant.init_app]) by any sequence of events; the invariants of
    this file are proved by induction on it. *)

From Stdlib Require Import String ZArith QArith Qround Lqa Lia.
From stdpp Require Import base list gmap.
From S2P Require Import Prelude State Metrics Assistant Milestone Fusion Voice Session Recognition Setup.

Local Open Scope string_scope.

Record Sys := mkSys {
  world : World;
  timers : list (Z * Task);
  inflight : list (string * Cont);
  starting : nat;
  said : list string;
  manual : nat;      (** manual recognitions started and not yet answered *)
  ai_button : option AIButton  (** the element [getElementById("aiToggleBtn")] finds *)
}.

Definition set_world (w : World) (s : Sys) : Sys :=
  mkSys w (timers s) (inflight s) (starting s) (said s) (manual s) (ai_button s).

(** One effect of a handler, filed where the browser keeps it. *)
Definition post1 (s : Sys) (e : Effect) : Sys :=
  match e with
  | Speak t => mkSys (world s) (timers s) (inflight s) (starting s) (said s ++ [t]) (manual s) (ai_button s)
  | Ask p k => mkSys (world s) (timers s) (inflight s ++ [(p, k)]) (starting s) (said s) (manual s) (ai_button s)
  | SetTimeout d t => mkSys (world s) (timers s ++ [(d, t)]) (inflight s) (starting s) (said s) (manual s) (ai_button s)
  | UpdateAIButton b => mkSys (world s) (timers s) (inflight s) (starting s) (said s) (manual s)
                          (updateAIToggleButton (ai_button s) b)
  end.

Definition post (s : Sys) (es : list Effect) : Sys := fold_left post1 es s.

(** A handler's result on the world, with its effects filed. *)
Definition run_handler (s : Sys) (r : World * list Effect) : Sys :=
  post (set_world r.1 s) r.2.

(** The code after an assistant request settles with [r]. *)
Definition resume (w : World) (k : Cont) (r : AIError + string) (now : Z) : World * list Effect :=
  match k with
  | KMilestone km pace => (w, milestone_resume km pace r)
  | KCommand command => (w, command_resume (glob w) command r now)
  | KSummary time => stopRun_finish w time r now
  | KTest => (set_glob (testAIConnection_resume (glob w) r).1 w, (testAIConnection_resume (glob w) r).2)
  end.

(** [queryGemini] after its [await fetch], on the page's coach object, then
    the continuation.  Requests are only made with a coach. *)
Definition settle (w : World) (p : string) (k : Cont) (o : FetchOutcome) (now : Z)
    : World * list Effect :=
  match aiCoach (glob w) with
  | None => (w, [])
  | Some c =>
      let '(c', r) := queryGemini_finish c p o now in
      resume (set_glob (set_aiCoach (Some c') (glob w)) w) k r now
  end.

(** A timer callback. *)
Definition fire (w : World) (t : Task) (starts : bool) (now : Z) : World * list Effect :=
  match t with
  | TStopRun => stopRun_begin w now
  | TUpdateTimer => updateTimer w now
  | TRestartRecognition => (restart_fire w starts, [])
  end.

(** The timers and the requests a list of effects files. *)
Definition effect_timers (es : list Effect) : list (Z * Task) :=
  omap (fun e => match e with SetTimeout d t => Some (d, t) | _ => None end) es.

Definition effect_asks (es : list Effect) : list (string * Cont) :=
  omap (fun e => match e with Ask p k => Some (p, k) | _ => None end) es.

Inductive Event :=
| EvStartClick                                   (** the start button: [startRun] until its [await] *)
| EvStartSettle (pos : option Coords) (env : StartEnv)  (** the oldest pending [startRun] gets its position *)
| EvStopClick                                    (** the stop button *)
| EvFix (id : nat) (c : Coords)                  (** a fix for watch [id] *)
| EvGeoError (id : nat)                          (** watch [id] reports an error *)
| EvMotion (a : option Acceleration)             (** a [devicemotion] event *)
| EvTimer (i : nat) (starts : bool)              (** the [i]-th pending timer runs *)
| EvReply (i : nat) (o : FetchOutcome)           (** the [i]-th pending request settles *)
| EvResult (r : nat) (transcript : string) (isFinal : bool)  (** recognizer [r] hears something *)
| EvRecError (r : nat) (err : string)            (** recognizer [r] reports an error *)
| EvRecEnd (r : nat)                             (** recognizer [r] ends *)
| EvOnline | EvOffline                          (** network status *)
| EvAIToggle                                     (** the assistant-mode button *)
| EvVoiceClick (speechAvailable : bool)          (** the voice button *)
| EvManualResult (transcript : string)           (** a manual recognition hears something *)
| EvManualError.                                 (** a manual recognition fails *)

Section Loop.

Variable calculateDistance : Q -> Q -> Q -> Q -> Q.

(** Only a started recognizer delivers results, errors and its end. *)
Definition started (w : World) (r : nat) : bool :=
  bool_decide (recognizers w !! r = Some true).

Definition sys_step (s : Sys) (e : Event) (now : Z) : Sys :=
  let w := world s in
  match e with
  | EvStartClick => mkSys w (timers s) (inflight s) (S (starting s)) (said s) (manual s) (ai_button s)
  | EvStartSettle pos env =>
      match starting s with
      | O => s
      | S n => run_handler (mkSys w (timers s) (inflight s) n (said s) (manual s) (ai_button s))
                           (startRun_resume w pos env now)
      end
  | EvStopClick => run_handler s (stopRun_begin w now)
  | EvFix id c => run_handler s (watch_callback calculateDistance w id c now)
  | EvGeoError id => post s (watch_error w id)
  | EvMotion a =>
      if motionListener w then
        let '(g', es) := handleMotion (glob w) a now in run_handler s (set_glob g' w, es)
      else s
  | EvTimer i starts =>
      match timers s !! i with
      | None => s
      | Some (_, t) =>
          run_handler (mkSys w (delete i (timers s)) (inflight s) (starting s) (said s) (manual s) (ai_button s))
                      (fire w t starts now)
      end
  | EvReply i o =>
      match inflight s !! i with
      | None => s
      | Some (p, k) =>
          run_handler (mkSys w (timers s) (delete i (inflight s)) (starting s) (said s) (manual s) (ai_button s))
                      (settle w p k o now)
      end
  | EvResult r transcript isFinal =>
      if started w r then
        let '(g', es) := onresult (glob w) transcript isFinal now in run_handler s (set_glob g' w, es)
      else s
  | EvRecError r err =>
      if started w r then post s (rec_onerror (glob w) err) else s
  | EvRecEnd r =>
      if started w r then run_handler s (rec_end w r) else s
  | EvOnline => let '(g', es) := on_online (glob w) in run_handler s (set_glob g' w, es)
  | EvOffline => let '(g', es) := on_offline (glob w) in run_handler s (set_glob g' w, es)
  | EvAIToggle =>
      let '(g', st', es) := aiToggle_click (glob w) (store w) in
      run_handler s (mkWorld g' st' (watches w) (recognizers w) (motionListener w) (next_id w), es)
  | EvVoiceClick avail =>
      let s1 := if isRunning (glob w) && avail
                then mkSys w (timers s) (inflight s) (starting s) (said s) (S (manual s)) (ai_button s) else s in
      post s1 (startManualVoiceCommand (glob w) avail)
  | EvManualResult transcript =>
      match manual s with
      | O => s
      | S n =>
          let '(g', es) := manual_onresult (glob w) transcript now in
          run_handler (mkSys w (timers s) (inflight s) (starting s) (said s) n (ai_button s)) (set_glob g' w, es)
      end
  | EvManualError =>
      match manual s with
      | O => s
      | S n => post (mkSys w (timers s) (inflight s) (starting s) (said s) n (ai_button s)) manual_onerror
      end
  end.

(** The page after its [DOMContentLoaded] handler, with the stored data,
    the configured key and the network status: [setupEventListeners]
    appends the toggle button ([addAIToggleButton] on a page without one),
    then the effects of [initializeAI] are filed, its button updates
    included. *)
Definition init_sys (st : Storage) (cfgKey : option string) (online : bool) : Sys :=
  let '(g, es) := init_app st cfgKey online in
  post (mkSys (mkWorld g st ∅ ∅ false 0) [] [] 0 [] 0 (addAIToggleButton None st)) es.

(** The states reachable from a start-up whose stored history was written
    by [saveRunHistory] (at most 50 records). *)
Inductive reachable : Sys -> Prop :=
| reach_init st cfgKey online :
    (length (runHistory st) <= 50)%nat -> reachable (init_sys st cfgKey online)
| reach_step s e now : reachable s -> reachable (sys_step s e now).

Definition sys_run (s : Sys) (es : list (Event * Z)) : Sys :=
  fold_left (fun s en => sys_step s en.1 en.2) es s.

End Loop.

(** ** Lemmas *)

Lemma post_world s es : world (post s es) = world s.
Proof.
  unfold post. revert s. induction es as [| e es IH]; intros s; [done |].
  simpl. rewrite IH. by destruct e.
Qed.

Lemma post_starting s es : starting (post s es) = starting s.
Proof.
  unfold post. revert s. induction es as [| e es IH]; intros s; [done |].
  simpl. rewrite IH. by destruct e.
Qed.

Lemma post_timers s es : timers (post s es) = (timers s ++ effect_timers es)%list.
Proof.
  unfold post. revert s. induction es as [| e es IH]; intros s; [by rewrite app_nil_r |].
  simpl. rewrite IH. destruct e; simpl; by rewrite <- ?app_assoc.
Qed.

Lemma post_inflight s es : inflight (post s es) = (inflight s ++ effect_asks es)%list.
Proof.
  unfold post. revert s. induction es as [| e es IH]; intros s; [by rewrite app_nil_r |].
  simpl. rewrite IH. destruct e; simpl; by rewrite <- ?app_assoc.
Qed.

Lemma run_handler_world s r : world (run_handler s r) = r.1.
Proof. unfold run_handler. by rewrite post_world. Qed.

Lemma run_handler_timers s r : timers (run_handler s r) = (timers s ++ effect_timers r.2)%list.
Proof. unfold run_handler. by rewrite post_timers. Qed.

Lemma run_handler_inflight s r : inflight (run_handler s r) = (inflight s ++ effect_asks r.2)%list.
Proof. unfold run_handler. by rewrite post_inflight. Qed.

(** Filing effects is running a handler that keeps the world. *)
Lemma post_run_handler s es : post s es = run_handler s (world s, es).
Proof. by destruct s. Qed.

Lemma reachable_run cd s es : reachable cd s -> reachable cd (sys_run cd s es).
Proof.
  unfold sys_run. revert s. induction es as [| [e now] es IH]; intros s R; [done |].
  simpl. apply IH. by apply reach_step.
Qed.

(** A first run: start, first fix, one fix 10 m further. *)
Definition demo_events : list (Event * Z) :=
  [(EvStartClick, 0%Z); (EvStartSettle (Some (mkCoords 0 0 5)) (mkStartEnv true true true), 1000%Z);
   (EvFix 0 (mkCoords 0.01 0 5), 4000%Z)].
