(* ===== verification/Invariants.v ===== *)
(** * Invariants: what every reachable state of the page satisfies

    [ginv] is the invariant of the globals: the position window holds at
    most 20 fixes, the last announced kilometre never exceeds the whole
    kilometres run (so no kilometre is announced twice within a run), and
    the coach's conversation history holds at most 10 turns.  [winv] adds
    the bound of 50 records of the stored history.  Each handler is shown to
    preserve them (the [*_winv] lemmas), and [Invariants.reachable_inv] puts
    them together by induction on [EventLoop.reachable].

    The second group is the safety of teardown: once [stopRun] has run,
    no event but a pending [startRun] sets the run flag again or starts a
    recognizer. *)

From Stdlib Require Import String ZArith QArith Qround Lqa Lia.
From stdpp Require Import base list gmap.
From S2P Require Import Prelude State Metrics Assistant Milestone Fusion Voice Session Recognition EventLoop.

Local Open Scope Q_scope.
Local Open Scope rf_scope.

Definition coach_ok (c : option AICoach) : Prop :=
  match c with Some c => (length (conversationHistory c) <= 10)%nat | None => True end.

Definition ginv (g : Globals) : Prop :=
  (length (positions g) <= WINDOW)%nat /\
  (lastAnnouncedKm g <= js_floor (totalDistance g))%Z /\
  coach_ok (aiCoach g).

Definition winv (w : World) : Prop :=
  ginv (glob w) /\ (length (runHistory (store w)) <= 50)%nat.

Create HintDb inv.

(** ** The globals *)

(** [ginv] reads four variables only. *)
Lemma ginv_frame g g' :
  positions g' = positions g -> lastAnnouncedKm g' = lastAnnouncedKm g ->
  totalDistance g' = totalDistance g -> aiCoach g' = aiCoach g ->
  ginv g -> ginv g'.
Proof. unfold ginv. intros -> -> -> ->. done. Qed.

Ltac frame := eapply ginv_frame; [reflexivity .. |].

Lemma ginv_set_useAI g b : ginv g -> ginv (set_useAI b g).
Proof. frame. done. Qed.
Lemma ginv_set_run g b : ginv g -> ginv (set_run b g).
Proof. frame. done. Qed.
Lemma ginv_set_watchId g i : ginv g -> ginv (set_watchId i g).
Proof. frame. done. Qed.
Lemma ginv_set_voiceRecognition g r : ginv g -> ginv (set_voiceRecognition r g).
Proof. frame. done. Qed.
Lemma ginv_set_wakeLock g b : ginv g -> ginv (set_wakeLock b g).
Proof. frame. done. Qed.
Lemma ginv_set_steps g n e : ginv g -> ginv (set_steps n e g).
Proof. frame. done. Qed.
#[export] Hint Resolve ginv_set_useAI ginv_set_run ginv_set_watchId ginv_set_voiceRecognition
  ginv_set_wakeLock ginv_set_steps : inv.

Lemma js_floor_mono (x y : Q) : x <= y -> (js_floor x <= js_floor y)%Z.
Proof. apply Qfloor_resp_le. Qed.

(** A larger distance keeps the milestone bound. *)
Lemma ginv_grow g d (ps : list Position) :
  ginv g -> totalDistance g <= d -> (length ps <= WINDOW)%nat ->
  ginv (set_positions ps (set_totalDistance d g)).
Proof.
  intros (_ & Hk & Hc) Hd Hp. split; [done |]. split; [| done]. simpl.
  pose proof (js_floor_mono _ _ Hd). lia.
Qed.

Lemma checkAudioCues_ginv g now : ginv g -> ginv (fst (checkAudioCues g now)).
Proof.
  intros Hg. unfold checkAudioCues. destruct (isRunning g); [| done]. simpl.
  destruct (_ && _); [| done].
  destruct Hg as (Hp & _ & Hc). split; [done |]. split; [simpl; lia | done].
Qed.

Lemma updateUI_ginv g now : ginv g -> ginv (fst (updateUI g now)).
Proof. apply checkAudioCues_ginv. Qed.
#[export] Hint Resolve checkAudioCues_ginv updateUI_ginv : inv.

Section WithDistance.
Variable calculateDistance : Q -> Q -> Q -> Q -> Q.

Lemma onPosition_ginv lu g c now :
  ginv g -> ginv (fst (snd (onPosition calculateDistance lu g c now))).
Proof.
  intros Hg. unfold onPosition.
  destruct (now - lu <? GPS_UPDATE_INTERVAL)%Z; [done |].
  destruct (MAX_ACCURACY <? coord_accuracy c); [done |].
  destruct (last (positions g)) as [p |].
  - destruct (fix_accepted calculateDistance p _) eqn:A; [| done]. simpl.
    apply updateUI_ginv.
    destruct (fix_accepted_bounds _ _ _ A) as [H1 _]. unfold MIN_DISTANCE in H1.
    replace (set_positions _ _) with
      (set_positions (push_bounded WINDOW (mkPosition (latitude c) (longitude c) now (coord_accuracy c))
                        (positions g))
         (set_totalDistance (totalDistance g + fix_distance calculateDistance p
              (mkPosition (latitude c) (longitude c) now (coord_accuracy c))) g)) by reflexivity.
    apply ginv_grow; [done | simpl; lra |]. apply length_push_bounded, Hg.
  - simpl. destruct Hg as (_ & Hk & Hc). split; [simpl; unfold WINDOW; lia | done].
Qed.

End WithDistance.

Lemma handleMotion_ginv g a now : ginv g -> ginv (fst (handleMotion g a now)).
Proof.
  intros Hg. unfold handleMotion. destruct (isRunning g); [| done]. simpl.
  destruct a as [a |]; [| done].
  destruct (_ && _); [| done].
  destruct (5000 <? _)%Z; [| simpl; auto with inv].
  qcase; [| simpl; auto with inv].
  apply updateUI_ginv.
  replace (set_totalDistance _ _) with
    (set_positions (positions g) (set_totalDistance (totalDistance g * 0.7 +
       inject_Z (stepCount g + 1) * STEP_LENGTH * 0.3)
       (set_steps (stepCount g + 1) (inject_Z (stepCount g + 1) * STEP_LENGTH) g))) by reflexivity.
  apply ginv_grow; [auto with inv | simpl; lra | apply Hg].
Qed.

(** ** The world *)

Lemma winv_set_glob g w : ginv g -> winv w -> winv (set_glob g w).
Proof. intros Hg [_ Hh]. by split. Qed.

Lemma winv_glob w : winv w -> ginv (glob w).
Proof. by intros []. Qed.
#[export] Hint Resolve winv_set_glob winv_glob : inv.

Lemma winv_startGPSTracking w : winv w -> winv (startGPSTracking w).
Proof. intros [Hg Hh]. split; [apply ginv_set_watchId |]; done. Qed.

Lemma winv_startStepDetection w env : winv w -> winv (startStepDetection w env).
Proof. unfold startStepDetection. by destruct (motionGranted env). Qed.

Lemma winv_startVoiceMonitoring w env : winv w -> winv (fst (startVoiceMonitoring w env)).
Proof.
  intros [Hg Hh]. unfold startVoiceMonitoring. destruct (speechAvailable env); [| by split].
  split; [apply ginv_set_voiceRecognition |]; done.
Qed.

Lemma winv_updateTimer w now : winv w -> winv (fst (updateTimer w now)).
Proof.
  intros Hw. unfold updateTimer. destruct (isRunning (glob w)); [| done]. simpl.
  destruct (updateUI (glob w) now) as [g' es] eqn:E. simpl.
  apply winv_set_glob; [| done].
  replace g' with (fst (updateUI (glob w) now)) by (by rewrite E). auto with inv.
Qed.
#[export] Hint Resolve winv_startGPSTracking winv_startStepDetection winv_startVoiceMonitoring
  winv_updateTimer : inv.

Lemma ginv_startRun_reset g c now : ginv g -> ginv (startRun_reset g c now).
Proof. intros (_ & _ & Hc). split; [simpl; unfold WINDOW; lia |]. split; [done | exact Hc]. Qed.

Lemma winv_startRun_resume w pos env now :
  winv w -> winv (fst (startRun_resume w pos env now)).
Proof.
  intros Hw. destruct pos as [c |]; [| done]. unfold startRun_resume.
  destruct (updateUI (startRun_reset (glob w) c now) now) as [g2 ui] eqn:E.
  assert (Hg2 : ginv g2).
  { replace g2 with (fst (updateUI (startRun_reset (glob w) c now) now)) by (by rewrite E).
    apply updateUI_ginv, ginv_startRun_reset, Hw. }
  destruct (startVoiceMonitoring _ env) as [w2 ve] eqn:E2.
  destruct (updateTimer w2 now) as [w3 te] eqn:E3. cbn [fst].
  replace w3 with (fst (updateTimer w2 now)) by (by rewrite E3).
  apply winv_updateTimer.
  replace w2 with (fst (startVoiceMonitoring
    (startStepDetection (startGPSTracking (set_glob g2 w)) env) env)) by (by rewrite E2).
  auto with inv.
Qed.

Lemma winv_saveRunHistory w now : winv w -> winv (saveRunHistory w now).
Proof. intros [Hg _]. split; [done |]. simpl. rewrite length_slice_last. lia. Qed.

Lemma winv_stopRun_finish w time r now : winv w -> winv (fst (stopRun_finish w time r now)).
Proof. apply winv_saveRunHistory. Qed.

Lemma winv_stopRun_teardown w : winv w -> winv (stopRun_teardown w).
Proof.
  intros [Hg Hh]. unfold stopRun_teardown, stopVoiceMonitoring.
  split; [| by repeat case_match; simplify_eq/=].
  repeat case_match; simplify_eq/=; auto 10 with inv.
Qed.
#[export] Hint Resolve winv_saveRunHistory winv_stopRun_finish winv_stopRun_teardown : inv.

Lemma winv_stopRun_begin w now : winv w -> winv (fst (stopRun_begin w now)).
Proof.
  intros Hw. unfold stopRun_begin. destruct (isRunning (glob w)); [| done]. simpl.
  repeat case_match; simplify_eq/=; auto with inv.
Qed.

Lemma winv_watch_callback cd w id c now : winv w -> winv (fst (watch_callback cd w id c now)).
Proof.
  intros [Hg Hh]. unfold watch_callback. destruct (watches w !! id) as [lu |]; [| by split].
  pose proof (onPosition_ginv cd lu (glob w) c now) as Hp.
  destruct (onPosition cd lu (glob w) c now) as [lu' [g' es]]. simpl in *. split; auto.
Qed.

Lemma winv_restart_fire w starts : winv w -> winv (restart_fire w starts).
Proof. unfold winv. by rewrite restart_fire_glob, restart_fire_store. Qed.

Lemma winv_rec_end w r : winv w -> winv (fst (rec_end w r)).
Proof. done. Qed.
#[export] Hint Resolve winv_stopRun_begin winv_watch_callback winv_restart_fire winv_rec_end : inv.

(** ** Voice, network and the assistant *)

Lemma handleBasicCommand_ginv g cmd now : ginv g -> ginv (handleBasicCommand g cmd now).1.1.
Proof. intros Hg. unfold handleBasicCommand. repeat case_match; simplify_eq/=; auto with inv. Qed.

Lemma processVoiceCommand_ginv g cmd now : ginv g -> ginv (fst (processVoiceCommand g cmd now)).
Proof.
  intros Hg. unfold processVoiceCommand.
  destruct (_ <? _)%nat; [done |]. destruct (routes_to_ai g cmd); [by destruct (coach_precheck g) |].
  pose proof (handleBasicCommand_ginv g cmd now Hg). by destruct (handleBasicCommand g cmd now) as [[??]?].
Qed.

Lemma onresult_ginv g t f now : ginv g -> ginv (fst (onresult g t f now)).
Proof.
  intros Hg. unfold onresult. repeat case_match; try done. by apply processVoiceCommand_ginv.
Qed.

Lemma ginv_set_online b g : ginv g -> ginv (set_online b g).
Proof.
  intros Hg. unfold set_online. destruct (aiCoach g) eqn:C; [| exact Hg].
  destruct Hg as (Hp & Hk & Hc). rewrite C in Hc. by split; [| split].
Qed.
#[export] Hint Resolve handleBasicCommand_ginv processVoiceCommand_ginv onresult_ginv
  ginv_set_online : inv.

Lemma on_online_ginv g : ginv g -> ginv (fst (on_online g)).
Proof. intros Hg. unfold on_online. repeat case_match; simpl; auto with inv. Qed.

Lemma on_offline_ginv g : ginv g -> ginv (fst (on_offline g)).
Proof. intros Hg. unfold on_offline. simpl. auto with inv. Qed.
#[export] Hint Resolve on_online_ginv on_offline_ginv : inv.

Lemma queryGemini_finish_coach_ok c p o now :
  coach_ok (Some c) -> coach_ok (Some (fst (queryGemini_finish c p o now))).
Proof.
  simpl. intros H. destruct o as [| s b | [text |]]; simpl; try done.
  destruct (String.eqb text ""); [done |]. by apply length_record_turn.
Qed.

Lemma testAIConnection_resume_ginv g r : ginv g -> ginv (testAIConnection_resume g r).1.
Proof. destruct r; simpl; auto with inv. Qed.
#[export] Hint Resolve testAIConnection_resume_ginv : inv.

Lemma winv_resume w k r now : winv w -> winv (fst (resume w k r now)).
Proof. intros Hw. destruct k; simpl; auto with inv. Qed.

Lemma winv_settle w p k o now : winv w -> winv (fst (settle w p k o now)).
Proof.
  intros Hw. unfold settle.
  destruct (aiCoach (glob w)) as [c |] eqn:C; [| exact Hw].
  destruct Hw as [(Hp & Hk & Hc) Hh].
  pose proof (queryGemini_finish_coach_ok c p o now) as Hq. rewrite C in Hc.
  destruct (queryGemini_finish c p o now) as [c' r]. apply winv_resume.
  split; [split; [done | split; [done | by apply Hq]] | done].
Qed.

Lemma winv_fire w t starts now : winv w -> winv (fst (fire w t starts now)).
Proof. destruct t; simpl; auto with inv. Qed.

Lemma aiToggle_click_inv g st :
  ginv g -> ginv (aiToggle_click g st).1.1 /\ runHistory (aiToggle_click g st).1.2 = runHistory st.
Proof. intros Hg. unfold aiToggle_click. case_match; split; simpl; auto with inv. Qed.

(** ** The page *)

Lemma winv_sys_step cd s e now : winv (world s) -> winv (world (sys_step cd s e now)).
Proof.
  intros Hw. destruct e; simpl; rewrite ?run_handler_world, ?post_world.
  - done.
  - destruct (starting s); [done |]. rewrite ?run_handler_world. by apply winv_startRun_resume.
  - by apply winv_stopRun_begin.
  - by apply winv_watch_callback.
  - done.
  - destruct (motionListener (world s)); [| done].
    pose proof (handleMotion_ginv (glob (world s)) a now (winv_glob _ Hw)).
    destruct (handleMotion _ a now). rewrite ?run_handler_world. cbn [fst]. auto with inv.
  - destruct (timers s !! i) as [[d t] |]; [| done]. rewrite ?run_handler_world. by apply winv_fire.
  - destruct (inflight s !! i) as [[p k] |]; [| done]. rewrite ?run_handler_world. by apply winv_settle.
  - destruct (started (world s) r); [| done].
    pose proof (onresult_ginv (glob (world s)) transcript isFinal now (winv_glob _ Hw)).
    destruct (onresult _ _ _ _). rewrite ?run_handler_world. cbn [fst]. auto with inv.
  - destruct (started (world s) r); [| done]. by rewrite ?post_world.
  - destruct (started (world s) r); [| done]. rewrite ?run_handler_world. by apply winv_rec_end.
  - pose proof (on_online_ginv (glob (world s)) (winv_glob _ Hw)).
    destruct (on_online _). rewrite ?run_handler_world. cbn [fst]. auto with inv.
  - pose proof (on_offline_ginv (glob (world s)) (winv_glob _ Hw)).
    destruct (on_offline _). rewrite ?run_handler_world. cbn [fst]. auto with inv.
  - destruct Hw as [Hg Hh].
    destruct (aiToggle_click_inv (glob (world s)) (store (world s)) Hg) as [H1 H2].
    destruct (aiToggle_click _ _) as [[g' st'] es]. rewrite ?run_handler_world.
    split; [done | simpl in *; by rewrite H2].
  - by destruct (_ && _).
  - destruct (manual s); [done |]. unfold manual_onresult.
    pose proof (processVoiceCommand_ginv (glob (world s)) (toLowerCase transcript) now (winv_glob _ Hw)).
    destruct (processVoiceCommand _ _ _). rewrite ?run_handler_world. cbn [fst]. auto with inv.
  - by destruct (manual s).
Qed.

Lemma ginv_initialGlobals : ginv initialGlobals.
Proof. split; [| split]; simpl; [unfold WINDOW; lia | vm_compute; discriminate | exact I]. Qed.

Lemma ginv_fresh_coach g k o : ginv g -> ginv (set_aiCoach (Some (mkAICoach k o [])) g).
Proof. intros (Hp & Hk & _). split; [done | split; [done | simpl; lia]]. Qed.
#[export] Hint Resolve ginv_initialGlobals ginv_fresh_coach : inv.

Lemma winv_init st cfgKey online :
  (length (runHistory st) <= 50)%nat -> winv (world (init_sys st cfgKey online)).
Proof.
  intros Hh. unfold init_sys, init_app.
  assert (H0 : ginv (load_ai_preference initialGlobals st)).
  { unfold load_ai_preference. repeat case_match; auto with inv. }
  assert (Hi : ginv (fst (initializeAI (load_ai_preference initialGlobals st) cfgKey online))).
  { unfold initializeAI, testAIConnection. repeat case_match; simplify_eq/=; auto 10 with inv. }
  destruct (initializeAI _ cfgKey online) as [g es]. rewrite post_world. by split.
Qed.

(** ** Theorems *)

(** C36: in every state the page can reach from its start-up, whatever
    the order of fixes, motion events, timers, assistant answers,
    recognition events, network changes and button presses: the position
    window holds at most 20 fixes, [lastAnnouncedKm] never exceeds the whole
    kilometres of [totalDistance] (so a kilometre is announced at most once
    per run), the coach keeps at most 10 turns, and the stored history at
    most 50 records.  This holds for any distance function. *)
Theorem reachable_inv (cd : Q -> Q -> Q -> Q -> Q) (s : Sys) :
  reachable cd s ->
  (length (positions (glob (world s))) <= 20)%nat /\
  (lastAnnouncedKm (glob (world s)) <= js_floor (totalDistance (glob (world s))))%Z /\
  coach_ok (aiCoach (glob (world s))) /\
  (length (runHistory (store (world s))) <= 50)%nat.
Proof.
  intros R. cut (winv (world s)); [by intros [(? & ? & ?) ?] |].
  induction R as [st k o Hh | s e now _ IH]; [by apply winv_init | by apply winv_sys_step].
Qed.

Lemma reachable_inv_witness :
  let s := sys_run planar (init_sys (mkStorage [] None) None true) demo_events in
  reachable planar s /\ totalDistance (glob (world s)) = 0.01 /\
  (lastAnnouncedKm (glob (world s)) <= js_floor (totalDistance (glob (world s))))%Z.
Proof.
  assert (R : reachable planar (sys_run planar (init_sys (mkStorage [] None) None true) demo_events)).
  { apply reachable_run, reach_init. simpl. lia. }
  split; [exact R | split; [vm_compute; reflexivity | apply (reachable_inv planar _ R)]].
Defined.
