(* ===== verification/Safety.v ===== *)
(** * Safety: what a stopped page can and cannot do

    The spec (section 5) asks that [stop()] cancel or ignore what was in
    flight: late answers of the assistant, the UI tick and the recognition
    restarts must not bring a stopped session back.  The code cancels no
    timer and no request; each callback re-reads [isRunning] and
    [voiceRecognition] when it runs.  This file shows that this suffices:

    - [session_ok]: in every reachable state, a page that is not running
      holds no recognizer ([voiceRecognition = null]);
    - [stopped_step_safe] (C37): from a reachable stopped state, every event
      but a pending [startRun] settling keeps the run stopped, starts no
      recognizer, and schedules no timer but [stopRun] (which finds the run
      stopped and does nothing);
    - [stopped_drains] (C38): from a reachable stopped state, every pending
      timer and every assistant answer strictly decreases
      [2 * #requests + #timers], so the queue of a stopped page empties:
      the UI tick and the restart loop terminate on stop.

    [sess g] is the pair ([isRunning], [voiceRecognition]); the [*_sess]
    lemmas say which handlers leave it alone. *)

From Stdlib Require Import String ZArith QArith Lia.
From stdpp Require Import base list gmap.
From S2P Require Import Prelude State Metrics Assistant Milestone Fusion Voice Session Recognition EventLoop.

Definition sess (g : Globals) : bool * option nat := (isRunning g, voiceRecognition g).

Definition session_ok (g : Globals) : Prop :=
  isRunning g = false -> voiceRecognition g = None.

Create HintDb sess.

Ltac sess_tac := unfold sess; repeat case_match; simplify_eq/=; try done.

(** ** Handlers that leave the session alone *)

Lemma checkAudioCues_sess g now : sess (fst (checkAudioCues g now)) = sess g.
Proof. unfold checkAudioCues. sess_tac. Qed.

Lemma updateUI_sess g now : sess (fst (updateUI g now)) = sess g.
Proof. apply checkAudioCues_sess. Qed.

Lemma onPosition_sess cd lu g c now : sess (fst (snd (onPosition cd lu g c now))) = sess g.
Proof. unfold onPosition. repeat case_match; simplify_eq/=; rewrite ?updateUI_sess; done. Qed.

Lemma handleMotion_sess g a now : sess (fst (handleMotion g a now)) = sess g.
Proof. unfold handleMotion. repeat case_match; simplify_eq/=; rewrite ?updateUI_sess; done. Qed.

Lemma handleBasicCommand_sess g cmd now : sess ((handleBasicCommand g cmd now).1.1) = sess g.
Proof. unfold handleBasicCommand. sess_tac. Qed.

Lemma processVoiceCommand_sess g cmd now : sess (fst (processVoiceCommand g cmd now)) = sess g.
Proof.
  unfold processVoiceCommand.
  destruct (_ <? _)%nat; [done |]. destruct (routes_to_ai g cmd); [by destruct (coach_precheck g) |].
  pose proof (handleBasicCommand_sess g cmd now). by destruct (handleBasicCommand g cmd now) as [[??]?].
Qed.

Lemma onresult_sess g t f now : sess (fst (onresult g t f now)) = sess g.
Proof. unfold onresult. repeat case_match; try done. apply processVoiceCommand_sess. Qed.

Lemma set_online_sess b g : sess (set_online b g) = sess g.
Proof. unfold set_online. sess_tac. Qed.

Lemma on_online_sess g : sess (fst (on_online g)) = sess g.
Proof. unfold on_online. repeat case_match; simpl; by rewrite ?set_online_sess. Qed.

Lemma on_offline_sess g : sess (fst (on_offline g)) = sess g.
Proof. unfold on_offline. simpl. by rewrite !set_online_sess. Qed.

Lemma aiToggle_click_sess g st : sess (aiToggle_click g st).1.1 = sess g.
Proof. unfold aiToggle_click. sess_tac. Qed.

Lemma updateTimer_sess w now : sess (glob (fst (updateTimer w now))) = sess (glob w).
Proof.
  unfold updateTimer. destruct (isRunning (glob w)); [| done]. simpl.
  pose proof (updateUI_sess (glob w) now). by destruct (updateUI (glob w) now).
Qed.

Lemma settle_sess w p k o now : sess (glob (fst (settle w p k o now))) = sess (glob w).
Proof.
  unfold settle. destruct (aiCoach (glob w)); [| done].
  destruct (queryGemini_finish _ p o now). destruct k; simpl; try done.
  by destruct s.
Qed.

(** ** Start and stop *)

Lemma stopRun_teardown_session w :
  isRunning (glob (stopRun_teardown w)) = false /\ voiceRecognition (glob (stopRun_teardown w)) = None.
Proof. unfold stopRun_teardown, stopVoiceMonitoring. repeat case_match; simplify_eq/=; done. Qed.

Lemma stopRun_begin_session w now : session_ok (glob w) -> session_ok (glob (fst (stopRun_begin w now))).
Proof.
  intros H. unfold stopRun_begin. destruct (isRunning (glob w)); [| done]. simpl.
  destruct (stopRun_teardown_session w) as [_ Hv]. intros _.
  repeat case_match; simplify_eq/=; done.
Qed.

Lemma startRun_resume_running w c env now :
  isRunning (glob (fst (startRun_resume w (Some c) env now))) = true.
Proof.
  unfold startRun_resume.
  pose proof (updateUI_sess (startRun_reset (glob w) c now) now) as E.
  destruct (updateUI _ now) as [g2 ui]. simpl in E. injection E as E _.
  destruct (startVoiceMonitoring _ env) as [w2 ve] eqn:E2.
  pose proof (updateTimer_sess w2 now) as E3. destruct (updateTimer w2 now) as [w3 te].
  simpl in *. injection E3 as E3 _. rewrite E3.
  unfold startVoiceMonitoring, startStepDetection in E2.
  repeat case_match; simplify_eq/=; done.
Qed.

Lemma startRun_resume_session w pos env now :
  session_ok (glob w) -> session_ok (glob (fst (startRun_resume w pos env now))).
Proof.
  destruct pos as [c |]; [| done]. intros _ H. by rewrite startRun_resume_running in H.
Qed.

(** A handler that leaves the session alone keeps [session_ok]. *)
Lemma session_ok_sess g g' : sess g' = sess g -> session_ok g -> session_ok g'.
Proof. unfold sess, session_ok. intros E. injection E as -> ->. done. Qed.

Lemma session_ok_step cd s e now :
  session_ok (glob (world s)) -> session_ok (glob (world (sys_step cd s e now))).
Proof.
  intros H. destruct e; simpl; rewrite ?run_handler_world, ?post_world.
  - done.
  - destruct (starting s); [done |]. rewrite run_handler_world. by apply startRun_resume_session.
  - by apply stopRun_begin_session.
  - unfold watch_callback. destruct (watches (world s) !! id) as [lu |]; [| done].
    pose proof (onPosition_sess cd lu (glob (world s)) c now).
    destruct (onPosition cd lu _ c now) as [lu' [g' es]]. by eapply session_ok_sess.
  - done.
  - destruct (motionListener (world s)); [| done].
    pose proof (handleMotion_sess (glob (world s)) a now).
    destruct (handleMotion _ a now). rewrite ?run_handler_world. by eapply session_ok_sess.
  - destruct (timers s !! i) as [[d t] |]; [| done]. rewrite ?run_handler_world.
    destruct t; simpl.
    + by apply stopRun_begin_session.
    + by rewrite restart_fire_glob.
    + by eapply session_ok_sess; [apply updateTimer_sess |].
  - destruct (inflight s !! i) as [[p k] |]; [| done]. rewrite ?run_handler_world.
    by eapply session_ok_sess; [apply settle_sess |].
  - destruct (started (world s) r); [| done].
    pose proof (onresult_sess (glob (world s)) transcript isFinal now).
    destruct (onresult _ _ _ _). rewrite ?run_handler_world. by eapply session_ok_sess.
  - by destruct (started (world s) r); rewrite ?post_world.
  - by destruct (started (world s) r); rewrite ?run_handler_world.
  - pose proof (on_online_sess (glob (world s))).
    destruct (on_online _). rewrite ?run_handler_world. by eapply session_ok_sess.
  - eapply session_ok_sess; [| exact H]. simpl. by rewrite !set_online_sess.
  - pose proof (aiToggle_click_sess (glob (world s)) (store (world s))).
    destruct (aiToggle_click _ _) as [[g' st'] es]. rewrite ?run_handler_world. by eapply session_ok_sess.
  - by destruct (_ && _).
  - destruct (manual s); [done |]. unfold manual_onresult.
    pose proof (processVoiceCommand_sess (glob (world s)) (toLowerCase transcript) now).
    destruct (processVoiceCommand _ _ _). rewrite ?run_handler_world. by eapply session_ok_sess.
  - by destruct (manual s).
Qed.

Lemma session_ok_init st k o : session_ok (glob (world (init_sys st k o))).
Proof.
  unfold init_sys, init_app. intros _.
  assert (E : voiceRecognition (fst (initializeAI (load_ai_preference initialGlobals st) k o)) = None).
  { unfold initializeAI, testAIConnection, load_ai_preference. repeat case_match; simplify_eq/=; done. }
  destruct (initializeAI _ k o). by rewrite post_world.
Qed.

Lemma reachable_session_ok cd s : reachable cd s -> session_ok (glob (world s)).
Proof.
  induction 1; [apply session_ok_init | by apply session_ok_step].
Qed.

(** ** A stopped page *)

(** Effects that schedule no timer but [stopRun]. *)
Definition tick_free (es : list Effect) : Prop :=
  Forall (fun e => match e with SetTimeout _ t => t = TStopRun | _ => True end) es.

Lemma tick_free_timers es x : tick_free es -> x ∈ effect_timers es -> x.2 = TStopRun.
Proof.
  induction 1 as [| e es He _ IH]; [by intros ?%elem_of_nil |].
  destruct e; simpl; try done. rewrite elem_of_cons. by intros [-> | ?]; [| apply IH].
Qed.

Lemma checkAudioCues_idle g now : isRunning g = false -> checkAudioCues g now = (g, []).
Proof. unfold checkAudioCues. by intros ->. Qed.

Lemma onPosition_idle_effects cd lu g c now :
  isRunning g = false -> snd (snd (onPosition cd lu g c now)) = [].
Proof.
  intros R. unfold onPosition. repeat case_match; simplify_eq/=; try done.
  unfold updateUI. by rewrite checkAudioCues_idle.
Qed.

Lemma handleMotion_idle g a now : isRunning g = false -> handleMotion g a now = (g, []).
Proof. unfold handleMotion. by intros ->. Qed.

Lemma updateTimer_idle w now : isRunning (glob w) = false -> updateTimer w now = (w, []).
Proof. unfold updateTimer. by intros ->. Qed.

Lemma stop_schedule_tick_free c : tick_free (stop_schedule c).
Proof. unfold stop_schedule. case_match; repeat constructor. Qed.

Lemma speak_nonempty_tick_free t : tick_free (speak_nonempty t).
Proof. unfold speak_nonempty. case_match; repeat constructor. Qed.
#[export] Hint Resolve stop_schedule_tick_free speak_nonempty_tick_free : sess.

Lemma handleBasicCommand_tick_free g c now : tick_free (handleBasicCommand g c now).1.2.
Proof. unfold handleBasicCommand. repeat case_match; simplify_eq/=; repeat constructor. Qed.

Lemma processVoiceCommand_tick_free g c now : tick_free (snd (processVoiceCommand g c now)).
Proof.
  unfold processVoiceCommand. destruct (_ <? _)%nat; [constructor |].
  destruct (routes_to_ai g c).
  - destruct (coach_precheck g); unfold command_resume; repeat constructor.
  - pose proof (handleBasicCommand_tick_free g c now).
    destruct (handleBasicCommand g c now) as [[g1 es] r]. simpl in *.
    apply Forall_app. split; [done |].
    apply Forall_app. split; [apply speak_nonempty_tick_free | apply stop_schedule_tick_free].
Qed.

Lemma onresult_tick_free g t f now : tick_free (snd (onresult g t f now)).
Proof.
  unfold onresult. repeat case_match; try by constructor. apply processVoiceCommand_tick_free.
Qed.

Lemma settle_recognizers w p k o now : recognizers (fst (settle w p k o now)) = recognizers w.
Proof.
  unfold settle. destruct (aiCoach (glob w)); [| done].
  destruct (queryGemini_finish _ p o now). by destruct k.
Qed.

Lemma resume_tick_free w k r now : tick_free (snd (resume w k r now)).
Proof.
  destruct k; simpl; try by repeat constructor.
  - unfold milestone_resume. case_match; repeat constructor.
  - unfold command_resume. case_match; [by repeat constructor |].
    apply Forall_app. split; [apply speak_nonempty_tick_free | apply stop_schedule_tick_free].
  - destruct r; repeat constructor.
Qed.

Lemma settle_tick_free w p k o now : tick_free (snd (settle w p k o now)).
Proof.
  unfold settle. destruct (aiCoach (glob w)); [| constructor].
  destruct (queryGemini_finish _ p o now). apply resume_tick_free.
Qed.

Lemma on_online_tick_free g : tick_free (snd (on_online g)).
Proof. unfold on_online. repeat case_match; simpl; repeat constructor. Qed.

Lemma on_offline_tick_free g : tick_free (snd (on_offline g)).
Proof. unfold on_offline. simpl. case_match; repeat constructor. Qed.

Lemma watch_error_tick_free w id : tick_free (watch_error w id).
Proof. unfold watch_error. repeat case_match; repeat constructor. Qed.

Lemma startManualVoiceCommand_tick_free g avail : tick_free (startManualVoiceCommand g avail).
Proof. unfold startManualVoiceCommand. repeat case_match; repeat constructor. Qed.

Lemma aiToggle_click_tick_free g st : tick_free (aiToggle_click g st).2.
Proof. unfold aiToggle_click. repeat case_match; simpl; repeat constructor. Qed.

(** On a stopped page every timer callback does nothing. *)
Lemma fire_idle w t starts now :
  isRunning (glob w) = false -> voiceRecognition (glob w) = None -> fire w t starts now = (w, []).
Proof.
  intros R V. destruct t; simpl; [by apply stopRun_begin_idle | by rewrite restart_fire_none |
                                  by apply updateTimer_idle].
Qed.

(** An answer files no request and at most one timer. *)
Lemma settle_counts w p k o now :
  effect_asks (snd (settle w p k o now)) = [] /\
  (length (effect_timers (snd (settle w p k o now))) <= 1)%nat.
Proof.
  unfold settle. destruct (aiCoach (glob w)); [| simpl; split; [done | lia]].
  destruct (queryGemini_finish _ p o now) as [c' r]. destruct k; simpl.
  all: unfold milestone_resume, command_resume, speak_nonempty, stop_schedule, testAIConnection_resume.
  all: repeat case_match; simpl; split; try done; lia.
Qed.

Ltac same := split; [done | split; [intros ? ?; done | intros ? ?; by left]].

Definition not_settle (e : Event) : Prop :=
  match e with EvStartSettle _ _ => False | _ => True end.

(** What one event does to a stopped page: the session and the
    recognizers, and the timers it schedules. *)
Lemma stopped_step cd s e now :
  session_ok (glob (world s)) -> isRunning (glob (world s)) = false -> not_settle e ->
  let s' := sys_step cd s e now in
  sess (glob (world s')) = sess (glob (world s)) /\
  (forall r, recognizers (world s') !! r = Some true -> recognizers (world s) !! r = Some true) /\
  (forall x, x ∈ timers s' -> x ∈ timers s \/ x.2 = TStopRun).
Proof.
  intros Hs R Ne. pose proof (Hs R) as V.
  assert (Hm : forall es, tick_free es -> forall x, x ∈ (timers s ++ effect_timers es)%list ->
                 x ∈ timers s \/ x.2 = TStopRun).
  { intros es Ht x [? | ?]%elem_of_app; [by left | right; by eapply tick_free_timers]. }
  destruct e; simpl in *; try contradiction.
  - same.
  - rewrite stopRun_begin_idle by done. rewrite run_handler_world, run_handler_timers. simpl.
    rewrite app_nil_r. same.
  - unfold watch_callback. destruct (watches (world s) !! id) as [lu |]; [| same].
    pose proof (onPosition_sess cd lu (glob (world s)) c now) as E1.
    pose proof (onPosition_idle_effects cd lu (glob (world s)) c now R) as E2.
    destruct (onPosition cd lu _ c now) as [lu' [g' es]]. simpl in *. subst es.
    rewrite run_handler_world, run_handler_timers. simpl. rewrite app_nil_r. same.
  - rewrite watch_error_idle by done. same.
  - destruct (motionListener (world s)); [| same].
    rewrite handleMotion_idle by done. cbv beta iota.
    rewrite run_handler_world, run_handler_timers. simpl. rewrite app_nil_r. same.
  - destruct (timers s !! i) as [[d t] |]; [| same].
    rewrite fire_idle by done. rewrite run_handler_world, run_handler_timers. simpl. rewrite app_nil_r.
    split; [done | split; [done |]]. intros x ?%elem_of_delete_list. by left.
  - destruct (inflight s !! i) as [[p k] |]; [| same].
    rewrite run_handler_world, run_handler_timers, settle_recognizers, settle_sess.
    split; [done | split; [done |]]. cbn [timers]. apply Hm, settle_tick_free.
  - destruct (started (world s) r); [| same].
    pose proof (onresult_sess (glob (world s)) transcript isFinal now) as E1.
    pose proof (onresult_tick_free (glob (world s)) transcript isFinal now) as E2.
    destruct (onresult _ _ _ _) as [g' es]. rewrite run_handler_world, run_handler_timers.
    split; [done | split; [done |]]. by apply Hm.
  - destruct (started (world s) r); [| same]. simpl.
    replace (restart_wanted (glob (world s))) with false by (unfold restart_wanted; by rewrite R).
    simpl. same.
  - destruct (started (world s) r) eqn:St; [| same].
    rewrite run_handler_world, run_handler_timers. simpl. rewrite rec_onend_idle by done.
    simpl. rewrite app_nil_r. split; [done | split; [| intros ? ?; by left]].
    intros r'. rewrite lookup_insert. case_decide; [done | auto].
  - pose proof (on_online_sess (glob (world s))) as E1.
    pose proof (on_online_tick_free (glob (world s))) as E2.
    destruct (on_online _) as [g' es]. rewrite run_handler_world, run_handler_timers.
    split; [done | split; [done |]]. by apply Hm.
  - pose proof (on_offline_sess (glob (world s))) as E1.
    pose proof (on_offline_tick_free (glob (world s))) as E2.
    rewrite run_handler_world, run_handler_timers. simpl in E1 |- *.
    split; [done | split; [done |]]. apply Hm, E2.
  - pose proof (aiToggle_click_sess (glob (world s)) (store (world s))) as E1.
    pose proof (aiToggle_click_tick_free (glob (world s)) (store (world s))) as E2.
    destruct (aiToggle_click _ _) as [[g' st'] es]. rewrite run_handler_world, run_handler_timers.
    split; [done | split; [done |]]. by apply Hm.
  - rewrite R. cbn [andb]. rewrite post_world, post_timers. unfold startManualVoiceCommand.
    rewrite R. simpl. rewrite app_nil_r. same.
  - destruct (manual s); [same |]. unfold manual_onresult.
    pose proof (processVoiceCommand_sess (glob (world s)) (toLowerCase transcript) now) as E1.
    pose proof (processVoiceCommand_tick_free (glob (world s)) (toLowerCase transcript) now) as E2.
    destruct (processVoiceCommand _ _ _) as [g' es]. rewrite run_handler_world, run_handler_timers.
    split; [done | split; [done |]]. by apply Hm.
  - destruct (manual s); same.
Qed.

(** ** Theorems *)

(** C37: a stopped page stays stopped.  From any reachable state in which
    no run is active, every event except a pending [startRun] receiving its
    position (late fixes of an orphan watch, motion events, pending timers,
    late assistant answers, recognition results, errors and ends, network
    changes, button presses) leaves the run flag off and [voiceRecognition]
    null, starts no recognizer, and schedules no timer other than [stopRun]
    (which then does nothing): neither the UI tick nor the recognition
    restart loop can come back. *)
Theorem stopped_step_safe (cd : Q -> Q -> Q -> Q -> Q) (s : Sys) (e : Event) (now : Z) :
  reachable cd s -> isRunning (glob (world s)) = false -> not_settle e ->
  let s' := sys_step cd s e now in
  isRunning (glob (world s')) = false /\ voiceRecognition (glob (world s')) = None /\
  (forall r, recognizers (world s') !! r = Some true -> recognizers (world s) !! r = Some true) /\
  (forall x, x ∈ timers s' -> x ∈ timers s \/ x.2 = TStopRun).
Proof.
  intros Rs R Ne s'. pose proof (reachable_session_ok cd s Rs R) as V.
  destruct (stopped_step cd s e now (reachable_session_ok cd s Rs) R Ne) as (E & Hr & Ht).
  unfold sess in E. injection E as E1 E2. fold s' in E1, E2.
  by rewrite E1, E2.
Qed.

(** The run of [EventLoop.demo_events], then the stop button. *)
Definition demo_stopped : Sys :=
  sys_run planar (init_sys (mkStorage [] None) None true) (demo_events ++ [(EvStopClick, 60000%Z)]).

Lemma demo_stopped_reachable : reachable planar demo_stopped.
Proof. apply reachable_run, reach_init. simpl. lia. Qed.

Lemma stopped_step_safe_witness :
  isRunning (glob (world demo_stopped)) = false /\
  timers demo_stopped !! 0%nat = Some (1000%Z, TUpdateTimer) /\
  isRunning (glob (world (sys_step planar demo_stopped (EvTimer 0 true) 61000))) = false.
Proof.
  split; [vm_compute; reflexivity |]. split; [vm_compute; reflexivity |].
  apply (stopped_step_safe planar demo_stopped (EvTimer 0 true) 61000);
    [exact demo_stopped_reachable | vm_compute; reflexivity | exact I].
Defined.

(** The timers and requests still to run. *)
Definition backlog (s : Sys) : nat := 2 * length (inflight s) + length (timers s).

(** An event that runs a pending callback: a timer or an assistant answer. *)
Definition runs_pending (s : Sys) (e : Event) : Prop :=
  match e with
  | EvTimer i _ => is_Some (timers s !! i)
  | EvReply i _ => is_Some (inflight s !! i)
  | _ => False
  end.

(** C38: on a stopped page the pending callbacks drain.  From any reachable
    state in which no run is active, running a pending timer or settling a
    pending assistant request strictly decreases [2 * #requests + #timers]:
    every timer callback then does nothing, and an answer schedules at most
    one timer ([stopRun]) and no request.  So after [stopRun] the UI tick,
    the recognition restarts and the late answers die out: no sequence of
    them is longer than the backlog at the stop. *)
Theorem stopped_drains (cd : Q -> Q -> Q -> Q -> Q) (s : Sys) (e : Event) (now : Z) :
  reachable cd s -> isRunning (glob (world s)) = false -> runs_pending s e ->
  (backlog (sys_step cd s e now) < backlog s)%nat.
Proof.
  intros Rs R P. pose proof (reachable_session_ok cd s Rs R) as V. unfold backlog.
  destruct e; simpl in P; try contradiction; simpl.
  - destruct (timers s !! i) as [[d t] |] eqn:E; [| by destruct P].
    rewrite fire_idle by done. rewrite run_handler_timers, run_handler_inflight. simpl.
    rewrite !app_nil_r, length_delete by done.
    pose proof (lookup_lt_Some _ _ _ E). lia.
  - destruct (inflight s !! i) as [[p k] |] eqn:E; [| by destruct P].
    destruct (settle_counts (world s) p k o now) as [Ha Ht].
    rewrite run_handler_timers, run_handler_inflight, Ha. simpl.
    rewrite app_nil_r, length_app, length_delete by done.
    pose proof (lookup_lt_Some _ _ _ E). lia.
Qed.

Lemma stopped_drains_witness :
  runs_pending demo_stopped (EvTimer 0 true) /\
  (backlog (sys_step planar demo_stopped (EvTimer 0 true) 61000) < backlog demo_stopped)%nat.
Proof.
  assert (P : runs_pending demo_stopped (EvTimer 0 true)) by (vm_compute; eauto).
  split; [exact P |].
  apply (stopped_drains planar demo_stopped (EvTimer 0 true) 61000);
    [exact demo_stopped_reachable | vm_compute; reflexivity | exact P].
Defined.

(** ** Manual voice commands *)

(** A command long enough, routed to the coach, with the coach ready,
    issues exactly one assistant request. *)
Lemma processVoiceCommand_asks g cmd now :
  (3 <= String.length (trim cmd))%nat -> routes_to_ai g cmd = true -> coach_precheck g = None ->
  length (effect_asks (snd (processVoiceCommand g cmd now))) = 1%nat.
Proof.
  intros L Ro P. unfold processVoiceCommand. rewrite Ro, P.
  destruct (Nat.ltb_spec (String.length (trim cmd)) 3); [lia | done].
Qed.

(** C6: [stopRun] does not stop a manual recognition started with the
    voice button.  In a reachable state where the run has stopped and such
    a recognition is pending, its result still runs [processVoiceCommand]:
    a command for the coach sends a new assistant request after the stop,
    whose answer will be spoken. *)
Theorem manual_command_after_stop (cd : Q -> Q -> Q -> Q -> Q) (s : Sys) t now n :
  reachable cd s -> isRunning (glob (world s)) = false -> manual s = S n ->
  (3 <= String.length (trim (toLowerCase t)))%nat ->
  routes_to_ai (glob (world s)) (toLowerCase t) = true -> coach_precheck (glob (world s)) = None ->
  length (inflight (sys_step cd s (EvManualResult t) now)) = S (length (inflight s)).
Proof.
  intros _ _ M L Ro P. simpl. rewrite M. unfold manual_onresult.
  pose proof (processVoiceCommand_asks _ _ now L Ro P) as A.
  destruct (processVoiceCommand _ _ _) as [g' es]. rewrite run_handler_inflight, length_app.
  simpl in *. rewrite A. lia.
Qed.

(** A run with the coach configured and online: start, press the voice
    button, stop before the recognition answers. *)
Definition demo_manual : Sys :=
  sys_run planar (init_sys (mkStorage [] None) (Some "AIzaDemoKey-0123"%string) true)
    [(EvStartClick, 0%Z); (EvStartSettle (Some (mkCoords 0 0 5)) (mkStartEnv true true true), 1000%Z);
     (EvVoiceClick true, 2000%Z); (EvStopClick, 3000%Z)].

Lemma manual_command_after_stop_witness :
  reachable planar demo_manual /\ isRunning (glob (world demo_manual)) = false /\
  manual demo_manual = 1%nat /\
  length (inflight (sys_step planar demo_manual (EvManualResult "Hey coach, how am I doing?"%string) 4000)) =
    S (length (inflight demo_manual)).
Proof.
  assert (R : reachable planar demo_manual) by (apply reachable_run, reach_init; simpl; lia).
  split_and!; [exact R | vm_compute; reflexivity | vm_compute; reflexivity |].
  apply (manual_command_after_stop planar demo_manual _ 4000 0 R); vm_compute; first [reflexivity | lia].
Defined.
