(* ===== verification/Liveness.v ===== *)
(** * Liveness: the recognition restart loop over the whole page

    The spec's contract for the voice pipeline (section 4.3) is that the
    restart-on-end/error loop keeps recognition alive for the whole run.
    [alive s] says: while a run is active, the recognizer the page holds is
    listening or a restart callback is pending.  A browser is [fair] when
    every [start()] it is asked for succeeds (at start-up and in the restart
    callback).  [recognition_alive] (C39) shows that every state a fair
    browser can reach is [alive], and that running a pending restart makes
    the recognizer listen again: under a fair browser recognition is
    never lost for good.

    [stuck s] is the opposite situation: a run is active, no recognizer is
    listening and no restart is pending.  It arises as soon as one restart
    is refused ([EvTimer i false]): the code only logs the exception.
    [stuck_stable] (C40) shows that from such a state no event but a new
    [startRun] brings recognition back; only the end of the run ends it. *)

From Stdlib Require Import String ZArith QArith Lia.
From stdpp Require Import base list gmap.
From S2P Require Import Prelude State Metrics Assistant Milestone Fusion Voice Session Recognition EventLoop Safety.

Definition restart_pending (s : Sys) : Prop :=
  exists d, (d, TRestartRecognition) ∈ timers s.

Definition alive (s : Sys) : Prop :=
  isRunning (glob (world s)) = true ->
  forall r, voiceRecognition (glob (world s)) = Some r ->
  recognizers (world s) !! r = Some true \/ restart_pending s.

(** Every [start()] the browser is asked for succeeds. *)
Definition fair (e : Event) : Prop :=
  match e with
  | EvStartSettle _ env => recognitionStarts env = true
  | EvTimer _ starts => starts = true
  | _ => True
  end.

Section Fair.
Variable cd : Q -> Q -> Q -> Q -> Q.

Inductive fair_reachable : Sys -> Prop :=
| fair_init st cfgKey online :
    (length (runHistory st) <= 50)%nat -> fair_reachable (init_sys st cfgKey online)
| fair_step s e now : fair_reachable s -> fair e -> fair_reachable (sys_step cd s e now).

Lemma fair_reachable_reachable s : fair_reachable s -> reachable cd s.
Proof. induction 1; [by apply reach_init | by apply reach_step]. Qed.

End Fair.

(** ** Lemmas *)

Lemma elem_of_delete_other {A} (l : list A) i x y :
  x ∈ l -> l !! i = Some y -> x <> y -> x ∈ delete i l.
Proof.
  revert i. induction l as [| z l IH]; intros [| i] Hx Hi Hne; simpl in *; try done.
  - injection Hi as ->. apply elem_of_cons in Hx as [-> | Hx]; done.
  - apply elem_of_cons in Hx as [-> | Hx]; [by left | right; by apply (IH i)].
Qed.

(** A step that keeps the session and the recognizers and only adds
    timers keeps [alive]. *)
Lemma alive_frame s s' :
  sess (glob (world s')) = sess (glob (world s)) -> recognizers (world s') = recognizers (world s) ->
  (forall d, (d, TRestartRecognition) ∈ timers s -> (d, TRestartRecognition) ∈ timers s') ->
  alive s -> alive s'.
Proof.
  unfold sess. intros E Hr Ht Ha R r V. injection E as E1 E2.
  rewrite E1 in R. rewrite E2 in V. rewrite Hr.
  destruct (Ha R r V) as [| [d Hd]]; [by left | right; exists d; by apply Ht].
Qed.

Lemma run_handler_grows s0 s r : timers s0 = timers s ->
  forall x, x ∈ timers s -> x ∈ timers (run_handler s0 r).
Proof. intros E x. rewrite run_handler_timers, E. intros. by apply elem_of_app; left. Qed.

Lemma post_grows s es x : x ∈ timers s -> x ∈ timers (post s es).
Proof. rewrite post_timers. intros. by apply elem_of_app; left. Qed.

Lemma updateTimer_recognizers w now : recognizers (fst (updateTimer w now)) = recognizers w.
Proof.
  unfold updateTimer. destruct (isRunning (glob w)); [| done].
  by destruct (updateUI (glob w) now).
Qed.

Lemma watch_callback_recognizers cd w id c now :
  recognizers (fst (watch_callback cd w id c now)) = recognizers w /\
  sess (glob (fst (watch_callback cd w id c now))) = sess (glob w).
Proof.
  unfold watch_callback. destruct (watches w !! id) as [lu |]; [| by split].
  pose proof (onPosition_sess cd lu (glob w) c now).
  by destruct (onPosition cd lu (glob w) c now) as [lu' [g' es]].
Qed.

(** What [startRun] does to the recognition: a new listening recognizer
    when the browser has one and its [start()] succeeds. *)
Lemma startRun_resume_recognition w c env now :
  let w' := fst (startRun_resume w (Some c) env now) in
  if speechAvailable env then
    exists r, voiceRecognition (glob w') = Some r /\ recognizers w' !! r = Some (recognitionStarts env)
  else voiceRecognition (glob w') = voiceRecognition (glob w) /\ recognizers w' = recognizers w.
Proof.
  unfold startRun_resume.
  pose proof (updateUI_sess (startRun_reset (glob w) c now) now) as E.
  destruct (updateUI _ now) as [g2 ui]. simpl in E. injection E as _ E.
  destruct (startVoiceMonitoring _ env) as [w2 ve] eqn:E2.
  pose proof (updateTimer_sess w2 now) as E3. pose proof (updateTimer_recognizers w2 now) as E4.
  destruct (updateTimer w2 now) as [w3 te]. simpl in *. injection E3 as _ E3.
  rewrite E3, E4. unfold startVoiceMonitoring, startStepDetection in E2.
  destruct (speechAvailable env), (motionGranted env); simplify_eq/=;
    first [eexists; split; [reflexivity | by rewrite lookup_insert_eq] | done].
Qed.

(** After [stopRun], whatever its branch, no run is active. *)
Lemma stopRun_begin_stopped w now : isRunning (glob (fst (stopRun_begin w now))) = false.
Proof.
  unfold stopRun_begin. destruct (isRunning (glob w)) eqn:R; [| done]. simpl.
  destruct (stopRun_teardown_session w) as [Hr _].
  repeat case_match; simplify_eq/=; done.
Qed.

Lemma alive_stopped s : isRunning (glob (world s)) = false -> alive s.
Proof. intros R R'. congruence. Qed.

Ltac keep Ha := eapply alive_frame; [| | | exact Ha].

Lemma alive_step cd s e now :
  reachable cd s -> fair e -> alive s -> alive (sys_step cd s e now).
Proof.
  intros Rs F Ha. pose proof (reachable_session_ok cd s Rs) as So.
  destruct e; simpl in F |- *.
  - keep Ha; done.
  - destruct (starting s) as [| n]; [done |]. destruct pos as [c |].
    + pose proof (startRun_resume_recognition (world s) c env now) as Hs.
      intros R r V. rewrite run_handler_world in R, V |- *.
      destruct (speechAvailable env).
      * destruct Hs as (r' & V' & L). rewrite V' in V. injection V as <-. left. by rewrite L, F.
      * destruct Hs as [V' L]. rewrite V' in V. rewrite L.
        destruct (isRunning (glob (world s))) eqn:R0; [| by rewrite So in V].
        destruct (Ha R0 r V) as [| [d Hd]]; [by left | right; exists d].
        by eapply run_handler_grows.
    + keep Ha; rewrite ?run_handler_world; [done | done |]. intros ?; by apply run_handler_grows.
  - apply alive_stopped. rewrite run_handler_world. apply stopRun_begin_stopped.
  - destruct (watch_callback_recognizers cd (world s) id c now) as [E1 E2].
    keep Ha; rewrite ?run_handler_world; [done | done |]. intros ?; by apply run_handler_grows.
  - keep Ha; rewrite ?post_world; [done | done |].
    intros d0 Hd. rewrite post_timers. apply elem_of_app; left. exact Hd.
  - destruct (motionListener (world s)); [| exact Ha].
    pose proof (handleMotion_sess (glob (world s)) a now) as E.
    destruct (handleMotion _ a now). keep Ha; rewrite ?run_handler_world; [done | done |].
    intros ?; by apply run_handler_grows.
  - destruct (timers s !! i) as [[d t] |] eqn:Ti; [| exact Ha]. subst starts. destruct t.
    + apply alive_stopped. rewrite run_handler_world. apply stopRun_begin_stopped.
    + intros R r V. rewrite run_handler_world in R, V |- *. simpl in R, V |- *.
      rewrite restart_fire_glob in R, V. left. by apply restart_fire_listening.
    + pose proof (updateTimer_sess (world s) now) as E1.
      pose proof (updateTimer_recognizers (world s) now) as E2.
      keep Ha; rewrite ?run_handler_world; [done | done |].
      intros d0 Hx. rewrite run_handler_timers. apply elem_of_app; left. simpl.
      by eapply elem_of_delete_other; [exact Hx | exact Ti |].
  - destruct (inflight s !! i) as [[p k] |]; [| exact Ha].
    keep Ha; rewrite ?run_handler_world;
      [apply settle_sess | apply settle_recognizers | intros ?; by apply run_handler_grows].
  - destruct (started (world s) r); [| exact Ha].
    pose proof (onresult_sess (glob (world s)) transcript isFinal now) as E.
    destruct (onresult _ _ _ _). keep Ha; rewrite ?run_handler_world; [done | done |].
    intros ?; by apply run_handler_grows.
  - destruct (started (world s) r); [| exact Ha].
    keep Ha; rewrite ?post_world; [done | done |].
    intros d0 Hd. rewrite post_timers. apply elem_of_app; left. exact Hd.
  - destruct (started (world s) r); [| exact Ha].
    intros R r' V. rewrite run_handler_world in R, V |- *. unfold rec_end in R, V |- *.
    cbn [fst snd glob set_recognizers] in R, V |- *.
    right. exists 500%Z. rewrite run_handler_timers. apply elem_of_app; right.
    rewrite rec_onend_restart; [by left |]. unfold restart_wanted. by rewrite R, V.
  - pose proof (on_online_sess (glob (world s))) as E.
    destruct (on_online _). keep Ha; rewrite ?run_handler_world; [done | done |].
    intros ?; by apply run_handler_grows.
  - keep Ha; rewrite ?run_handler_world; [| done | intros ?; by apply run_handler_grows].
    simpl. by rewrite !set_online_sess.
  - pose proof (aiToggle_click_sess (glob (world s)) (store (world s))) as E.
    destruct (aiToggle_click _ _) as [[g' st'] es].
    keep Ha; rewrite ?run_handler_world; [done | done |]. intros ?; by apply run_handler_grows.
  - destruct (_ && _); (keep Ha; rewrite ?post_world; [done | done | intros ? H; apply post_grows; exact H]).
  - destruct (manual s); [exact Ha |]. unfold manual_onresult.
    pose proof (processVoiceCommand_sess (glob (world s)) (toLowerCase transcript) now) as E.
    destruct (processVoiceCommand _ _ _). keep Ha; rewrite ?run_handler_world; [done | done |].
    intros ?; by apply run_handler_grows.
  - destruct (manual s); exact Ha.
Qed.

Lemma init_stopped st k o : isRunning (glob (world (init_sys st k o))) = false.
Proof.
  unfold init_sys, init_app.
  assert (E : isRunning (fst (initializeAI (load_ai_preference initialGlobals st) k o)) = false).
  { unfold initializeAI, testAIConnection, load_ai_preference. repeat case_match; simplify_eq/=; done. }
  destruct (initializeAI _ k o). by rewrite post_world.
Qed.

Lemma fair_alive cd s : fair_reachable cd s -> alive s.
Proof.
  intros Fr. cut (reachable cd s /\ alive s); [by intros [] |].
  induction Fr as [st k o Hh | s e now Fr [Rs IH] F].
  - split; [by apply reach_init | apply alive_stopped, init_stopped].
  - split; [by apply reach_step | by apply alive_step].
Qed.

Lemma fair_run cd s es :
  fair_reachable cd s -> Forall (fun en => fair en.1) es -> fair_reachable cd (sys_run cd s es).
Proof.
  unfold sys_run. revert s. induction es as [| [e now] es IH]; intros s Fr F; [done |].
  inversion F as [| ? ? F1 F2]; subst. simpl. apply IH; [by apply fair_step | done].
Qed.

(** ** A refused restart *)

(** A run is active, no recognizer listens and no restart is pending. *)
Definition stuck (s : Sys) : Prop :=
  isRunning (glob (world s)) = true /\
  (forall r, recognizers (world s) !! r <> Some true) /\
  (forall d, (d, TRestartRecognition) ∉ timers s).

Lemma tick_free_no_restart es d : tick_free es -> (d, TRestartRecognition) ∉ effect_timers es.
Proof. intros H Hin. by pose proof (tick_free_timers es _ H Hin). Qed.

Lemma checkAudioCues_tick_free g now : tick_free (snd (checkAudioCues g now)).
Proof.
  unfold checkAudioCues. repeat case_match; simpl; try by constructor.
  all: unfold coach_precheck, milestone_resume in *; repeat case_match; simplify_eq/=; repeat constructor.
Qed.

Lemma onPosition_tick_free cd lu g c now : tick_free (snd (snd (onPosition cd lu g c now))).
Proof.
  unfold onPosition. repeat case_match; simplify_eq/=; try by constructor.
  all: apply checkAudioCues_tick_free.
Qed.

Lemma handleMotion_tick_free g a now : tick_free (snd (handleMotion g a now)).
Proof.
  unfold handleMotion. repeat case_match; simplify_eq/=; try by constructor.
  all: apply checkAudioCues_tick_free.
Qed.

Lemma updateTimer_no_restart w now d : (d, TRestartRecognition) ∉ effect_timers (snd (updateTimer w now)).
Proof.
  unfold updateTimer. destruct (isRunning (glob w)); [| simpl; apply not_elem_of_nil].
  pose proof (checkAudioCues_tick_free (glob w) now) as T. unfold updateUI.
  destruct (checkAudioCues (glob w) now) as [g' es]. simpl in *.
  unfold effect_timers. rewrite omap_app. simpl. intros [Hin | Hin]%elem_of_app.
  - by apply (tick_free_no_restart es d T).
  - by apply list_elem_of_singleton in Hin.
Qed.

(** A step that keeps the session and the recognizers and schedules no
    restart keeps [stuck]. *)
Lemma stuck_frame s s' :
  sess (glob (world s')) = sess (glob (world s)) -> recognizers (world s') = recognizers (world s) ->
  (forall d, (d, TRestartRecognition) ∈ timers s' -> (d, TRestartRecognition) ∈ timers s) ->
  stuck s -> stuck s'.
Proof.
  unfold sess. intros E Hr Ht (R & Hn & Hp). injection E as E1 _.
  split; [by rewrite E1 | split; [by rewrite Hr | intros d Hd; by apply (Hp d), Ht]].
Qed.

Lemma run_handler_no_restart s0 s r :
  timers s0 = timers s -> (forall d, (d, TRestartRecognition) ∉ effect_timers r.2) ->
  forall d, (d, TRestartRecognition) ∈ timers (run_handler s0 r) -> (d, TRestartRecognition) ∈ timers s.
Proof.
  intros E N d. rewrite run_handler_timers, E. intros [? | Hin]%elem_of_app; [done |].
  by destruct (N d).
Qed.

(** A handler that keeps the session and the recognizers and schedules no
    timer but [stopRun] keeps [stuck]. *)
Lemma stuck_run_handler s0 s r :
  timers s0 = timers s -> stuck s ->
  sess (glob r.1) = sess (glob (world s)) -> recognizers r.1 = recognizers (world s) ->
  tick_free r.2 -> stuck (run_handler s0 r).
Proof.
  intros T Hs E Hr Tf. eapply stuck_frame; [| | | exact Hs]; rewrite ?run_handler_world; [done | done |].
  apply run_handler_no_restart; [done |]. intros d. by apply tick_free_no_restart.
Qed.

Lemma watch_callback_tick_free cd w id c now : tick_free (snd (watch_callback cd w id c now)).
Proof.
  unfold watch_callback. destruct (watches w !! id) as [lu |]; [| constructor].
  pose proof (onPosition_tick_free cd lu (glob w) c now).
  by destruct (onPosition cd lu (glob w) c now) as [lu' [g' es]].
Qed.

(** ** Theorems *)

(** C39: under a fair browser the recognition loop stays alive for the
    whole run.  In every state reachable by events whose [start()] calls
    succeed, while a run is active the recognizer held in
    [voiceRecognition] is listening or a restart callback is pending; and
    running a pending restart makes that recognizer listen again. *)
Theorem recognition_alive (cd : Q -> Q -> Q -> Q -> Q) (s : Sys) (r : nat) :
  fair_reachable cd s -> isRunning (glob (world s)) = true ->
  voiceRecognition (glob (world s)) = Some r ->
  (recognizers (world s) !! r = Some true \/ exists d, (d, TRestartRecognition) ∈ timers s) /\
  (forall i d now, timers s !! i = Some (d, TRestartRecognition) ->
     recognizers (world (sys_step cd s (EvTimer i true) now)) !! r = Some true).
Proof.
  intros Fr R V. split; [exact (fair_alive cd s Fr R r V) |].
  intros i d now Ti. simpl. rewrite Ti, run_handler_world. simpl.
  by apply restart_fire_listening.
Qed.

(** The run of [demo_events], then the provider ends the recognizer. *)
Definition demo_ended : list (Event * Z) := (demo_events ++ [(EvRecEnd 1, 5000%Z)])%list.

Lemma recognition_alive_witness :
  let s := sys_run planar (init_sys (mkStorage [] None) None true) demo_ended in
  fair_reachable planar s /\ isRunning (glob (world s)) = true /\
  voiceRecognition (glob (world s)) = Some 1%nat /\
  recognizers (world s) !! 1%nat = Some false /\
  timers s !! 1%nat = Some (500%Z, TRestartRecognition) /\
  recognizers (world (sys_step planar s (EvTimer 1 true) 5500)) !! 1%nat = Some true.
Proof.
  assert (Fr : fair_reachable planar (sys_run planar (init_sys (mkStorage [] None) None true) demo_ended)).
  { apply fair_run; [apply fair_init; simpl; lia | repeat constructor]. }
  do 5 (split; [first [exact Fr | vm_compute; reflexivity] |]).
  destruct (recognition_alive planar _ 1 Fr) as [_ H]; [vm_compute; reflexivity .. |].
  apply (H 1%nat 500%Z). vm_compute. reflexivity.
Defined.

(** C40: a refused restart is never retried.  From a state in which a run
    is active but no recognizer listens and no restart is pending (what the
    restart callback leaves when [start()] throws: the [catch] only logs),
    every event except a pending [startRun] receiving its position either
    keeps that state or ends the run: fixes, motion, the UI tick, assistant
    answers, network changes and button presses never restart recognition,
    and a recognizer that is not listening delivers no end or error event
    whose callback could schedule a restart.  Voice commands are lost for
    the rest of the run. *)
Theorem stuck_stable (cd : Q -> Q -> Q -> Q -> Q) (s : Sys) (e : Event) (now : Z) :
  stuck s -> not_settle e ->
  stuck (sys_step cd s e now) \/ isRunning (glob (world (sys_step cd s e now))) = false.
Proof.
  intros Hs Ne. pose proof Hs as (R & Hn & Hp).
  assert (St : forall r, started (world s) r = false).
  { intros r. unfold started. case_bool_decide; [by destruct (Hn r) | done]. }
  destruct e; simpl in Ne |- *; try contradiction; try (rewrite St; by left).
  - left. eapply stuck_frame; [| | | exact Hs]; done.
  - right. rewrite run_handler_world. apply stopRun_begin_stopped.
  - left. destruct (watch_callback_recognizers cd (world s) id c now).
    apply (stuck_run_handler _ s); auto using watch_callback_tick_free.
  - left. rewrite post_run_handler. by apply (stuck_run_handler _ s), watch_error_tick_free.
  - left. destruct (motionListener (world s)); [| exact Hs].
    pose proof (handleMotion_sess (glob (world s)) a now).
    pose proof (handleMotion_tick_free (glob (world s)) a now).
    destruct (handleMotion _ a now). by apply (stuck_run_handler _ s).
  - destruct (timers s !! i) as [[d t] |] eqn:Ti; [| by left]. destruct t.
    + right. rewrite run_handler_world. apply stopRun_begin_stopped.
    + exfalso. apply (Hp d). by eapply list_elem_of_lookup_2.
    + left. eapply stuck_frame; [| | | exact Hs]; rewrite ?run_handler_world;
        [apply updateTimer_sess | apply updateTimer_recognizers |].
      intros d0 Hd. rewrite run_handler_timers in Hd. apply elem_of_app in Hd as [Hd | Hd].
      * by eapply elem_of_delete_list.
      * by destruct (updateTimer_no_restart (world s) now d0).
  - left. destruct (inflight s !! i) as [[p k] |]; [| exact Hs].
    apply (stuck_run_handler _ s); auto using settle_sess, settle_recognizers, settle_tick_free.
  - left. pose proof (on_online_sess (glob (world s))).
    pose proof (on_online_tick_free (glob (world s))).
    destruct (on_online _). by apply (stuck_run_handler _ s).
  - left. apply (stuck_run_handler _ s); [done | done | simpl; by rewrite !set_online_sess | done |].
    apply (on_offline_tick_free (glob (world s))).
  - left. pose proof (aiToggle_click_sess (glob (world s)) (store (world s))).
    pose proof (aiToggle_click_tick_free (glob (world s)) (store (world s))).
    destruct (aiToggle_click _ _) as [[g' st'] es]. by apply (stuck_run_handler _ s).
  - left. destruct (_ && _); rewrite post_run_handler;
      (apply (stuck_run_handler _ s); [done | done | done | done | apply startManualVoiceCommand_tick_free]).
  - destruct (manual s); [by left |]. left. unfold manual_onresult.
    pose proof (processVoiceCommand_sess (glob (world s)) (toLowerCase transcript) now).
    pose proof (processVoiceCommand_tick_free (glob (world s)) (toLowerCase transcript) now).
    destruct (processVoiceCommand _ _ _). by apply (stuck_run_handler _ s).
  - left. by destruct (manual s).
Qed.

(** The run of [demo_ended] in which the restart callback's [start()] throws. *)
Definition demo_refused : Sys :=
  sys_step planar (sys_run planar (init_sys (mkStorage [] None) None true) demo_ended)
    (EvTimer 1 false) 5500.

Lemma demo_refused_stuck : stuck demo_refused.
Proof.
  assert (Er : recognizers (world demo_refused) = {[1%nat := false]}) by (vm_compute; reflexivity).
  assert (Et : timers demo_refused = [(1000%Z, TUpdateTimer)]) by (vm_compute; reflexivity).
  split; [vm_compute; reflexivity |]. split.
  - intros r. rewrite Er, lookup_singleton. case_decide; [done | discriminate].
  - intros d. rewrite Et. by intros [[=] | ?%elem_of_nil]%elem_of_cons.
Qed.

Lemma stuck_stable_witness :
  stuck demo_refused /\
  (stuck (sys_step planar demo_refused (EvTimer 0 true) 6000) \/
   isRunning (glob (world (sys_step planar demo_refused (EvTimer 0 true) 6000))) = false).
Proof.
  split; [exact demo_refused_stuck |].
  apply (stuck_stable planar demo_refused (EvTimer 0 true) 6000); [exact demo_refused_stuck | exact I].
Defined.
