(* ===== verification/Handles.v ===== *)
(** * Handles: the browser objects the globals refer to

    The page refers to browser objects by handle: [watchId] names a
    geolocation watch and [voiceRecognition] a recognizer.  In the model the
    browser keeps them in [watches] and [recognizers], keyed by ids handed
    out in order from [next_id].  [handles_ok] is the well-formedness of a
    [World]: every registered id is below [next_id] (a property of that
    allocator), and both handles the globals hold name registered objects.
    [run_ok] says that [watchId] is set only while a run is active; with
    [Safety.session_ok], the same of [voiceRecognition].  Every handler
    keeps both ([handles_sys_step], [run_ok_step]), hence every reachable
    state satisfies them ([reachable_handles]): [stopRun] clears the watch
    and nulls [watchId] (lines 427-430), stops the recognizer and nulls
    [voiceRecognition] ([stopVoiceMonitoring], lines 563-570).

    [ids g] is the pair ([watchId], [voiceRecognition]); the [*_ids] lemmas
    say which handlers leave both handles alone. *)

From Stdlib Require Import String ZArith QArith Lia.
From stdpp Require Import base list gmap.
From S2P Require Import Prelude State Metrics Assistant Milestone Fusion Voice Session Recognition EventLoop Safety.

Definition handles_ok (w : World) : Prop :=
  (forall id, is_Some (watches w !! id) -> (id < next_id w)%nat) /\
  (forall r, is_Some (recognizers w !! r) -> (r < next_id w)%nat) /\
  (forall id, watchId (glob w) = Some id -> is_Some (watches w !! id)) /\
  (forall r, voiceRecognition (glob w) = Some r -> is_Some (recognizers w !! r)).

Definition ids (g : Globals) : option nat * option nat := (watchId g, voiceRecognition g).

Create HintDb handles.

Ltac ids_tac := unfold ids; repeat case_match; simplify_eq/=; try done.

(** ** Handlers of the globals keep both handles *)

Lemma checkAudioCues_ids g now : ids (fst (checkAudioCues g now)) = ids g.
Proof. unfold checkAudioCues. ids_tac. Qed.

Lemma updateUI_ids g now : ids (fst (updateUI g now)) = ids g.
Proof. apply checkAudioCues_ids. Qed.

Lemma onPosition_ids cd lu g c now : ids (fst (snd (onPosition cd lu g c now))) = ids g.
Proof. unfold onPosition. repeat case_match; simplify_eq/=; rewrite ?updateUI_ids; done. Qed.

Lemma handleMotion_ids g a now : ids (fst (handleMotion g a now)) = ids g.
Proof. unfold handleMotion. repeat case_match; simplify_eq/=; rewrite ?updateUI_ids; done. Qed.

Lemma handleBasicCommand_ids g cmd now : ids ((handleBasicCommand g cmd now).1.1) = ids g.
Proof. unfold handleBasicCommand. ids_tac. Qed.

Lemma processVoiceCommand_ids g cmd now : ids (fst (processVoiceCommand g cmd now)) = ids g.
Proof.
  unfold processVoiceCommand.
  destruct (_ <? _)%nat; [done |]. destruct (routes_to_ai g cmd); [by destruct (coach_precheck g) |].
  pose proof (handleBasicCommand_ids g cmd now). by destruct (handleBasicCommand g cmd now) as [[??]?].
Qed.

Lemma onresult_ids g t f now : ids (fst (onresult g t f now)) = ids g.
Proof. unfold onresult. repeat case_match; try done. apply processVoiceCommand_ids. Qed.

Lemma set_online_ids b g : ids (set_online b g) = ids g.
Proof. unfold set_online. ids_tac. Qed.

Lemma on_online_ids g : ids (fst (on_online g)) = ids g.
Proof. unfold on_online. repeat case_match; simpl; by rewrite ?set_online_ids. Qed.

Lemma on_offline_ids g : ids (fst (on_offline g)) = ids g.
Proof. unfold on_offline. simpl. by rewrite !set_online_ids. Qed.

Lemma aiToggle_click_ids g st : ids (aiToggle_click g st).1.1 = ids g.
Proof. unfold aiToggle_click. ids_tac. Qed.

Lemma testAIConnection_resume_ids g r : ids (testAIConnection_resume g r).1 = ids g.
Proof. unfold testAIConnection_resume. destruct r; simpl; ids_tac. Qed.

(** ** The frame *)

(** A world with the same registered ids, the same [next_id] and the
    same handles keeps [handles_ok]. *)
Lemma handles_frame w w' :
  (forall id, is_Some (watches w' !! id) -> is_Some (watches w !! id)) ->
  (forall r, is_Some (recognizers w' !! r) -> is_Some (recognizers w !! r)) ->
  (forall id, is_Some (watches w !! id) -> is_Some (watches w' !! id)) ->
  (forall r, is_Some (recognizers w !! r) -> is_Some (recognizers w' !! r)) ->
  next_id w' = next_id w -> ids (glob w') = ids (glob w) ->
  handles_ok w -> handles_ok w'.
Proof.
  unfold handles_ok, ids. intros W1 R1 W2 R2 En E (H1 & H2 & H3 & H4). injection E as E1 E2.
  rewrite En, E1, E2. split_and!; intros; [by apply H1, W1 | by apply H2, R1 | by apply W2, H3 |
                                           by apply R2, H4].
Qed.

Lemma handles_set_glob g w : ids g = ids (glob w) -> handles_ok w -> handles_ok (set_glob g w).
Proof. intros E. apply handles_frame; auto. Qed.

(** Overwriting the value of a registered id keeps the registered ids. *)
Lemma is_Some_insert_same {A} (m : gmap nat A) i x j :
  is_Some (m !! i) -> is_Some (<[i := x]> m !! j) <-> is_Some (m !! j).
Proof. intros Hi. rewrite lookup_insert_is_Some'. split; [intros [<- | ?] |]; auto. Qed.

(** ** Start and stop *)

Lemma handles_startGPSTracking w : handles_ok w -> handles_ok (startGPSTracking w).
Proof.
  intros (H1 & H2 & H3 & H4). unfold startGPSTracking. split_and!; simpl.
  - intros id [<- | Hi]%lookup_insert_is_Some'; [lia | specialize (H1 id Hi); lia].
  - intros r Hr. specialize (H2 r Hr). lia.
  - intros id [= <-]. rewrite lookup_insert_eq. by eexists.
  - exact H4.
Qed.

Lemma handles_startStepDetection w env : handles_ok w -> handles_ok (startStepDetection w env).
Proof. intros H. unfold startStepDetection. destruct (motionGranted env); exact H. Qed.

Lemma handles_startVoiceMonitoring w env :
  handles_ok w -> handles_ok (fst (startVoiceMonitoring w env)).
Proof.
  intros Hw. unfold startVoiceMonitoring. destruct (speechAvailable env); [| exact Hw].
  destruct Hw as (H1 & H2 & H3 & H4). split_and!; simpl.
  - intros id Hi. specialize (H1 id Hi). lia.
  - intros r [<- | Hr]%lookup_insert_is_Some'; [lia | specialize (H2 r Hr); lia].
  - exact H3.
  - intros r [= <-]. rewrite lookup_insert_eq. by eexists.
Qed.

Lemma handles_updateTimer w now : handles_ok w -> handles_ok (fst (updateTimer w now)).
Proof.
  intros Hw. unfold updateTimer. destruct (isRunning (glob w)); [| exact Hw]. simpl.
  pose proof (updateUI_ids (glob w) now). destruct (updateUI (glob w) now).
  by apply handles_set_glob.
Qed.

Lemma handles_startRun_resume w pos env now :
  handles_ok w -> handles_ok (fst (startRun_resume w pos env now)).
Proof.
  intros Hw. destruct pos as [c |]; [| exact Hw]. unfold startRun_resume.
  pose proof (updateUI_ids (startRun_reset (glob w) c now) now) as E.
  destruct (updateUI _ now) as [g2 ui].
  pose proof (handles_startVoiceMonitoring _ env (handles_startStepDetection _ env
      (handles_startGPSTracking _ (handles_set_glob g2 w E Hw)))) as H1.
  destruct (startVoiceMonitoring _ env) as [w2 ve].
  pose proof (handles_updateTimer w2 now H1). by destruct (updateTimer w2 now).
Qed.

Lemma handles_saveRunHistory w now : handles_ok w -> handles_ok (saveRunHistory w now).
Proof. intros H. exact H. Qed.

Lemma handles_stopRun_teardown w : handles_ok w -> handles_ok (stopRun_teardown w).
Proof.
  intros (H1 & H2 & H3 & H4). unfold stopRun_teardown, stopVoiceMonitoring.
  repeat case_match; simplify_eq/=; split_and!; simpl; try done;
    intros j; rewrite ?lookup_delete_is_Some, ?lookup_insert_is_Some'; try naive_solver.
Qed.

Lemma handles_stopRun_begin w now : handles_ok w -> handles_ok (fst (stopRun_begin w now)).
Proof.
  intros Hw. unfold stopRun_begin. destruct (negb _); [exact Hw |].
  pose proof (handles_stopRun_teardown w Hw) as Ht.
  repeat case_match; exact Ht.
Qed.

(** ** The callbacks *)

Lemma handles_watch_callback cd w id c now :
  handles_ok w -> handles_ok (fst (watch_callback cd w id c now)).
Proof.
  intros Hw. unfold watch_callback. destruct (watches w !! id) as [lu |] eqn:E; [| exact Hw].
  assert (Hi : is_Some (watches w !! id)) by (by eexists).
  pose proof (onPosition_ids cd lu (glob w) c now) as Ei.
  destruct (onPosition cd lu _ c now) as [lu' [g' es]].
  apply (handles_frame w); simpl; auto; intros j; by rewrite (is_Some_insert_same _ _ _ _ Hi).
Qed.

Lemma handles_set_recognizers w r b :
  is_Some (recognizers w !! r) -> handles_ok w -> handles_ok (set_recognizers (<[r := b]> (recognizers w)) w).
Proof. intros Hi. apply handles_frame; simpl; auto; intros j; by rewrite (is_Some_insert_same _ _ _ _ Hi). Qed.

Lemma handles_restart_fire w starts : handles_ok w -> handles_ok (restart_fire w starts).
Proof.
  intros Hw. unfold restart_fire.
  destruct (voiceRecognition (glob w)) as [r |] eqn:Er; [| exact Hw].
  pose proof (proj2 (proj2 (proj2 Hw)) r Er) as Hi.
  repeat case_match; try exact Hw; by apply handles_set_recognizers.
Qed.

Lemma handles_rec_end w r :
  is_Some (recognizers w !! r) -> handles_ok w -> handles_ok (fst (rec_end w r)).
Proof. apply handles_set_recognizers. Qed.

Lemma handles_resume w k r now : handles_ok w -> handles_ok (fst (resume w k r now)).
Proof.
  intros Hw. destruct k; simpl; try exact Hw.
  by apply handles_set_glob; [apply testAIConnection_resume_ids |].
Qed.

Lemma handles_settle w p k o now : handles_ok w -> handles_ok (fst (settle w p k o now)).
Proof.
  intros Hw. unfold settle. destruct (aiCoach (glob w)); [| exact Hw].
  destruct (queryGemini_finish _ p o now). by apply handles_resume, handles_set_glob.
Qed.

Lemma handles_fire w t starts now : handles_ok w -> handles_ok (fst (fire w t starts now)).
Proof.
  destruct t; simpl; auto using handles_stopRun_begin, handles_updateTimer, handles_restart_fire.
Qed.

(** ** The page *)

Lemma handles_sys_step cd s e now : handles_ok (world s) -> handles_ok (world (sys_step cd s e now)).
Proof.
  intros Hw. destruct e; simpl; rewrite ?run_handler_world, ?post_world.
  - done.
  - destruct (starting s); [done |]. rewrite run_handler_world. by apply handles_startRun_resume.
  - by apply handles_stopRun_begin.
  - by apply handles_watch_callback.
  - done.
  - destruct (motionListener (world s)); [| done].
    pose proof (handleMotion_ids (glob (world s)) a now). destruct (handleMotion _ a now).
    rewrite run_handler_world. by apply handles_set_glob.
  - destruct (timers s !! i) as [[d t] |]; [| done]. rewrite run_handler_world. by apply handles_fire.
  - destruct (inflight s !! i) as [[p k] |]; [| done]. rewrite run_handler_world. by apply handles_settle.
  - destruct (started (world s) r); [| done].
    pose proof (onresult_ids (glob (world s)) transcript isFinal now). destruct (onresult _ _ _ _).
    rewrite run_handler_world. by apply handles_set_glob.
  - by destruct (started (world s) r); rewrite ?post_world.
  - destruct (started (world s) r) eqn:St; [| done]. rewrite run_handler_world.
    apply handles_rec_end; [| done]. unfold started in St. case_bool_decide; [by eexists | done].
  - pose proof (on_online_ids (glob (world s))). destruct (on_online _).
    rewrite run_handler_world. by apply handles_set_glob.
  - apply handles_set_glob; [by rewrite !set_online_ids | done].
  - pose proof (aiToggle_click_ids (glob (world s)) (store (world s))) as E.
    destruct (aiToggle_click _ _) as [[g' st'] es]. rewrite run_handler_world.
    apply (handles_frame (world s)); auto.
  - by destruct (_ && _).
  - destruct (manual s); [done |]. unfold manual_onresult.
    pose proof (processVoiceCommand_ids (glob (world s)) (toLowerCase transcript) now).
    destruct (processVoiceCommand _ _ _). rewrite run_handler_world. by apply handles_set_glob.
  - by destruct (manual s).
Qed.

Lemma init_app_ids st cfgKey online : ids (init_app st cfgKey online).1 = (None, None).
Proof.
  unfold init_app, initializeAI, testAIConnection, load_ai_preference.
  repeat case_match; simplify_eq/=; done.
Qed.

Lemma handles_init st cfgKey online : handles_ok (world (init_sys st cfgKey online)).
Proof.
  unfold init_sys. pose proof (init_app_ids st cfgKey online) as E.
  destruct (init_app st cfgKey online) as [g es]. rewrite post_world.
  injection E as E1 E2. split_and!; simpl; [intros ? [? Hx]; by rewrite lookup_empty in Hx ..
    | by rewrite E1 | by rewrite E2].
Qed.


(** ** A watch only while running *)

(** [watchId] is set only while a run is active. *)
Definition run_ok (g : Globals) : Prop :=
  forall id, watchId g = Some id -> isRunning g = true.

Lemma run_ok_frame g g' : ids g' = ids g -> sess g' = sess g -> run_ok g -> run_ok g'.
Proof.
  unfold ids, sess, run_ok. intros E1 E2 H id Hi.
  injection E1 as Ew _. injection E2 as Er _. rewrite Er. apply (H id). congruence.
Qed.

Lemma updateTimer_ids w now : ids (glob (fst (updateTimer w now))) = ids (glob w).
Proof.
  unfold updateTimer. destruct (isRunning (glob w)); [| done]. simpl.
  pose proof (updateUI_ids (glob w) now). by destruct (updateUI (glob w) now).
Qed.

Lemma settle_ids w p k o now : ids (glob (fst (settle w p k o now))) = ids (glob w).
Proof.
  unfold settle. destruct (aiCoach (glob w)); [| done].
  destruct (queryGemini_finish _ p o now). destruct k; simpl; try done.
  rewrite testAIConnection_resume_ids. done.
Qed.

Lemma stopRun_teardown_watchId w : watchId (glob (stopRun_teardown w)) = None.
Proof. unfold stopRun_teardown, stopVoiceMonitoring. repeat case_match; simplify_eq/=; done. Qed.

Lemma run_ok_stopRun_begin w now : run_ok (glob w) -> run_ok (glob (fst (stopRun_begin w now))).
Proof.
  intros H. unfold stopRun_begin. destruct (isRunning (glob w)) eqn:R; simpl; [| done].
  pose proof (stopRun_teardown_watchId w) as E.
  repeat case_match; simplify_eq/=; intros id; rewrite E; discriminate.
Qed.

Lemma run_ok_step cd s e now : run_ok (glob (world s)) -> run_ok (glob (world (sys_step cd s e now))).
Proof.
  intros H. destruct e; simpl; rewrite ?run_handler_world, ?post_world.
  - done.
  - destruct (starting s); [done |]. rewrite run_handler_world. destruct pos as [c |]; [| done].
    intros id _. apply startRun_resume_running.
  - by apply run_ok_stopRun_begin.
  - unfold watch_callback. destruct (watches (world s) !! id) as [lu |]; [| done].
    pose proof (onPosition_ids cd lu (glob (world s)) c now).
    pose proof (onPosition_sess cd lu (glob (world s)) c now).
    destruct (onPosition cd lu _ c now) as [lu' [g' es]]. by eapply run_ok_frame.
  - done.
  - destruct (motionListener (world s)); [| done].
    pose proof (handleMotion_ids (glob (world s)) a now). pose proof (handleMotion_sess (glob (world s)) a now).
    destruct (handleMotion _ a now). rewrite run_handler_world. by eapply run_ok_frame.
  - destruct (timers s !! i) as [[d t] |]; [| done]. rewrite run_handler_world.
    destruct t; simpl.
    + by apply run_ok_stopRun_begin.
    + by rewrite restart_fire_glob.
    + eapply run_ok_frame; [apply updateTimer_ids | apply updateTimer_sess | done].
  - destruct (inflight s !! i) as [[p k] |]; [| done]. rewrite run_handler_world.
    eapply run_ok_frame; [apply settle_ids | apply settle_sess | done].
  - destruct (started (world s) r); [| done].
    pose proof (onresult_ids (glob (world s)) transcript isFinal now).
    pose proof (onresult_sess (glob (world s)) transcript isFinal now).
    destruct (onresult _ _ _ _). rewrite run_handler_world. by eapply run_ok_frame.
  - by destruct (started (world s) r); rewrite ?post_world.
  - by destruct (started (world s) r); rewrite ?run_handler_world.
  - pose proof (on_online_ids (glob (world s))). pose proof (on_online_sess (glob (world s))).
    destruct (on_online _). rewrite run_handler_world. by eapply run_ok_frame.
  - eapply run_ok_frame; [| | exact H]; simpl; by rewrite ?set_online_ids, ?set_online_sess.
  - pose proof (aiToggle_click_ids (glob (world s)) (store (world s))).
    pose proof (aiToggle_click_sess (glob (world s)) (store (world s))).
    destruct (aiToggle_click _ _) as [[g' st'] es]. rewrite run_handler_world. by eapply run_ok_frame.
  - by destruct (_ && _).
  - destruct (manual s); [done |]. unfold manual_onresult.
    pose proof (processVoiceCommand_ids (glob (world s)) (toLowerCase transcript) now).
    pose proof (processVoiceCommand_sess (glob (world s)) (toLowerCase transcript) now).
    destruct (processVoiceCommand _ _ _). rewrite run_handler_world. by eapply run_ok_frame.
  - by destruct (manual s).
Qed.

Lemma run_ok_init st cfgKey online : run_ok (glob (world (init_sys st cfgKey online))).
Proof.
  unfold init_sys. pose proof (init_app_ids st cfgKey online) as E.
  destruct (init_app st cfgKey online) as [g es]. rewrite post_world. simpl.
  injection E as E1 _. intros id. by rewrite E1.
Qed.

(** ** Theorem *)

(** C32: in every reachable state, [watchId] and [voiceRecognition]
    are set only while a run is active, and then name a registered watch
    and a registered recognizer: [stopRun] clears the watch it stops and
    forgets the recognizer it stops ([watchId = null], line 429;
    [voiceRecognition = null], line 568), and [startRun] registers the
    objects it records. *)
Theorem reachable_handles (cd : Q -> Q -> Q -> Q -> Q) (s : Sys) :
  reachable cd s ->
  (forall id, watchId (glob (world s)) = Some id ->
     isRunning (glob (world s)) = true /\ is_Some (watches (world s) !! id)) /\
  (forall r, voiceRecognition (glob (world s)) = Some r ->
     isRunning (glob (world s)) = true /\ is_Some (recognizers (world s) !! r)).
Proof.
  intros Rs. assert (H : handles_ok (world s) /\ run_ok (glob (world s))).
  { induction Rs as [| s e now _ [IH1 IH2]];
      [split; [apply handles_init | apply run_ok_init] |
       split; [by apply handles_sys_step | by apply run_ok_step]]. }
  destruct H as [(_ & _ & H3 & H4) Hr]. pose proof (reachable_session_ok cd s Rs) as Hs.
  split; intros x Hx; split; [by apply (Hr x) | by apply H3 | | by apply H4].
  destruct (isRunning (glob (world s))) eqn:R; [done |]. rewrite (Hs R) in Hx. discriminate.
Qed.

Lemma reachable_handles_witness :
  let s := sys_run planar (init_sys (mkStorage [] None) None true) demo_events in
  reachable planar s /\ watchId (glob (world s)) = Some 0%nat /\
  voiceRecognition (glob (world s)) = Some 1%nat /\
  isRunning (glob (world s)) = true /\ is_Some (watches (world s) !! 0%nat) /\
  is_Some (recognizers (world s) !! 1%nat).
Proof.
  assert (R : reachable planar (sys_run planar (init_sys (mkStorage [] None) None true) demo_events)).
  { apply reachable_run, reach_init. simpl. lia. }
  assert (W : watchId (glob (world (sys_run planar (init_sys (mkStorage [] None) None true) demo_events)))
              = Some 0%nat) by (vm_compute; reflexivity).
  assert (V : voiceRecognition (glob (world (sys_run planar (init_sys (mkStorage [] None) None true) demo_events)))
              = Some 1%nat) by (vm_compute; reflexivity).
  destruct (reachable_handles planar _ R) as [H1 H2].
  destruct (H1 _ W) as [Hr Hw]. destruct (H2 _ V) as [_ Hv].
  split_and!; [exact R | exact W | exact V | exact Hr | exact Hw | exact Hv].
Defined.
