(* ===== verification/AIToggle.v ===== *)
(** * AIToggle: the assistant toggle button shows the assistant mode

    The toggle button is created "AI: ON" by [addAIToggleButton] and
    appended to the page at the end of it (line 184); every later
    assignment to [useAI] is followed by [updateAIToggleButton(useAI)] on
    that button: [initializeAI] (lines 125-126 and 132-133), the [catch]
    of [testAIConnection] (lines 204-205, at once offline, or when the
    answer fails), the button's click handler (lines 169-170) and the
    voice command "activate ai" (lines 702-703).  The only update that
    finds no button is the one of the saved preference "off" (line 181),
    and [initializeAI] overwrites both the mode and the button right after.

    In [EventLoop], the button is [ai_button] and each call
    [updateAIToggleButton(b)] is an effect [UpdateAIButton b] filed in
    order.  [effect_button es] is the last update of a handler's effects;
    a handler keeps the button right when the mode it leaves is that last
    update, or the mode it found when it makes none ([in_step]).  Every
    handler but the four above leaves the mode alone and updates nothing
    ([neutral]).  The theorem [reachable_ai_button] follows by induction
    on [reachable]. *)

From Stdlib Require Import String ZArith QArith Lia.
From stdpp Require Import base list gmap.
From S2P Require Import Prelude State Metrics Assistant Milestone Fusion Voice Session Recognition Setup EventLoop.

Local Open Scope string_scope.

(** The last [updateAIToggleButton] call among a handler's effects. *)
Fixpoint effect_button (es : list Effect) : option bool :=
  match es with
  | [] => None
  | UpdateAIButton b :: es' => Some (default b (effect_button es'))
  | _ :: es' => effect_button es'
  end.

(** A handler leaving [g'] and [es], run in mode [u], keeps the button in
    step with the mode. *)
Definition in_step (u : bool) (g' : Globals) (es : list Effect) : Prop :=
  useAI g' = default u (effect_button es).

(** A handler that neither changes the mode nor updates the button. *)
Definition neutral (g : Globals) (r : Globals * list Effect) : Prop :=
  useAI r.1 = useAI g /\ effect_button r.2 = None.

Definition wneutral (w : World) (r : World * list Effect) : Prop :=
  neutral (glob w) (glob r.1, r.2).

(** The page's button is there and shows the mode. *)
Definition button_ok (s : Sys) : Prop :=
  ai_button s = Some (button_of (useAI (glob (world s)))).

Create HintDb aibtn.

(** ** Filing effects *)

Lemma effect_button_app l1 l2 :
  effect_button (l1 ++ l2) =
  match effect_button l2 with Some b => Some b | None => effect_button l1 end.
Proof.
  induction l1 as [| e l1 IH]; simpl; [by destruct (effect_button l2) |].
  destruct e; rewrite ?IH; try done. by destruct (effect_button l2).
Qed.

Lemma post_ai_button s es :
  ai_button (post s es) =
  match effect_button es with
  | None => ai_button s
  | Some b => updateAIToggleButton (ai_button s) b
  end.
Proof.
  unfold post. revert s. induction es as [| e es IH]; intros s; [done |].
  simpl. rewrite IH. destruct e; simpl; try done.
  destruct (effect_button es); simpl; [| done]. by destruct (ai_button s).
Qed.

Lemma button_ok_run s w' es :
  button_ok s -> in_step (useAI (glob (world s))) (glob w') es -> button_ok (run_handler s (w', es)).
Proof.
  unfold button_ok, run_handler, in_step. intros H E.
  rewrite post_ai_button, post_world. simpl. rewrite E, H.
  by destruct (effect_button es).
Qed.

Lemma in_step_neutral w r : wneutral w r -> in_step (useAI (glob w)) (glob r.1) r.2.
Proof. intros [E1 E2]. unfold in_step. simpl in *. by rewrite E2, E1. Qed.

Lemma button_ok_neutral s r : button_ok s -> wneutral (world s) r -> button_ok (run_handler s r).
Proof. destruct r as [w' es]. intros H N. apply button_ok_run; [done |]. exact (in_step_neutral _ _ N). Qed.

Lemma button_ok_post s es : button_ok s -> effect_button es = None -> button_ok (post s es).
Proof.
  intros H E. rewrite post_run_handler. apply button_ok_neutral; [done |]. by split.
Qed.

(** ** Handlers that leave the mode and the button alone *)

Lemma checkAudioCues_neutral g now : neutral g (checkAudioCues g now).
Proof. unfold checkAudioCues, neutral. repeat case_match; simplify_eq/=; done. Qed.

Lemma updateUI_neutral g g' now : useAI g' = useAI g -> neutral g (updateUI g' now).
Proof.
  intros E. destruct (checkAudioCues_neutral g' now) as [E1 E2].
  split; [unfold updateUI; by rewrite E1 | exact E2].
Qed.

Ltac neutral_tac :=
  repeat case_match; simplify_eq/=;
  first [apply updateUI_neutral; reflexivity | split; reflexivity | idtac].

Lemma onPosition_neutral cd lu g c now : neutral g (onPosition cd lu g c now).2.
Proof. unfold onPosition. neutral_tac. Qed.

Lemma handleMotion_neutral g a now : neutral g (handleMotion g a now).
Proof. unfold handleMotion. neutral_tac. Qed.

Lemma startVoiceMonitoring_neutral w env : wneutral w (startVoiceMonitoring w env).
Proof. unfold startVoiceMonitoring, wneutral. neutral_tac. Qed.

Lemma updateTimer_neutral w now : wneutral w (updateTimer w now).
Proof.
  unfold updateTimer, wneutral. destruct (isRunning (glob w)); simpl; [| by split].
  destruct (updateUI_neutral (glob w) (glob w) now eq_refl) as [E1 E2].
  destruct (updateUI (glob w) now) as [g' es]. simpl in *.
  split; [done |]. cbn [snd]. by rewrite effect_button_app, E2.
Qed.

Lemma startRun_resume_neutral w pos env now : wneutral w (startRun_resume w pos env now).
Proof.
  unfold startRun_resume, wneutral. destruct pos as [c |]; [| by split].
  destruct (updateUI_neutral (glob w) (startRun_reset (glob w) c now) now eq_refl) as [U1 U2].
  destruct (updateUI _ now) as [g2 ui]. simpl in U1, U2.
  set (w1 := startStepDetection (startGPSTracking (set_glob g2 w)) env).
  assert (E1 : useAI (glob w1) = useAI (glob w)).
  { subst w1. unfold startStepDetection, startGPSTracking. by case_match. }
  destruct (startVoiceMonitoring_neutral w1 env) as [V1 V2].
  destruct (startVoiceMonitoring w1 env) as [w2 ve]. simpl in V1, V2.
  destruct (updateTimer_neutral w2 now) as [T1 T2].
  destruct (updateTimer w2 now) as [w3 te]. simpl in T1, T2.
  split; simpl; [congruence |]. by rewrite !effect_button_app, T2, V2, U2.
Qed.

Lemma stopRun_finish_neutral w time r now : wneutral w (stopRun_finish w time r now).
Proof. unfold stopRun_finish, saveRunHistory, wneutral. by split. Qed.

Lemma stopRun_teardown_useAI w : useAI (glob (stopRun_teardown w)) = useAI (glob w).
Proof. unfold stopRun_teardown, stopVoiceMonitoring. repeat case_match; simplify_eq/=; done. Qed.

Lemma stopRun_begin_neutral w now : wneutral w (stopRun_begin w now).
Proof.
  unfold stopRun_begin. destruct (isRunning (glob w)); simpl; [| by split].
  pose proof (stopRun_teardown_useAI w) as E.
  repeat case_match; simplify_eq/=;
    first [destruct (stopRun_finish_neutral (stopRun_teardown w) _ _ now) as [F1 F2]; split; congruence
          | split; simpl; [exact E | done]].
Qed.

Lemma watch_callback_neutral cd w id c now : wneutral w (watch_callback cd w id c now).
Proof.
  unfold watch_callback, wneutral. destruct (watches w !! id) as [lu |]; [| by split].
  pose proof (onPosition_neutral cd lu (glob w) c now) as N.
  destruct (onPosition cd lu (glob w) c now) as [lu' [g' es]]. exact N.
Qed.

Lemma fire_neutral w t starts now : wneutral w (fire w t starts now).
Proof.
  destruct t; simpl; [apply stopRun_begin_neutral | | apply updateTimer_neutral].
  split; [| done]. unfold restart_fire. simpl. by repeat case_match.
Qed.

Lemma rec_end_neutral w r : wneutral w (rec_end w r).
Proof. unfold rec_end, rec_onend, wneutral. split; [done |]. by case_match. Qed.

Lemma rec_onerror_button g err : effect_button (rec_onerror g err) = None.
Proof. unfold rec_onerror. simpl. by case_match. Qed.

Lemma watch_error_button w id : effect_button (watch_error w id) = None.
Proof. unfold watch_error. by repeat case_match. Qed.

Lemma set_online_useAI b g : useAI (set_online b g) = useAI g.
Proof. unfold set_online. by case_match. Qed.

Lemma on_online_neutral g : neutral g (on_online g).
Proof. unfold on_online. repeat case_match; split; simpl; rewrite ?set_online_useAI; done. Qed.

Lemma on_offline_neutral g : neutral g (on_offline g).
Proof. unfold on_offline. split; simpl; rewrite ?set_online_useAI; [done |]. by case_match. Qed.

Lemma startManualVoiceCommand_button g avail : effect_button (startManualVoiceCommand g avail) = None.
Proof. unfold startManualVoiceCommand. by repeat case_match. Qed.

(** ** Handlers that switch the mode, and update the button to match *)

Lemma testAIConnection_resume_step g r :
  in_step (useAI g) (testAIConnection_resume g r).1 (testAIConnection_resume g r).2.
Proof. unfold testAIConnection_resume, in_step. by destruct r. Qed.

Lemma resume_step w k r now : in_step (useAI (glob w)) (glob (resume w k r now).1) (resume w k r now).2.
Proof.
  destruct k; simpl.
  - unfold milestone_resume, in_step. by case_match.
  - unfold command_resume, in_step. case_match; [done |].
    rewrite effect_button_app. unfold speak_nonempty, stop_schedule. by repeat case_match.
  - done.
  - apply testAIConnection_resume_step.
Qed.

Lemma settle_step w p k o now :
  in_step (useAI (glob w)) (glob (settle w p k o now).1) (settle w p k o now).2.
Proof.
  unfold settle. destruct (aiCoach (glob w)); [| done].
  destruct (queryGemini_finish _ p o now) as [c' r]. exact (resume_step (set_glob (set_aiCoach (Some c') (glob w)) w) k r now).
Qed.

Lemma handleBasicCommand_step g c now :
  in_step (useAI g) (handleBasicCommand g c now).1.1 (handleBasicCommand g c now).1.2.
Proof. unfold handleBasicCommand, in_step. by repeat case_match; simplify_eq/=. Qed.

Lemma processVoiceCommand_step g c now :
  in_step (useAI g) (processVoiceCommand g c now).1 (processVoiceCommand g c now).2.
Proof.
  unfold processVoiceCommand. destruct (_ <? _)%nat; [done |].
  destruct (routes_to_ai g c).
  - destruct (coach_precheck g); [| done]. unfold command_resume, in_step. done.
  - pose proof (handleBasicCommand_step g c now) as H.
    destruct (handleBasicCommand g c now) as [[g1 es] r]. unfold in_step in *. simpl in *.
    rewrite !effect_button_app. unfold speak_nonempty, stop_schedule. by repeat case_match.
Qed.

Lemma onresult_step g t f now : in_step (useAI g) (onresult g t f now).1 (onresult g t f now).2.
Proof. unfold onresult. repeat case_match; try done. apply processVoiceCommand_step. Qed.

Lemma aiToggle_click_step g st : in_step (useAI g) (aiToggle_click g st).1.1 (aiToggle_click g st).2.
Proof. unfold aiToggle_click, in_step. by case_match. Qed.

(** [initializeAI] always ends with a button update showing the mode it
    leaves. *)
Lemma initializeAI_button g k o :
  effect_button (initializeAI g k o).2 = Some (useAI (initializeAI g k o).1).
Proof. unfold initializeAI, testAIConnection. by repeat case_match; simplify_eq/=. Qed.

(** ** The page *)

Lemma button_ok_set s w : button_ok s -> useAI (glob w) = useAI (glob (world s)) ->
  forall tm inf st sd m, button_ok (mkSys w tm inf st sd m (ai_button s)).
Proof. unfold button_ok. simpl. intros H E *. by rewrite E. Qed.

Lemma button_ok_step cd s e now : button_ok s -> button_ok (sys_step cd s e now).
Proof.
  intros H. destruct e; simpl.
  - by apply button_ok_set.
  - destruct (starting s); [done |]. apply button_ok_neutral; [by apply button_ok_set |].
    apply startRun_resume_neutral.
  - apply button_ok_neutral; [done | apply stopRun_begin_neutral].
  - apply button_ok_neutral; [done | apply watch_callback_neutral].
  - apply button_ok_post; [done | apply watch_error_button].
  - destruct (motionListener (world s)); [| done].
    pose proof (handleMotion_neutral (glob (world s)) a now) as N.
    destruct (handleMotion _ a now) as [g' es]. by apply button_ok_neutral.
  - destruct (timers s !! i) as [[d t] |]; [| done].
    apply button_ok_neutral; [by apply button_ok_set | apply fire_neutral].
  - destruct (inflight s !! i) as [[p k] |]; [| done].
    pose proof (settle_step (world s) p k o now) as N.
    destruct (settle (world s) p k o now) as [w' es].
    apply button_ok_run; [by apply button_ok_set | exact N].
  - destruct (started (world s) r); [| done].
    pose proof (onresult_step (glob (world s)) transcript isFinal now) as N.
    destruct (onresult _ _ _ _) as [g' es]. by apply button_ok_run.
  - destruct (started (world s) r); [| done]. apply button_ok_post; [done |]. unfold rec_onerror. simpl. by case_match.
  - destruct (started (world s) r); [| done]. apply button_ok_neutral; [done | apply rec_end_neutral].
  - pose proof (on_online_neutral (glob (world s))) as N.
    destruct (on_online _) as [g' es]. by apply button_ok_neutral.
  - apply button_ok_neutral; [done |]. split; simpl; rewrite ?set_online_useAI; [done | by case_match].
  - pose proof (aiToggle_click_step (glob (world s)) (store (world s))) as N.
    destruct (aiToggle_click _ _) as [[g' st'] es]. by apply button_ok_run.
  - apply button_ok_post; [| apply startManualVoiceCommand_button].
    destruct (_ && _); [by apply button_ok_set | done].
  - destruct (manual s); [done |]. unfold manual_onresult.
    pose proof (processVoiceCommand_step (glob (world s)) (toLowerCase transcript) now) as N.
    destruct (processVoiceCommand _ _ _) as [g' es].
    apply button_ok_run; [by apply button_ok_set | exact N].
  - destruct (manual s); [done |]. exact H.
Qed.

Lemma button_ok_init st k o : button_ok (init_sys st k o).
Proof.
  unfold init_sys, init_app, button_ok.
  pose proof (initializeAI_button (load_ai_preference initialGlobals st) k o) as B.
  destruct (initializeAI _ k o) as [g es]. simpl in B.
  rewrite post_ai_button, post_world, B. simpl.
  unfold addAIToggleButton. by repeat case_match.
Qed.

(** ** Theorem *)

(** C24: in every state the page reaches from start-up, by any sequence
    of events, the assistant toggle button is in the page and shows the
    assistant mode: "AI: ON" with its green background and glow exactly
    when [useAI] is on, "AI: OFF" in grey otherwise.  This holds whatever
    the saved preference, the key and the network at load, and through
    the toggle button, the voice command, and a failed connection test. *)
Theorem reachable_ai_button cd s :
  reachable cd s -> ai_button s = Some (button_of (useAI (glob (world s)))).
Proof. induction 1; [apply button_ok_init | by apply button_ok_step]. Qed.

(** ** Witness *)

(** Loaded offline with a valid key and the saved preference "off", the
    page shows "AI: OFF"; a press of the button turns the mode on and the
    button to "AI: ON". *)
Definition toggle_events : list (Event * Z) := [(EvAIToggle, 0%Z)].

Lemma reachable_ai_button_witness :
  let s0 := init_sys (mkStorage [] (Some "off")) (Some "AIzaSyExample123") false in
  let s := sys_run planar s0 toggle_events in
  reachable planar s0 /\ ai_button s0 = Some (button_of false) /\
  reachable planar s /\ ai_button s = Some (button_of true).
Proof.
  assert (R0 : reachable planar (init_sys (mkStorage [] (Some "off")) (Some "AIzaSyExample123") false))
    by (apply reach_init; simpl; lia).
  assert (R : reachable planar (sys_run planar (init_sys (mkStorage [] (Some "off")) (Some "AIzaSyExample123") false)
                                  toggle_events)) by (apply reachable_run, R0).
  split; [exact R0 |]. split; [rewrite (reachable_ai_button planar _ R0); reflexivity |].
  split; [exact R |]. rewrite (reachable_ai_button planar _ R). reflexivity.
Defined.
