(* ===== verification/ServiceWorker.v ===== *)
(** * ServiceWorker: the offline cache of src/sw.js

    The worker keeps the application shell in the cache [CACHE_NAME] and
    serves requests cache-first.  [CacheStorage] is a list of named caches
    in creation order ([caches.match] searches them in that order), each a
    map from request URL to response ([gmap string Response]).  Requests
    are keyed by their absolute URL; [resolve scope p] is the URL of a path
    [p] relative to the worker's scope.

    - [install] (lines 12-23): [caches.open(CACHE_NAME)] (which creates the
      cache) then [cache.addAll(urlsToCache)], which fetches every URL and
      stores all of them, or none when one fetch fails or answers with a
      status outside 200-299; the network is an input ([net]).
    - [activate] (lines 26-42): deletes every cache whose name is not
      [CACHE_NAME].
    - [fetch_handler] (lines 45-92): non-GET requests and
      [chrome-extension://] URLs are left to the browser; otherwise a cached
      response is returned; else the network is asked ([NetResult]); a
      response with status 200 and type ["basic"] is returned and a copy
      is stored by a [cache.put] that is not awaited ([put_settle] runs it
      later); any other response is returned as is; a network failure
      answers the cached [./index.html] for requests that accept
      [text/html], and [undefined] otherwise.  [headers.get("accept")]
      is [null] when the request has no [Accept] header, and calling
      [.includes] on it throws inside the [catch] block.
    - The [sync] listener (lines 95-104) only logs; it is not modelled. *)

From Stdlib Require Import String ZArith List.
From stdpp Require Import base list gmap strings.
From S2P Require Import Prelude.

Local Open Scope string_scope.

Definition CACHE_NAME : string := "runflow-v1.0".

Definition urlsToCache : list string :=
  ["./"; "./index.html"; "./style.css"; "./app.js"; "./manifest.json"].

Record Response := mkResponse {
  status : Z;
  rtype : string;      (** [response.type]: "basic", "cors", "opaque", ... *)
  body : string
}.

Record Request := mkRequest {
  method : string;
  url : string;
  accept : option string   (** [request.headers.get("accept")] *)
}.

(** The absolute URL of a path relative to the worker's scope. *)
Definition resolve (scope p : string) : string :=
  if String.prefix "./" p then scope ++ String.substring 2 (String.length p - 2) p else p.

(** ** CacheStorage *)

Definition cache_names (cs : list (string * gmap string Response)) : list string := map fst cs.

(** [caches.open(name)]: the cache is created, empty, when it is missing. *)
Definition caches_open (name : string) (cs : list (string * gmap string Response))
    : list (string * gmap string Response) :=
  if existsb (fun c => String.eqb c.1 name) cs then cs else cs ++ [(name, ∅)].

(** [cache.put(url, response)] on the cache [name], opened first. *)
Definition cache_put (name key : string) (r : Response) (cs : list (string * gmap string Response))
    : list (string * gmap string Response) :=
  map (fun c => if String.eqb c.1 name then (c.1, <[key := r]> c.2) else c) (caches_open name cs).

(** [caches.match(url)]: the first cache, in creation order, holding it. *)
Fixpoint caches_match (cs : list (string * gmap string Response)) (key : string) : option Response :=
  match cs with
  | [] => None
  | (_, c) :: cs' => match c !! key with Some r => Some r | None => caches_match cs' key end
  end.

(** [caches.delete(name)]. *)
Definition caches_delete (name : string) (cs : list (string * gmap string Response))
    : list (string * gmap string Response) :=
  List.filter (fun c => negb (String.eqb c.1 name)) cs.

(** ** Install *)

(** [response.ok] *)
Definition ok (r : Response) : bool := (200 <=? status r)%Z && (status r <? 300)%Z.

(** The fetches of [cache.addAll]: all responses, or [None] as soon as one
    fails or is not ok. *)
Fixpoint fetch_all (net : string -> option Response) (urls : list string)
    : option (list (string * Response)) :=
  match urls with
  | [] => Some []
  | u :: us =>
      match net u with
      | Some r => if ok r then option_map (cons (u, r)) (fetch_all net us) else None
      | None => None
      end
  end.

(** The [install] handler: the new CacheStorage and whether [waitUntil]'s
    promise resolved. *)
Definition install (scope : string) (net : string -> option Response)
    (cs : list (string * gmap string Response)) : list (string * gmap string Response) * bool :=
  let cs1 := caches_open CACHE_NAME cs in
  match fetch_all net (map (resolve scope) urlsToCache) with
  | Some rs => (fold_left (fun cs ur => cache_put CACHE_NAME ur.1 ur.2 cs) rs cs1, true)
  | None => (cs1, false)
  end.

(** ** Activate *)

(** [caches.keys()], then [caches.delete(cache)] for each name other than
    [CACHE_NAME]. *)
Definition activate (cs : list (string * gmap string Response)) : list (string * gmap string Response) :=
  fold_left (fun cs name => if String.eqb name CACHE_NAME then cs else caches_delete name cs)
    (cache_names cs) cs.

(** ** Fetch *)

Inductive NetResult :=
| NetError                     (** [fetch] rejects *)
| NetResponse (r : Response).  (** [fetch] resolves *)

Inductive FetchResult :=
| NotHandled                   (** the listener returns without [respondWith] *)
| Responded (r : Response)     (** [respondWith] gets a response *)
| RespondedUndefined           (** [respondWith]'s promise resolves to [undefined] *)
| Rejected.                    (** [respondWith]'s promise rejects (a [TypeError]) *)

(** The [fetch] listener: its result and the [cache.put] it leaves running. *)
Definition fetch_handler (scope : string) (cs : list (string * gmap string Response))
    (req : Request) (net : NetResult) : FetchResult * option (string * Response) :=
  if negb (String.eqb (method req) "GET") then (NotHandled, None)
  else if String.prefix "chrome-extension://" (url req) then (NotHandled, None)
  else
    match caches_match cs (url req) with
    | Some r => (Responded r, None)
    | None =>
        match net with
        | NetResponse r =>
            if negb (Z.eqb (status r) 200) || negb (String.eqb (rtype r) "basic")
            then (Responded r, None)
            else (Responded r, Some (url req, r))
        | NetError =>
            match accept req with
            | None => (Rejected, None)
            | Some a =>
                if includes a "text/html" then
                  match caches_match cs (resolve scope "./index.html") with
                  | Some r => (Responded r, None)
                  | None => (RespondedUndefined, None)
                  end
                else (RespondedUndefined, None)
            end
        end
    end.

(** The [cache.put] of a fetch, once [caches.open] has resolved. *)
Definition put_settle (cs : list (string * gmap string Response)) (p : option (string * Response))
    : list (string * gmap string Response) :=
  match p with
  | Some (u, r) => cache_put CACHE_NAME u r cs
  | None => cs
  end.

(** ** Lemmas *)

(** The cache [name] of a CacheStorage: the first one of that name. *)
Definition cache_of (name : string) (cs : list (string * gmap string Response))
    : option (gmap string Response) :=
  option_map snd (List.find (fun c => String.eqb c.1 name) cs).

Lemma caches_match_None cs key :
  caches_match cs key = None <-> Forall (fun c => c.2 !! key = None) cs.
Proof.
  induction cs as [| [n c] cs IH]; simpl; [split; constructor |].
  destruct (c !! key) eqn:E; split; intros H.
  - done.
  - inversion H as [| ? ? Hc]. simpl in Hc. congruence.
  - constructor; [done | by apply IH].
  - apply IH. by inversion H.
Qed.

Lemma existsb_name_open name cs : existsb (fun c => String.eqb c.1 name) (caches_open name cs) = true.
Proof.
  unfold caches_open. destruct (existsb _ cs) eqn:E; [done |].
  rewrite existsb_app. simpl. rewrite String.eqb_refl. by rewrite orb_true_r.
Qed.

Lemma caches_match_open name cs key : caches_match (caches_open name cs) key = caches_match cs key.
Proof.
  unfold caches_open. destruct (existsb _ cs); [done |].
  induction cs as [| [n c] cs IH]; simpl; [by rewrite lookup_empty |].
  by destruct (c !! key).
Qed.

(** Storing [r] under [key] in a cache of a storage that did not hold [key]
    makes [caches.match] find [r]. *)
Lemma caches_match_map_put name key r cs :
  caches_match cs key = None -> existsb (fun c => String.eqb c.1 name) cs = true ->
  caches_match (map (fun c => if String.eqb c.1 name then (c.1, <[key := r]> c.2) else c) cs) key
  = Some r.
Proof.
  induction cs as [| [n c] cs IH]; simpl; [done |].
  intros Hm He. destruct (String.eqb n name) eqn:En; simpl.
  - by rewrite lookup_insert_eq.
  - destruct (c !! key); [done |]. by apply IH.
Qed.

Lemma caches_match_put key r cs :
  caches_match cs key = None -> caches_match (cache_put CACHE_NAME key r cs) key = Some r.
Proof.
  intros H. unfold cache_put. apply caches_match_map_put; [by rewrite caches_match_open |].
  apply existsb_name_open.
Qed.

(** The names of a storage after [activate]: the deletions of all other
    names amount to keeping the caches named [CACHE_NAME]. *)
Lemma fold_delete ns cs :
  fold_left (fun cs name => if String.eqb name CACHE_NAME then cs else caches_delete name cs) ns cs =
  List.filter (fun c => String.eqb c.1 CACHE_NAME || negb (existsb (String.eqb c.1) ns)) cs.
Proof.
  revert cs. induction ns as [| n ns IH]; intros cs; simpl.
  - induction cs as [| c cs IHc]; simpl; [done |]. rewrite orb_true_r. by f_equal.
  - rewrite IH. destruct (String.eqb n CACHE_NAME) eqn:En.
    + apply String.eqb_eq in En. subst n. induction cs as [| [m c] cs IHc]; simpl; [done |].
      destruct (String.eqb m CACHE_NAME) eqn:Em; simpl; [by f_equal |].
      by destruct (negb (existsb (String.eqb m) ns)); [f_equal |].
    + unfold caches_delete. induction cs as [| [m c] cs IHc]; simpl; [done |].
      destruct (String.eqb m n) eqn:Emn; simpl.
      * apply String.eqb_eq in Emn. subst m. rewrite En. simpl. exact IHc.
      * by destruct (String.eqb m CACHE_NAME || negb (existsb (String.eqb m) ns)); [f_equal |].
Qed.

Lemma existsb_name_In (cs : list (string * gmap string Response)) c :
  In c cs -> existsb (String.eqb c.1) (cache_names cs) = true.
Proof.
  induction cs as [| c' cs IH]; simpl; [done |]. intros [-> | H].
  - by rewrite String.eqb_refl.
  - rewrite IH by done. apply orb_true_r.
Qed.

Lemma filter_ext_in_list {A} (f g : A -> bool) (l : list A) :
  (forall x, In x l -> f x = g x) -> List.filter f l = List.filter g l.
Proof.
  induction l as [| x l IH]; simpl; intros H; [done |].
  rewrite (H x (or_introl eq_refl)), IH by (intros; apply H; by right). done.
Qed.

(** [find] through a map that keeps the tested name. *)
Lemma find_map_name name (f : string * gmap string Response -> string * gmap string Response) cs :
  (forall c, (f c).1 = c.1) ->
  List.find (fun c => String.eqb c.1 name) (map f cs) =
  option_map f (List.find (fun c => String.eqb c.1 name) cs).
Proof.
  intros Hf. induction cs as [| c cs IH]; simpl; [done |]. rewrite Hf.
  by destruct (String.eqb c.1 name).
Qed.

Lemma find_open name cs :
  exists c, List.find (fun c => String.eqb c.1 name) (caches_open name cs) = Some c.
Proof.
  pose proof (existsb_name_open name cs) as E.
  induction (caches_open name cs) as [| c l IH]; simpl in *; [done |].
  destruct (String.eqb c.1 name); [by eexists | by apply IH].
Qed.

(** The cache [CACHE_NAME] after a [cache.put] into it. *)
Lemma cache_of_put key r cs :
  exists c0, cache_of CACHE_NAME (cache_put CACHE_NAME key r cs) = Some (<[key := r]> c0) /\
             (forall c, cache_of CACHE_NAME cs = Some c -> c0 = c).
Proof.
  unfold cache_of, cache_put. rewrite find_map_name by (intros c; by destruct (String.eqb c.1 _)).
  destruct (find_open CACHE_NAME cs) as [[n c] Hf]. rewrite Hf. simpl.
  pose proof (List.find_some _ _ Hf) as [_ En]. simpl in En. rewrite En.
  exists c. split; [done |]. intros c' Hc.
  unfold caches_open in Hf. destruct (existsb _ cs) eqn:Ex.
  - rewrite Hf in Hc. by injection Hc.
  - exfalso. destruct (List.find _ cs) as [[n' c''] |] eqn:Hf'; [| done].
    pose proof (List.find_some _ _ Hf') as [Hin Hn]. simpl in Hn.
    assert (existsb (fun c => String.eqb c.1 CACHE_NAME) cs = true) by (apply existsb_exists; by exists (n', c'')).
    congruence.
Qed.

(** [cache.addAll]'s fetches, when they all succeed. *)
Lemma fetch_all_Some net us rs :
  fetch_all net us = Some rs ->
  map fst rs = us /\ Forall (fun ur => net ur.1 = Some ur.2 /\ ok ur.2 = true) rs.
Proof.
  revert rs. induction us as [| u us IH]; simpl; intros rs H; [by injection H as <- |].
  destruct (net u) as [r |] eqn:N; [| done]. destruct (ok r) eqn:O; [| done].
  destruct (fetch_all net us) as [rs' |]; [| done]. injection H as <-.
  destruct (IH rs' eq_refl) as [H1 H2]. simpl. rewrite H1. split; [done | by constructor].
Qed.

Lemma fetch_all_ok net us :
  is_Some (fetch_all net us) <-> Forall (fun u => exists r, net u = Some r /\ ok r = true) us.
Proof.
  induction us as [| u us IH]; simpl; [split; [constructor | by eexists] |].
  rewrite Forall_cons. destruct (net u) as [r |] eqn:N.
  - destruct (ok r) eqn:O.
    + rewrite <- IH. destruct (fetch_all net us); simpl; split.
      * intros _. split; [by exists r | by eexists].
      * by eexists.
      * by intros [].
      * intros [_ [? [=]]].
    + split; [by intros [? [=]] | intros [[r' [[= <-] ?]] _]; congruence].
  - split; [by intros [? [=]] | by intros [[r' [[=] _]] _]].
Qed.

(** The puts of a successful [addAll] store, for every URL fetched, the
    response the network gave. *)
Lemma fold_puts net rs cs (K : list string) :
  Forall (fun ur => net ur.1 = Some ur.2) rs ->
  (exists c, cache_of CACHE_NAME cs = Some c /\ Forall (fun k => c !! k = net k) K) ->
  exists c, cache_of CACHE_NAME (fold_left (fun cs ur => cache_put CACHE_NAME ur.1 ur.2 cs) rs cs) = Some c /\
            Forall (fun k => c !! k = net k) (K ++ map fst rs).
Proof.
  revert cs K. induction rs as [| ur rs IH] using rev_ind; intros cs K Hrs Hc.
  - simpl. by rewrite app_nil_r.
  - apply Forall_app in Hrs as [Hrs Hu]. inversion Hu as [| ? ? Hu1 _]. simpl in Hu1.
    rewrite fold_left_app. simpl.
    destruct (IH cs K Hrs Hc) as (c & Hc1 & HK).
    destruct (cache_of_put ur.1 ur.2 (fold_left (fun cs ur => cache_put CACHE_NAME ur.1 ur.2 cs) rs cs))
      as (c0 & E & Hc0).
    rewrite (Hc0 c Hc1) in E. exists (<[ur.1 := ur.2]> c). split; [exact E |].
    rewrite map_app, app_assoc. apply Forall_app. split.
    + apply Forall_forall. intros k Hk. rewrite lookup_insert.
      case_decide; [subst; by rewrite Hu1 | by apply (proj1 (Forall_forall _ _) HK)].
    + constructor; [by rewrite lookup_insert_eq | constructor].
Qed.

(** The two early returns of the [fetch] listener passed. *)
Definition handled (req : Request) : Prop :=
  method req = "GET" /\ String.prefix "chrome-extension://" (url req) = false.

(** Cache first: a request found by [caches.match] is answered from the
    cache whatever the network does, and nothing is stored. *)
Lemma fetch_handler_hit scope cs req net r :
  handled req -> caches_match cs (url req) = Some r ->
  fetch_handler scope cs req net = (Responded r, None).
Proof. intros [Hm Hp] Hc. unfold fetch_handler. by rewrite Hm, Hp, Hc. Qed.

Lemma fetch_handler_miss scope cs req net :
  handled req -> caches_match cs (url req) = None ->
  fetch_handler scope cs req net =
    match net with
    | NetResponse r =>
        if negb (Z.eqb (status r) 200) || negb (String.eqb (rtype r) "basic")
        then (Responded r, None) else (Responded r, Some (url req, r))
    | NetError =>
        match accept req with
        | None => (Rejected, None)
        | Some a =>
            if includes a "text/html" then
              match caches_match cs (resolve scope "./index.html") with
              | Some r => (Responded r, None)
              | None => (RespondedUndefined, None)
              end
            else (RespondedUndefined, None)
        end
    end.
Proof. intros [Hm Hp] Hc. unfold fetch_handler. by rewrite Hm, Hp, Hc. Qed.


(** ** Theorems *)

(** C11: installing succeeds exactly when every shell URL is fetched with
    an ok status, and then the cache [CACHE_NAME] holds, for every shell
    URL, the response the network gave. *)
Theorem install_shell scope net cs :
  ((install scope net cs).2 = true <->
     Forall (fun u => exists r, net (resolve scope u) = Some r /\ ok r = true) urlsToCache) /\
  ((install scope net cs).2 = true ->
     exists c, cache_of CACHE_NAME (install scope net cs).1 = Some c /\
               Forall (fun u => c !! resolve scope u = net (resolve scope u)) urlsToCache).
Proof.
  pose proof (fetch_all_ok net (map (resolve scope) urlsToCache)) as Hok.
  rewrite Forall_map in Hok. unfold install.
  destruct (fetch_all net _) as [rs |] eqn:F; simpl.
  - split; [split; [intros _; apply Hok; by eexists | done] |]. intros _.
    destruct (fetch_all_Some _ _ _ F) as [Hfst Hrs].
    destruct (find_open CACHE_NAME cs) as [c Hc].
    destruct (fold_puts net rs (caches_open CACHE_NAME cs) [])
      as (c' & E & Hc'); [by eapply Forall_impl; [exact Hrs | intros ? []] |
                          exists c.2; split; [unfold cache_of; by rewrite Hc | constructor] |].
    exists c'. split; [done |]. by rewrite app_nil_l, Hfst, Forall_map in Hc'.
  - split; [split; [done | intros H; apply Hok in H as [? [=]]] | done].
Qed.

(** C16: activating keeps exactly the caches named [CACHE_NAME], in their
    order: deleting every other name found by [caches.keys()] is a filter. *)
Theorem activate_current cs :
  activate cs = List.filter (fun c => String.eqb c.1 CACHE_NAME) cs.
Proof.
  unfold activate. rewrite fold_delete. apply filter_ext_in_list.
  intros c Hc. rewrite (existsb_name_In cs c Hc). apply orb_false_r.
Qed.

(** C25: a miss answered by the network with a 200 ["basic"] response is
    returned and stored; once the [cache.put] has run, the same request is
    answered with that response from the cache, whatever the network does. *)
Theorem fetch_put_roundtrip scope cs req r net :
  handled req -> caches_match cs (url req) = None ->
  status r = 200%Z -> rtype r = "basic" ->
  fetch_handler scope cs req (NetResponse r) = (Responded r, Some (url req, r)) /\
  fetch_handler scope (put_settle cs (Some (url req, r))) req net = (Responded r, None).
Proof.
  intros Hh Hc Hs Ht. split.
  - rewrite fetch_handler_miss by done. by rewrite Hs, Ht.
  - apply fetch_handler_hit; [done |]. by apply caches_match_put.
Qed.

(** What a [cache.put] left running by the [fetch] listener is made of. *)
Lemma fetch_handler_put_cases scope cs req net u r :
  (fetch_handler scope cs req net).2 = Some (u, r) ->
  handled req /\ caches_match cs (url req) = None /\ u = url req /\ net = NetResponse r /\
  status r = 200%Z /\ rtype r = "basic".
Proof.
  unfold fetch_handler.
  destruct (String.eqb (method req) "GET") eqn:Hm; [| done].
  destruct (String.prefix _ (url req)) eqn:Hp; [done |].
  destruct (caches_match cs (url req)) as [r' |]; [done |].
  destruct net as [| r']; [by repeat case_match |]. simpl.
  destruct (Z.eqb_spec (status r') 200), (String.eqb_spec (rtype r') "basic"); simpl; [| done..].
  intros [= <- <-]. apply String.eqb_eq in Hm. by repeat split.
Qed.

(** C33: the [fetch] listener stores only what it fetched itself: a
    [cache.put] is left running only for a handled GET request that missed
    every cache, keyed by its URL, with the network's own response, of
    status 200 and type ["basic"], which is also the answer. *)
Theorem fetch_put_only_ok scope cs req net u r :
  (fetch_handler scope cs req net).2 = Some (u, r) ->
  handled req /\ caches_match cs (url req) = None /\ u = url req /\ net = NetResponse r /\
  status r = 200%Z /\ rtype r = "basic" /\ (fetch_handler scope cs req net).1 = Responded r.
Proof.
  intros H. destruct (fetch_handler_put_cases _ _ _ _ _ _ H) as (Hh & Hc & -> & -> & Hs & Ht).
  split_and!; try done. rewrite fetch_handler_miss by done. by rewrite Hs, Ht.
Qed.

(** C35: offline, a request that missed the caches stores nothing and gets
    no response but the cached [./index.html], only when its [Accept] header
    mentions [text/html]; without an [Accept] header the listener's [catch]
    throws and the response is rejected. *)
Theorem fetch_offline scope cs req :
  handled req -> caches_match cs (url req) = None ->
  (fetch_handler scope cs req NetError).2 = None /\
  (accept req = None -> (fetch_handler scope cs req NetError).1 = Rejected) /\
  (forall r, (fetch_handler scope cs req NetError).1 = Responded r ->
     caches_match cs (resolve scope "./index.html") = Some r /\
     exists a, accept req = Some a /\ includes a "text/html" = true).
Proof.
  intros Hh Hc. rewrite fetch_handler_miss by done.
  destruct (accept req) as [a |]; [| by split_and!].
  destruct (includes a "text/html") eqn:Ha; [| by split_and!].
  destruct (caches_match cs (resolve scope "./index.html")); split_and!; try done.
  intros r' [= <-]. split; [done | by exists a].
Qed.

(** ** Witnesses *)

Definition demo_scope : string := "https://runflow.app/".

(** A network answering every URL with a same-origin 200 response. *)
Definition demo_net (u : string) : option Response := Some (mkResponse 200 "basic" u).

Definition demo_req : Request := mkRequest "GET" "https://runflow.app/icon.png" (Some "image/png").

Definition demo_page : Request :=
  mkRequest "GET" "https://runflow.app/history" (Some "text/html,application/xhtml+xml").

Lemma install_shell_witness :
  (install demo_scope demo_net []).2 = true /\
  exists c, cache_of CACHE_NAME (install demo_scope demo_net []).1 = Some c /\
            Forall (fun u => c !! resolve demo_scope u = demo_net (resolve demo_scope u)) urlsToCache.
Proof.
  assert (H : (install demo_scope demo_net []).2 = true) by (vm_compute; reflexivity).
  split; [exact H | exact (proj2 (install_shell demo_scope demo_net []) H)].
Defined.

Lemma fetch_put_roundtrip_witness :
  fetch_handler demo_scope [] demo_req (NetResponse (mkResponse 200 "basic" "png")) =
    (Responded (mkResponse 200 "basic" "png"), Some (url demo_req, mkResponse 200 "basic" "png")) /\
  fetch_handler demo_scope (put_settle [] (Some (url demo_req, mkResponse 200 "basic" "png")))
    demo_req NetError = (Responded (mkResponse 200 "basic" "png"), None).
Proof.
  apply (fetch_put_roundtrip demo_scope [] demo_req (mkResponse 200 "basic" "png") NetError);
    [split | ..]; reflexivity.
Defined.

Lemma fetch_put_only_ok_witness :
  handled demo_req /\ caches_match [] (url demo_req) = None /\ url demo_req = url demo_req /\
  NetResponse (mkResponse 200 "basic" "png") = NetResponse (mkResponse 200 "basic" "png") /\
  status (mkResponse 200 "basic" "png") = 200%Z /\ rtype (mkResponse 200 "basic" "png") = "basic" /\
  (fetch_handler demo_scope [] demo_req (NetResponse (mkResponse 200 "basic" "png"))).1 =
    Responded (mkResponse 200 "basic" "png").
Proof.
  apply (fetch_put_only_ok demo_scope [] demo_req (NetResponse (mkResponse 200 "basic" "png"))).
  reflexivity.
Defined.

Lemma fetch_offline_witness :
  let cs := (install demo_scope demo_net []).1 in
  (fetch_handler demo_scope cs demo_page NetError).2 = None /\
  (accept demo_page = None -> (fetch_handler demo_scope cs demo_page NetError).1 = Rejected) /\
  (forall r, (fetch_handler demo_scope cs demo_page NetError).1 = Responded r ->
     caches_match cs (resolve demo_scope "./index.html") = Some r /\
     exists a, accept demo_page = Some a /\ includes a "text/html" = true).
Proof.
  intros cs. apply fetch_offline; [split; reflexivity | vm_compute; reflexivity].
Defined.
