(* ===== verification/SwLifecycle.v ===== *)
(** * SwLifecycle: the service worker as a sequence of events

    One version of the worker (src/sw.js) goes through the phases the
    browser gives it: [install] runs first; when its [waitUntil] promise
    resolves the worker calls [skipWaiting()] (line 21), so [activate]
    follows without waiting for old pages to close; a failed install makes
    the worker redundant.  Once activated and [clients.claim()]ed (line
    40) it receives the pages' [fetch] events.  The [cache.put] a fetch
    leaves running completes later, as its own step ([SwPutSettle]), in any
    order with the other events.  The [sync] listener (lines 94-104)
    changes nothing: [syncRuns] only logs.

    [Worker] is the phase, the CacheStorage shared with earlier versions
    (its initial content is an input), and the pending [cache.put]s.
    [sw_reachable] is every state reachable from a CacheStorage whose
    stored responses are all ok, as every earlier version of this worker
    stored them. *)

From Stdlib Require Import String ZArith List.
From stdpp Require Import base list gmap strings.
From S2P Require Import Prelude ServiceWorker.

Local Open Scope string_scope.

Inductive Phase := Installing | Installed | Activated | Redundant.

Record Worker := mkWorker {
  phase : Phase;
  caches : list (string * gmap string Response);
  pending : list (string * Response)
}.

Inductive SwEvent :=
| SwInstall (net : string -> option Response)  (** [install], with what the network answers *)
| SwActivate
| SwFetch (req : Request) (net : NetResult)
| SwPutSettle (i : nat)                         (** the [i]-th pending [cache.put] completes *)
| SwSync (tag : string).

(** The [sync] listener: whether it calls [event.waitUntil(syncRuns())]. *)
Definition sync_handler (tag : string) : bool := String.eqb tag "sync-runs".

Definition sw_step (scope : string) (wk : Worker) (ev : SwEvent) : Worker * option FetchResult :=
  match ev with
  | SwInstall net =>
      match phase wk with
      | Installing =>
          let '(cs, success) := install scope net (caches wk) in
          (mkWorker (if success then Installed else Redundant) cs (pending wk), None)
      | _ => (wk, None)
      end
  | SwActivate =>
      match phase wk with
      | Installed => (mkWorker Activated (activate (caches wk)) (pending wk), None)
      | _ => (wk, None)
      end
  | SwFetch req net =>
      match phase wk with
      | Activated =>
          let '(r, p) := fetch_handler scope (caches wk) req net in
          (mkWorker Activated (caches wk) (pending wk ++ option_list p), Some r)
      | _ => (wk, None)
      end
  | SwPutSettle i =>
      match pending wk !! i with
      | Some ur => (mkWorker (phase wk) (put_settle (caches wk) (Some ur)) (delete i (pending wk)), None)
      | None => (wk, None)
      end
  | SwSync tag => (wk, None)
  end.

(** Every response stored in the CacheStorage is ok. *)
Definition caches_ok (cs : list (string * gmap string Response)) : Prop :=
  forall n c k r, In (n, c) cs -> c !! k = Some r -> ok r = true.

Inductive sw_reachable (scope : string) : Worker -> Prop :=
| sw_init cs : caches_ok cs -> sw_reachable scope (mkWorker Installing cs [])
| sw_next wk ev : sw_reachable scope wk -> sw_reachable scope (sw_step scope wk ev).1.

Definition sw_run (scope : string) (wk : Worker) (evs : list SwEvent) : Worker :=
  fold_left (fun wk ev => (sw_step scope wk ev).1) evs wk.

(** After activation only the current cache is left. *)
Definition names_ok (cs : list (string * gmap string Response)) : Prop :=
  forall c, In c cs -> c.1 = CACHE_NAME.

Definition sw_inv (wk : Worker) : Prop :=
  caches_ok (caches wk) /\ (forall u r, In (u, r) (pending wk) -> ok r = true) /\
  (phase wk = Activated -> names_ok (caches wk)).

(** ** Lemmas *)

Lemma caches_match_In cs key r :
  caches_match cs key = Some r -> exists n c, In (n, c) cs /\ c !! key = Some r.
Proof.
  induction cs as [| [n c] cs IH]; simpl; [done |].
  destruct (c !! key) eqn:E; [intros [= <-]; by exists n, c; auto |].
  intros H. destruct (IH H) as (n' & c' & Hin & Hc). exists n', c'. auto.
Qed.

Lemma caches_ok_open name cs : caches_ok cs -> caches_ok (caches_open name cs).
Proof.
  unfold caches_open. destruct (existsb _ cs); [done |].
  intros H n c k r [Hin | [[= <- <-] | []]]%in_app_or; [by eapply H | by rewrite lookup_empty].
Qed.

Lemma cache_put_ok name key r cs : ok r = true -> caches_ok cs -> caches_ok (cache_put name key r cs).
Proof.
  intros Hr Hcs%(caches_ok_open name). unfold cache_put.
  intros n c k r' (c0 & E & Hin)%in_map_iff.
  destruct (String.eqb c0.1 name); [injection E as <- <- | subst c0; by eapply Hcs].
  rewrite lookup_insert. case_decide; [by intros [= <-] |]. destruct c0. by eapply Hcs.
Qed.

Lemma caches_ok_filter f cs : caches_ok cs -> caches_ok (List.filter f cs).
Proof. intros H n c k r Hin. apply filter_In in Hin as [Hin _]. by eapply H. Qed.

Lemma activate_filter cs :
  exists f, activate cs = List.filter f cs /\ forall c, In c (activate cs) -> c.1 = CACHE_NAME.
Proof.
  unfold activate. rewrite fold_delete. eexists. split; [reflexivity |].
  intros c (Hin & Hc)%filter_In. rewrite (existsb_name_In cs c Hin), orb_false_r in Hc.
  by apply String.eqb_eq.
Qed.

Lemma install_ok scope net cs : caches_ok cs -> caches_ok (install scope net cs).1.
Proof.
  intros Hcs. unfold install. pose proof (caches_ok_open CACHE_NAME cs Hcs) as Ho.
  destruct (fetch_all net _) as [rs |] eqn:F; [| exact Ho].
  destruct (fetch_all_Some _ _ _ F) as [_ Hrs]. simpl. clear F.
  revert Ho. generalize (caches_open CACHE_NAME cs). induction Hrs as [| [u r] rs [_ Hr] _ IH];
    intros cs' Ho; simpl; [done |]. by apply IH, cache_put_ok.
Qed.

Lemma cache_put_names key r cs : names_ok cs -> names_ok (cache_put CACHE_NAME key r cs).
Proof.
  intros H. unfold cache_put, caches_open.
  intros c (c0 & E & Hin)%in_map_iff.
  destruct (String.eqb c0.1 CACHE_NAME) eqn:En; subst; [by apply String.eqb_eq |].
  destruct (existsb _ cs); [by apply H |]. apply in_app_or in Hin as [Hin | [<- | []]]; [by apply H | done].
Qed.

Lemma ok_200 r : status r = 200%Z -> ok r = true.
Proof. unfold ok. by intros ->. Qed.

Lemma sw_step_inv scope wk ev : sw_inv wk -> sw_inv (sw_step scope wk ev).1.
Proof.
  intros Hw. pose proof Hw as (Hc & Hp & Hn). destruct ev as [net | | req net | i | tag]; simpl.
  - destruct (phase wk); try exact Hw. pose proof (install_ok scope net _ Hc) as Hi.
    destruct (install scope net (caches wk)) as [cs b]. split_and!; simpl; [done | done | by destruct b].
  - destruct (phase wk); try exact Hw. destruct (activate_filter (caches wk)) as (f & E & Hf).
    split_and!; simpl; [rewrite E; by apply caches_ok_filter | done | intros _; exact Hf].
  - destruct (phase wk); try exact Hw.
    destruct (fetch_handler scope (caches wk) req net) as [r p] eqn:F.
    split_and!; simpl; [done | | intros _; by apply Hn].
    intros u r' [Hin | Hin]%in_app_or; [by eapply Hp |].
    destruct p as [[u' r''] |]; simpl in Hin; [| done]. destruct Hin as [[= <- <-] | []].
    apply ok_200. apply (fetch_handler_put_cases scope (caches wk) req net u'). by rewrite F.
  - destruct (pending wk !! i) as [[u r] |] eqn:E; [| exact Hw].
    assert (Hr : ok r = true) by (eapply Hp, list_elem_of_In, list_elem_of_lookup_2, E).
    split_and!; simpl; [by apply cache_put_ok | | intros Ph; by apply cache_put_names, Hn].
    intros u' r' Hin. eapply Hp, list_elem_of_In, elem_of_delete_list, list_elem_of_In, Hin.
  - exact Hw.
Qed.

Lemma sw_reachable_inv scope wk : sw_reachable scope wk -> sw_inv wk.
Proof. induction 1 as [cs Hcs | wk ev _ IH]; [by split_and! | by apply sw_step_inv]. Qed.

Lemma sw_reachable_run scope wk evs : sw_reachable scope wk -> sw_reachable scope (sw_run scope wk evs).
Proof.
  unfold sw_run. revert wk. induction evs as [| ev evs IH]; intros wk R; [done |].
  simpl. apply IH. by apply sw_next.
Qed.

(** ** Theorem *)

(** C29: whatever the network answers and in whatever order the
    installation, activation, fetches and pending [cache.put]s happen, the
    worker never serves a cached error: every response [caches.match]
    finds is ok (status 200-299), since [addAll] stores only ok responses
    and the [fetch] listener only status 200; and once activated, only the
    cache [CACHE_NAME] is left, a late [cache.put] included. *)
Theorem sw_cache_serves_ok scope wk :
  sw_reachable scope wk ->
  (forall key r, caches_match (caches wk) key = Some r -> ok r = true) /\
  (phase wk = Activated -> forall c, In c (caches wk) -> c.1 = CACHE_NAME).
Proof.
  intros R. destruct (sw_reachable_inv scope wk R) as (Hc & _ & Hn). split; [| exact Hn].
  intros key r (n & c & Hin & Hk)%caches_match_In. by eapply Hc.
Qed.

(** ** Witness *)

(** A first install over an old version's cache, activation, a fetch of
    an image that is stored, its [cache.put] completing. *)
Definition demo_worker : Worker :=
  sw_run demo_scope (mkWorker Installing [("runflow-v0.9", <["https://runflow.app/app.js" := mkResponse 200 "basic" "old"]> ∅)] [])
    [SwInstall demo_net; SwActivate; SwFetch demo_req (NetResponse (mkResponse 200 "basic" "png"));
     SwSync "sync-runs"; SwPutSettle 0].

Lemma sw_cache_serves_ok_witness :
  sw_reachable demo_scope demo_worker /\ phase demo_worker = Activated /\
  caches_match (caches demo_worker) (url demo_req) = Some (mkResponse 200 "basic" "png") /\
  ok (mkResponse 200 "basic" "png") = true /\
  (forall c, In c (caches demo_worker) -> c.1 = CACHE_NAME).
Proof.
  assert (R : sw_reachable demo_scope demo_worker).
  { apply sw_reachable_run, sw_init. intros n c k r [[= <- <-] | []].
    rewrite lookup_insert. case_decide; [intros [= <-]; reflexivity | by rewrite lookup_empty]. }
  destruct (sw_cache_serves_ok demo_scope demo_worker R) as [H1 H2].
  assert (P : phase demo_worker = Activated) by (vm_compute; reflexivity).
  assert (M : caches_match (caches demo_worker) (url demo_req) = Some (mkResponse 200 "basic" "png"))
    by (vm_compute; reflexivity).
  split_and!; [exact R | exact P | exact M | exact (H1 _ _ M) | exact (H2 P)].
Defined.
