(* ===== verification/Pwa.v ===== *)
(** * Pwa: the install prompt of [setupPWAInstall] (app.js lines 1019-1044)

    [setupPWAInstall] keeps one variable, [deferredPrompt], shared by all
    the closures it creates.  Each [beforeinstallprompt] event stores the
    event there, shows the install button and adds a new [click] listener
    to the button; listeners are never removed, so after [n] such events a
    click runs [n] listeners, in order.  A listener hides the button, calls
    [deferredPrompt.prompt()] and registers a callback on
    [deferredPrompt.userChoice] that sets [deferredPrompt = null].

    [Pwa] is that state together with what the browser keeps about the
    events: which events have shown their dialog ([prompted]; a second
    [prompt()] on the same event returns a rejected promise), which dialogs
    the user has answered ([answered]: their [userChoice] promise is
    resolved), and the [userChoice] callbacks still pending.  Events are
    numbered in arrival order ([next_event]).  A callback registered on an
    already resolved [userChoice] runs in the microtask checkpoint that
    follows its listener, before the next listener.

    [deferredPrompt] is [undefined] before the first event and [null] after
    a choice; both are [None], and calling [.prompt()] on them throws a
    [TypeError] that aborts the listener ([OTypeError]). *)

From Stdlib Require Import List Lia.
From stdpp Require Import base list sets.
From S2P Require Import Prelude.

Record Pwa := mkPwa {
  deferredPrompt : option nat;
  installShown : bool;          (** [installBtn.style.display] is ["block"] *)
  clickListeners : nat;         (** click listeners on [installBtn] *)
  prompted : list nat;
  answered : list nat;
  choiceCallbacks : list nat;   (** pending [userChoice.then] callbacks, by event *)
  next_event : nat
}.

(** What a click listener does with the prompt. *)
Inductive Outcome :=
| OTypeError (** [deferredPrompt] is [undefined] or [null] *)
| OPromptShown (e : nat) (** the install dialog of event [e] opens *)
| OPromptRejected (e : nat). (** [e] has prompted before: [prompt()] rejects *)

Inductive PwaEvent :=
| EvBeforeInstallPrompt (** the browser offers installation *)
| EvInstallClick (** the visible install button is clicked *)
| EvUserChoice (e : nat) (** the user answers the dialog of event [e] *)
| EvAppInstalled. (** the app is installed *)

Definition pwa_init : Pwa := mkPwa None false 0 [] [] [] 0.

Definition mem (e : nat) (l : list nat) : bool := existsb (Nat.eqb e) l.

(** The [beforeinstallprompt] listener (lines 1022-1027):
    [deferredPrompt = e], the button shown, one more click listener. *)
Definition before_install_prompt (p : Pwa) : Pwa :=
  mkPwa (Some (next_event p)) true (S (clickListeners p)) (prompted p) (answered p)
    (choiceCallbacks p) (S (next_event p)).

(** One click listener (lines 1028-1036) and the microtasks it queues. *)
Definition click_listener (p : Pwa) : Pwa * Outcome :=
  match deferredPrompt p with
  | None => (mkPwa None false (clickListeners p) (prompted p) (answered p) (choiceCallbacks p)
               (next_event p), OTypeError)
  | Some e =>
      let '(pr, o) := if mem e (prompted p) then (prompted p, OPromptRejected e)
                      else (prompted p ++ [e], OPromptShown e) in
      if mem e (answered p)
      then (mkPwa None false (clickListeners p) pr (answered p) (choiceCallbacks p) (next_event p), o)
      else (mkPwa (Some e) false (clickListeners p) pr (answered p) (choiceCallbacks p ++ [e])
              (next_event p), o)
  end.

(** The listeners of one click, in registration order. *)
Fixpoint run_listeners (n : nat) (p : Pwa) : Pwa * list Outcome :=
  match n with
  | O => (p, [])
  | S n' =>
      let '(p1, o) := click_listener p in
      let '(p2, os) := run_listeners n' p1 in (p2, o :: os)
  end.

(** The user answers the dialog of [e]: its [userChoice] resolves and every
    callback registered on it sets [deferredPrompt = null]. *)
Definition user_choice (p : Pwa) (e : nat) : Pwa :=
  mkPwa (if mem e (choiceCallbacks p) then None else deferredPrompt p) (installShown p)
    (clickListeners p) (prompted p) (answered p ++ [e])
    (List.filter (fun x => negb (Nat.eqb x e)) (choiceCallbacks p)) (next_event p).

Definition pwa_step (p : Pwa) (ev : PwaEvent) : Pwa * list Outcome :=
  match ev with
  | EvBeforeInstallPrompt => (before_install_prompt p, [])
  | EvInstallClick => if installShown p then run_listeners (clickListeners p) p else (p, [])
  | EvUserChoice e =>
      if mem e (prompted p) && negb (mem e (answered p)) then (user_choice p e, []) else (p, [])
  | EvAppInstalled =>
      (mkPwa (deferredPrompt p) false (clickListeners p) (prompted p) (answered p)
         (choiceCallbacks p) (next_event p), [])
  end.

(** A sequence of events from a state: the final state and every outcome. *)
Fixpoint pwa_run (p : Pwa) (evs : list PwaEvent) : Pwa * list Outcome :=
  match evs with
  | [] => (p, [])
  | ev :: evs' =>
      let '(p1, os1) := pwa_step p ev in
      let '(p2, os2) := pwa_run p1 evs' in (p2, os1 ++ os2)
  end.

(** ** Lemmas *)

Lemma mem_spec e l : mem e l = true <-> e ∈ l.
Proof.
  unfold mem. rewrite existsb_exists, list_elem_of_In. split.
  - intros (x & Hx & E). by apply Nat.eqb_eq in E as ->.
  - intros H. exists e. split; [done | apply Nat.eqb_refl].
Qed.

Lemma mem_false e l : mem e l = false <-> e ∉ l.
Proof. rewrite <- mem_spec. destruct (mem e l); split; congruence || done. Qed.

Lemma run_listeners_S n p :
  run_listeners (S n) p =
    let '(p1, o) := click_listener p in let '(p2, os) := run_listeners n p1 in (p2, o :: os).
Proof. reflexivity. Qed.

(** Once [deferredPrompt] is gone, every listener throws. *)
Lemma run_listeners_none n p :
  deferredPrompt p = None -> (run_listeners n p).2 = repeat OTypeError n /\
  deferredPrompt (run_listeners n p).1 = None.
Proof.
  revert p. induction n as [| n IH]; intros p D; [done |]. cbn [run_listeners]. unfold click_listener. rewrite D.
  destruct (IH (mkPwa None false (clickListeners p) (prompted p) (answered p) (choiceCallbacks p)
                  (next_event p)) eq_refl) as [H1 H2].
  destruct (run_listeners n _) as [p2 os]. simpl in *. by subst.
Qed.

(** Listeners that find an event which has already prompted, and whose
    dialog is still open, each get a rejected promise and add a callback. *)
Lemma run_listeners_prompted n p e :
  deferredPrompt p = Some e -> mem e (prompted p) = true -> mem e (answered p) = false ->
  run_listeners (S n) p =
    (mkPwa (Some e) false (clickListeners p) (prompted p) (answered p)
       (choiceCallbacks p ++ repeat e (S n)) (next_event p), repeat (OPromptRejected e) (S n)).
Proof.
  revert p. induction n as [| n IH]; intros p D Pr An;
    rewrite run_listeners_S; unfold click_listener; rewrite D, Pr, An; [done |].
  rewrite IH by done. simpl. by rewrite <- app_assoc.
Qed.

Lemma run_listeners_clickListeners n p : clickListeners (run_listeners n p).1 = clickListeners p.
Proof.
  revert p. induction n as [| n IH]; intros p; [done |]. rewrite run_listeners_S.
  destruct (click_listener p) as [p1 o] eqn:E. specialize (IH p1).
  destruct (run_listeners n p1). simpl in *. rewrite IH.
  unfold click_listener in E. repeat case_match; by simplify_eq/=.
Qed.

(** ** The invariant *)

(** Every pending [userChoice] callback belongs to a dialog that is open;
    the stored event has arrived; one click listener per offer received;
    the button is only shown after an offer. *)
Definition pwa_inv (p : Pwa) : Prop :=
  (forall e, e ∈ choiceCallbacks p -> e ∈ prompted p /\ e ∉ answered p) /\
  (forall e, deferredPrompt p = Some e -> e < next_event p) /\
  clickListeners p = next_event p /\
  (installShown p = true -> 0 < next_event p).

Lemma click_listener_inv p : pwa_inv p -> pwa_inv (click_listener p).1 /\
  next_event (click_listener p).1 = next_event p /\ clickListeners (click_listener p).1 = clickListeners p.
Proof.
  intros (Hc & Hd & Hl & Hs). unfold click_listener.
  destruct (deferredPrompt p) as [e |] eqn:D; [| split_and!; simpl; try done; by split_and!].
  destruct (mem e (prompted p)) eqn:Pr, (mem e (answered p)) eqn:An; simpl;
    apply mem_spec in Pr || apply mem_false in Pr; apply mem_spec in An || apply mem_false in An;
    (split; [split_and!; simpl; try done | done]).
  all: try (intros x Hx; destruct (Hc x Hx); split; [set_solver | done]).
  all: intros x [Hx | ->%list_elem_of_singleton]%elem_of_app; [destruct (Hc x Hx); set_solver | set_solver].
Qed.

Lemma run_listeners_inv n p : pwa_inv p -> pwa_inv (run_listeners n p).1 /\
  next_event (run_listeners n p).1 = next_event p.
Proof.
  revert p. induction n as [| n IH]; intros p Hp; [done |]. rewrite run_listeners_S.
  destruct (click_listener_inv p Hp) as (H1 & H2 & _).
  destruct (click_listener p) as [p1 o]. destruct (IH p1 H1) as [H3 H4].
  destruct (run_listeners n p1). simpl in *. split; [done | congruence].
Qed.

Lemma pwa_step_inv p ev : pwa_inv p -> pwa_inv (pwa_step p ev).1.
Proof.
  intros Hp. pose proof Hp as (Hc & Hd & Hl & Hs). destruct ev as [| | e |]; simpl.
  - split_and!; simpl; [done | intros e [= <-]; lia | by rewrite Hl | lia].
  - destruct (installShown p); [| done]. apply run_listeners_inv, Hp.
  - destruct (mem e (prompted p)) eqn:Pr, (mem e (answered p)) eqn:An; simpl; try done.
    apply mem_spec in Pr. split_and!; simpl; try done.
    + intros x Hx. apply list_elem_of_In, filter_In in Hx as [Hx Hne].
      apply list_elem_of_In in Hx. destruct (Hc x Hx).
      apply negb_true_iff, Nat.eqb_neq in Hne. set_solver.
    + intros x. case_match; [done | apply Hd].
  - split_and!; simpl; try done.
Qed.

Definition count_offers (evs : list PwaEvent) : nat :=
  length (List.filter (fun ev => match ev with EvBeforeInstallPrompt => true | _ => false end) evs).

Lemma pwa_step_next p ev :
  pwa_inv p -> next_event (pwa_step p ev).1 = next_event p + count_offers [ev].
Proof.
  intros Hp. unfold count_offers. destruct ev; simpl; try lia.
  - destruct (installShown p); simpl; [| lia]. rewrite (proj2 (run_listeners_inv _ p Hp)). lia.
  - case_match; simpl; lia.
Qed.

Lemma pwa_run_inv p evs : pwa_inv p ->
  pwa_inv (pwa_run p evs).1 /\ next_event (pwa_run p evs).1 = next_event p + count_offers evs.
Proof.
  revert p. induction evs as [| ev evs IH]; intros p Hp; [unfold count_offers; simpl; split; [done | lia] |]. simpl.
  pose proof (pwa_step_inv p ev Hp) as H1. pose proof (pwa_step_next p ev Hp) as H2.
  destruct (pwa_step p ev) as [p1 os1]. destruct (IH p1 H1) as [H3 H4].
  destruct (pwa_run p1 evs). simpl in *. split; [done |]. rewrite H4, H2.
  unfold count_offers. simpl. destruct ev; simpl; lia.
Qed.

Lemma pwa_inv_init : pwa_inv pwa_init.
Proof. split_and!; simpl; [intros ? Hx; set_solver | done | done | done]. Qed.

(** ** Theorems *)

(** C12: after any sequence of events from page load, the install button
    carries exactly one click listener per [beforeinstallprompt] event
    received (listeners are added and never removed), a shown button has
    at least one, and every pending [userChoice] callback belongs to a
    dialog that has opened and is not yet answered. *)
Theorem pwa_listeners_accumulate evs :
  let p := (pwa_run pwa_init evs).1 in
  clickListeners p = count_offers evs /\
  (forall e, e ∈ choiceCallbacks p -> e ∈ prompted p /\ e ∉ answered p) /\
  (installShown p = true -> 0 < clickListeners p).
Proof.
  destruct (pwa_run_inv pwa_init evs pwa_inv_init) as [(Hc & _ & Hl & Hs) Hn]. simpl in Hn.
  split_and!; [congruence | done | rewrite Hl; exact Hs].
Qed.

(** C20: a click on the install button runs every listener registered so
    far against the same stored event: when the event has not prompted
    yet, the first listener opens its dialog and each of the [n] others
    calls [prompt()] again and gets a rejected promise; the button is
    hidden, and one [userChoice] callback per listener is left pending. *)
Theorem install_click_prompts p e n :
  installShown p = true -> clickListeners p = S n -> deferredPrompt p = Some e ->
  e ∉ prompted p -> e ∉ answered p ->
  pwa_step p EvInstallClick =
    (mkPwa (Some e) false (S n) (prompted p ++ [e]) (answered p)
       (choiceCallbacks p ++ repeat e (S n)) (next_event p),
     OPromptShown e :: repeat (OPromptRejected e) n).
Proof.
  intros Sh L D Pr An. apply mem_false in Pr, An. simpl. rewrite Sh, L, run_listeners_S.
  unfold click_listener. rewrite D, Pr, An. simpl. rewrite L.
  destruct n as [| m]; [done |].
  rewrite (run_listeners_prompted _ _ e); simpl; try done.
  - by rewrite <- app_assoc.
  - apply mem_spec. set_solver.
Qed.

(** C34: the [userChoice] callback of an old event clears
    [deferredPrompt] even when a newer event has been stored since: after
    the user answers a dialog whose callbacks are pending, [deferredPrompt]
    is [null], and if the button is shown (a later offer showed it again)
    every listener of the next click throws a [TypeError]. *)
Theorem choice_breaks_install_button p e :
  e ∈ prompted p -> e ∉ answered p -> e ∈ choiceCallbacks p ->
  let p' := (pwa_step p (EvUserChoice e)).1 in
  deferredPrompt p' = None /\
  (installShown p' = true -> (pwa_step p' EvInstallClick).2 = repeat OTypeError (clickListeners p)).
Proof.
  intros Pr An Cb. apply mem_spec in Pr, Cb. apply mem_false in An. simpl.
  rewrite Pr, An. simpl. unfold user_choice. rewrite Cb. split; [done |].
  intros Sh. simpl in Sh |- *. rewrite Sh. by apply run_listeners_none.
Qed.

(** ** Witnesses *)

Lemma install_click_prompts_witness :
  let p := (pwa_run pwa_init [EvBeforeInstallPrompt; EvBeforeInstallPrompt]).1 in
  installShown p = true /\ clickListeners p = 2 /\ deferredPrompt p = Some 1 /\
  pwa_step p EvInstallClick =
    (mkPwa (Some 1) false 2 (prompted p ++ [1]) (answered p)
       (choiceCallbacks p ++ repeat 1 2) (next_event p),
     [OPromptShown 1; OPromptRejected 1]).
Proof.
  split_and!; [reflexivity .. |].
  apply (install_click_prompts _ 1 1); [reflexivity .. | set_solver | set_solver].
Defined.

(** An offer, a click, a second offer before the user answers, then the
    answer to the first dialog: the shown button is broken. *)
Lemma choice_breaks_install_button_witness :
  let p := (pwa_run pwa_init [EvBeforeInstallPrompt; EvInstallClick; EvBeforeInstallPrompt]).1 in
  installShown p = true /\ deferredPrompt p = Some 1 /\
  deferredPrompt (pwa_step p (EvUserChoice 0)).1 = None /\
  (installShown (pwa_step p (EvUserChoice 0)).1 = true ->
   (pwa_step (pwa_step p (EvUserChoice 0)).1 EvInstallClick).2 = [OTypeError; OTypeError]).
Proof.
  intros p.
  assert (H1 : 0 ∈ prompted p) by (vm_compute; set_solver).
  assert (H2 : 0 ∉ answered p) by (vm_compute; set_solver).
  assert (H3 : 0 ∈ choiceCallbacks p) by (vm_compute; set_solver).
  destruct (choice_breaks_install_button p 0 H1 H2 H3) as [T1 T2].
  split_and!; [reflexivity | reflexivity | exact T1 |].
  intros Sh. rewrite (T2 Sh). reflexivity.
Defined.
